(** * Booking, payment and availability workflow of the equipment-rental server

    A shallow embedding of the server side of the repository:

    - the shared schema (the [equipment], [bookings] and [reviews] tables),
    - the storage layer ([DatabaseStorage]),
    - the payment helpers ([server/payment.ts]),
    - the HTTP route handlers of [registerRoutes].

    Conventions of the embedding.

    - A JavaScript [Date] is its time value in milliseconds since the epoch,
      as an integer; [None] stands for an Invalid Date.  Time values are not
      clipped to the range of ECMAScript dates, and the quotient of two
      integers is taken exactly.
    - A JavaScript string is held as its UTF-8 encoding; where the code
      counts the UTF-16 code units of a string, so does the model.
    - A table is the list of its rows in insertion order; [serial] columns
      draw their values from a counter kept next to the table.
    - A storage call runs in a state-and-exception monad over the [World];
      what a call has written before it throws stays written, as the server
      uses no transactions.
    - The database checks the values it is given to store.  An [integer]
      column takes a 32-bit integer and a [timestamp] column a time in the
      years 0001 to 9999: a [Date] is sent as the text [toISOString] gives,
      and that text is read by PostgreSQL for these years only.  A primary
      key takes no value twice.  A statement that offends is refused as a
      whole, changes nothing and makes the storage call throw.  Apart from
      that the database is reliable: a query throws only where the code or
      the query builder throws.
    - Three things are taken for granted of what reaches the storage layer:
      the row id of a lookup is a 32-bit integer, a string holds no NUL
      character, and the clock reads a time the database can store.
    - An error raised by the JavaScript runtime itself is thrown with the
      name of its class as message.
    - The cryptographic primitive, the JSON parser and the payment gateway
      are collaborators collected in an [Env].
    - [new Date()] reads the clock once per request: the handler's [now]. *)

From Stdlib Require Import ZArith QArith List String Ascii Bool Lia Sorted Permutation.
Import ListNotations.

#[local] Open Scope string_scope.
#[local] Open Scope list_scope.
#[local] Open Scope Z_scope.

(** ** Dates *)

Definition Date := option Z.

Definition msPerDay : Z := 1000 * 3600 * 24.

(** [d.setUTCHours(0, 0, 0, 0)] on a valid time value. *)
Definition startOfDayUTC (t : Z) : Z := (t / msPerDay) * msPerDay.

(** [d.setUTCHours(23, 59, 59, 999)] on a valid time value. *)
Definition endOfDayUTC (t : Z) : Z :=
  (t / msPerDay) * msPerDay + (23 * 3600000 + 59 * 60000 + 59 * 1000 + 999).

(** Days since the epoch of a proleptic Gregorian date, and the time value
    of its UTC midnight: what [new Date("YYYY-MM-DD")] denotes. *)
Definition daysFromCivil (y m d : Z) : Z :=
  let y' := if m <=? 2 then y - 1 else y in
  let era := y' / 400 in
  let yoe := y' - era * 400 in
  let mp := (m + 9) mod 12 in
  let doy := (153 * mp + 2) / 5 + d - 1 in
  let doe := yoe * 365 + yoe / 4 - yoe / 100 + doy in
  era * 146097 + doe - 719468.

Definition utcMidnight (y m d : Z) : Z := daysFromCivil y m d * msPerDay.

(** [Math.ceil(a / b)] for integers [a] and a positive [b]. *)
Definition ceilDiv (a b : Z) : Z := - ((- a) / b).

(** ** What the database stores

    The range of an [integer] column, and the time values of a [timestamp]
    column: from 0001-01-01T00:00:00.000Z to 9999-12-31T23:59:59.999Z. *)

Definition int4 (n : Z) : bool := (-2147483648 <=? n) && (n <=? 2147483647).

Definition minTimestamp : Z := -62135596800000.

Definition maxTimestamp : Z := 253402300799999.

Definition storableDate (t : Z) : bool := (minTimestamp <=? t) && (t <=? maxTimestamp).

(** A value of an optional column: nothing to check when it is not given. *)
Definition int4If (n : option Z) : bool :=
  match n with Some v => int4 v | None => true end.

(** ** Schema *)

Record Equipment := mkEquipment {
  e_id : Z;
  ownerId : Z;
  name : string;
  description : string;
  category : string;
  dailyRate : Z;
  imageUrl : string;
  location : string;
  availability : bool;
  specs : string;
  features : string;
  e_createdAt : Z;
  popularity : Z
}.

Record Booking := mkBooking {
  b_id : Z;
  equipmentId : Z;
  userId : Z;
  startDate : Z;
  endDate : Z;
  totalPrice : Z;
  status : string;
  razorpayOrderId : option string;
  razorpayPaymentId : option string;
  isRated : bool;
  createdAt : Z;
  lastStatusUpdate : Z
}.

Record Review := mkReview {
  r_id : Z;
  r_userId : Z;
  r_equipmentId : Z;
  rating : Z;
  comment : string;
  r_createdAt : Z
}.

(** The object handed to [updateEquipment]: the columns it may name.  The
    type of the parameter, [Partial<InsertEquipment>], leaves out [id],
    [createdAt] and [popularity], but the edit route passes the request body
    as it came, so these can be named as well.  [set_createdAt] is [Some
    None] for a value that is not a valid [Date]. *)
Record EquipmentPatch := mkEquipmentPatch {
  set_id : option Z;
  set_ownerId : option Z;
  set_name : option string;
  set_description : option string;
  set_category : option string;
  set_dailyRate : option Z;
  set_imageUrl : option string;
  set_location : option string;
  set_availability : option bool;
  set_specs : option string;
  set_features : option string;
  set_createdAt : option Date;
  set_popularity : option Z
}.

(** [Partial<Booking>], restricted to the columns the routes set. *)
Record BookingPatch := mkBookingPatch {
  set_status : option string;
  set_razorpayOrderId : option string;
  set_razorpayPaymentId : option string;
  set_isRated : option bool
}.

Definition availabilityPatch (v : option bool) : EquipmentPatch :=
  mkEquipmentPatch None None None None None None None None v None None None None.

(** [InsertBooking] as the booking route hands it to [createBooking]. *)
Record InsertBooking := mkInsertBooking {
  ib_equipmentId : Z;
  ib_userId : Z;
  ib_startDate : Z;
  ib_endDate : Z;
  ib_totalPrice : Z;
  ib_status : string;
  ib_razorpayOrderId : option string;
  ib_razorpayPaymentId : option string
}.

(** The validated review.  Its rating is a number, not necessarily whole. *)
Record InsertReview := mkInsertReview {
  ir_userId : Z;
  ir_equipmentId : Z;
  ir_rating : Q;
  ir_comment : string
}.

(** ** The world: tables, sequences, and a journal of effects

    The journal is ghost state.  It lists, oldest first, every insert and
    update the storage layer sent to the database, and every call made to
    the payment gateway.  Deletions are not journaled. *)

Inductive Effect :=
| DbInsertBooking (id : Z) (st : string)
| DbUpdateBooking (id : Z) (p : BookingPatch)
| DbUpdateEquipment (id : Z) (p : EquipmentPatch)
| DbInsertReview (id : Z)
| GwOrdersCreate (bookingId amountInPaise : Z)
| GwPaymentsFetch (paymentId : string).

Record World := mkWorld {
  equipmentTable : list Equipment;
  bookings : list Booking;
  reviews : list Review;
  bookings_id_seq : Z;
  reviews_id_seq : Z;
  journal : list Effect
}.

(** ** State-and-exception monad *)

Inductive outcome (A : Type) :=
| Return (a : A)
| Throw (msg : string).
Arguments Return {A} a.
Arguments Throw {A} msg.

Definition M (A : Type) := World -> outcome A * World.

Definition ret {A} (a : A) : M A := fun w => (Return a, w).

Definition throw {A} (msg : string) : M A := fun w => (Throw msg, w).

Definition bind {A B} (m : M A) (k : A -> M B) : M B :=
  fun w => match m w with
           | (Return a, w') => k a w'
           | (Throw e, w') => (Throw e, w')
           end.

Definition tryCatch {A} (m : M A) (h : string -> M A) : M A :=
  fun w => match m w with
           | (Return a, w') => (Return a, w')
           | (Throw e, w') => h e w'
           end.

Definition get : M World := fun w => (Return w, w).

Notation "x <- m ;; k" := (bind m (fun x => k))
  (at level 61, m at next level, right associativity).
Notation "m ;;; k" := (bind m (fun _ => k))
  (at level 61, right associativity).

Definition record (e : Effect) : M unit :=
  fun w => (Return tt,
            mkWorld (equipmentTable w) (bookings w) (reviews w)
                    (bookings_id_seq w) (reviews_id_seq w) (journal w ++ [e])).

(** ** Storage layer ([DatabaseStorage]) *)

Module Storage.

Definition orElse {A} (o : option A) (d : A) : A :=
  match o with Some a => a | None => d end.

(** [UPDATE equipment SET data]: the row after the update. *)
Definition applyEquipmentPatch (p : EquipmentPatch) (e : Equipment) : Equipment :=
  mkEquipment (orElse (set_id p) (e_id e))
    (orElse (set_ownerId p) (ownerId e))
    (orElse (set_name p) (name e))
    (orElse (set_description p) (description e))
    (orElse (set_category p) (category e))
    (orElse (set_dailyRate p) (dailyRate e))
    (orElse (set_imageUrl p) (imageUrl e))
    (orElse (set_location p) (location e))
    (orElse (set_availability p) (availability e))
    (orElse (set_specs p) (specs e))
    (orElse (set_features p) (features e))
    (match set_createdAt p with Some (Some t) => t | _ => e_createdAt e end)
    (orElse (set_popularity p) (popularity e)).

Definition isSome {A} (o : option A) : bool :=
  match o with Some _ => true | None => false end.

(** The query builder refuses an update whose every field is [undefined]. *)
Definition equipmentPatchEmpty (p : EquipmentPatch) : bool :=
  negb (isSome (set_id p) || isSome (set_ownerId p) || isSome (set_name p)
        || isSome (set_description p) || isSome (set_category p)
        || isSome (set_dailyRate p) || isSome (set_imageUrl p)
        || isSome (set_location p) || isSome (set_availability p) || isSome (set_specs p)
        || isSome (set_features p) || isSome (set_createdAt p)
        || isSome (set_popularity p)).

(** The new id of an update is the id of a row that the update leaves
    alone, while the update does change a row. *)
Definition idTaken (id : Z) (p : EquipmentPatch) (rows : list Equipment) : bool :=
  match set_id p with
  | Some n =>
      existsb (fun e => e_id e =? id) rows
      && existsb (fun e => (e_id e =? n) && negb (e_id e =? id)) rows
  | None => false
  end.

(** An update of [equipment] that is not carried out: a value for
    [created_at] on which the query builder cannot call [toISOString] or
    which the column does not take, an integer out of range, or a primary
    key that is taken. *)
Definition equipmentUpdateRefused (id : Z) (p : EquipmentPatch) (rows : list Equipment)
  : bool :=
  match set_createdAt p with
  | Some None => true
  | Some (Some t) => negb (storableDate t)
  | None => false
  end
  || negb (int4If (set_id p) && int4If (set_ownerId p) && int4If (set_dailyRate p)
           && int4If (set_popularity p))
  || idTaken id p rows.

(** [UPDATE bookings SET ...data, lastStatusUpdate = now]: a column given
    in [data] takes the new value, also a nullable one. *)
Definition applyBookingPatch (p : BookingPatch) (now : Z) (b : Booking) : Booking :=
  mkBooking (b_id b) (equipmentId b) (userId b) (startDate b) (endDate b) (totalPrice b)
    (orElse (set_status p) (status b))
    (match set_razorpayOrderId p with Some o => Some o | None => razorpayOrderId b end)
    (match set_razorpayPaymentId p with Some o => Some o | None => razorpayPaymentId b end)
    (orElse (set_isRated p) (isRated b))
    (createdAt b) now.

Definition withEquipmentTable (rows : list Equipment) : M unit :=
  fun w => (Return tt, mkWorld rows (bookings w) (reviews w)
                               (bookings_id_seq w) (reviews_id_seq w) (journal w)).

Definition withBookings (rows : list Booking) (seq : Z) : M unit :=
  fun w => (Return tt, mkWorld (equipmentTable w) rows (reviews w)
                               seq (reviews_id_seq w) (journal w)).

Definition withReviews (rows : list Review) (seq : Z) : M unit :=
  fun w => (Return tt, mkWorld (equipmentTable w) (bookings w) rows
                               (bookings_id_seq w) seq (journal w)).

Definition getEquipment (id : Z) : M (option Equipment) :=
  w <- get ;;
  ret (find (fun e => e_id e =? id) (equipmentTable w)).

(** [UPDATE equipment SET data WHERE id = ... RETURNING *]: the first
    updated row is returned. *)
Definition updateEquipment (id : Z) (data : EquipmentPatch) : M Equipment :=
  tryCatch
    (if equipmentPatchEmpty data then throw "No values to set"
     else
       w <- get ;;
       if equipmentUpdateRefused id data (equipmentTable w)
       then throw "The update is refused"
       else
         let rows := map (fun e => if e_id e =? id then applyEquipmentPatch data e else e)
                         (equipmentTable w) in
         withEquipmentTable rows ;;;
         record (DbUpdateEquipment id data) ;;;
         match find (fun e => e_id e =? id) (equipmentTable w) with
         | Some equipment => ret (applyEquipmentPatch data equipment)
         | None => throw "Equipment not found"
         end)
    (fun _ => throw "Failed to update equipment").

Definition getBooking (id : Z) : M (option Booking) :=
  w <- get ;;
  ret (find (fun b => b_id b =? id) (bookings w)).

(** [ORDER BY created_at DESC].  Rows with equal timestamps, whose order
    the database leaves open, keep their table order. *)
Fixpoint insertByCreatedAtDesc (b : Booking) (l : list Booking) : list Booking :=
  match l with
  | [] => [b]
  | x :: r => if createdAt x <=? createdAt b then b :: x :: r
              else x :: insertByCreatedAtDesc b r
  end.

Fixpoint orderByCreatedAtDesc (l : list Booking) : list Booking :=
  match l with
  | [] => []
  | b :: r => insertByCreatedAtDesc b (orderByCreatedAtDesc r)
  end.

(** [listBookings(userId?)]: [if (userId)] is false for a missing id and
    for the number 0. *)
Definition listBookings (user : option Z) : M (list Booking) :=
  w <- get ;;
  match user with
  | Some u =>
      if u =? 0 then ret (orderByCreatedAtDesc (bookings w))
      else ret (orderByCreatedAtDesc (filter (fun b => userId b =? u) (bookings w)))
  | None => ret (orderByCreatedAtDesc (bookings w))
  end.

(** [insertBooking.status || 'pending']. *)
Definition statusOrPending (s : string) : string :=
  if String.eqb s "" then "pending" else s.

(** The database takes the row: its three integers fit their columns and
    its two dates are times a [timestamp] column holds. *)
Definition bookingStorable (ib : InsertBooking) : bool :=
  int4 (ib_equipmentId ib) && int4 (ib_userId ib) && int4 (ib_totalPrice ib)
  && storableDate (ib_startDate ib) && storableDate (ib_endDate ib).

Definition createBooking (ib : InsertBooking) (now : Z) : M Booking :=
  tryCatch
    (if negb (bookingStorable ib) then throw "The insert is refused"
     else
       w <- get ;;
       let booking :=
         mkBooking (bookings_id_seq w) (ib_equipmentId ib) (ib_userId ib)
                   (ib_startDate ib) (ib_endDate ib) (ib_totalPrice ib)
                   (statusOrPending (ib_status ib))
                   (ib_razorpayOrderId ib) (ib_razorpayPaymentId ib)
                   false now now in
       withBookings (bookings w ++ [booking]) (bookings_id_seq w + 1) ;;;
       record (DbInsertBooking (b_id booking) (status booking)) ;;;
       ret booking)
    (fun _ => throw "Failed to create booking").

Definition updateBooking (id : Z) (data : BookingPatch) (now : Z) : M Booking :=
  tryCatch
    (w <- get ;;
     let rows := map (fun b => if b_id b =? id then applyBookingPatch data now b else b)
                     (bookings w) in
     withBookings rows (bookings_id_seq w) ;;;
     record (DbUpdateBooking id data) ;;;
     match find (fun b => b_id b =? id) rows with
     | Some booking => ret booking
     | None => throw "Booking not found"
     end)
    (fun _ => throw "Failed to update booking").

Definition updateBookingStatus (id : Z) (st : string) (now : Z) : M Booking :=
  tryCatch
    (w <- get ;;
     let data := mkBookingPatch (Some st) None None None in
     let rows := map (fun b => if b_id b =? id then applyBookingPatch data now b else b)
                     (bookings w) in
     withBookings rows (bookings_id_seq w) ;;;
     record (DbUpdateBooking id data) ;;;
     match find (fun b => b_id b =? id) rows with
     | Some booking => ret booking
     | None => throw "Booking not found"
     end)
    (fun _ => throw "Failed to update booking status").

(** The three overlap cases of the date-range query, on normalized bounds. *)
Definition startsWithin (start end_ : Z) (b : Booking) : bool :=
  (start <=? startDate b) && (startDate b <=? end_).

Definition endsWithin (start end_ : Z) (b : Booking) : bool :=
  (start <=? endDate b) && (endDate b <=? end_).

Definition spansRange (start end_ : Z) (b : Booking) : bool :=
  (startDate b <=? start) && (end_ <=? endDate b).

Definition inDateRange (equipment : Z) (start end_ : Z) (b : Booking) : bool :=
  (equipmentId b =? equipment)
  && (startsWithin start end_ b || endsWithin start end_ b || spansRange start end_ b).

(** The query compares the two timestamp columns with the normalized
    bounds; it is refused when a bound is not a time the columns hold, and
    the [catch] block then answers with no rows. *)
Definition getBookingsByDateRange (equipment : Z) (startDate endDate : Date)
  : M (list Booking) :=
  tryCatch
    (match startDate, endDate with
     | Some s, Some e =>
         let start := startOfDayUTC s in
         let end_ := endOfDayUTC e in
         if negb (storableDate start && storableDate end_)
         then throw "The query is refused"
         else
           w <- get ;;
           ret (filter (inDateRange equipment start end_) (bookings w))
     | _, _ => ret []
     end)
    (fun _ => ret []).

Definition isConflicting (b : Booking) : bool :=
  String.eqb (status b) "paid" || String.eqb (status b) "awaiting_payment".

Definition checkEquipmentAvailability (equipment : Z) (startDate endDate : Date)
  : M bool :=
  tryCatch
    (eq <- getEquipment equipment ;;
     match eq with
     | None => ret false
     | Some e =>
         if negb (availability e) then ret false
         else
           existingBookings <- getBookingsByDateRange equipment startDate endDate ;;
           let hasConflictingBooking := existsb isConflicting existingBookings in
           ret (negb hasConflictingBooking)
     end)
    (fun _ => throw "Failed to check equipment availability").

(** A number is whole, and the integer it then is. *)
Definition isWhole (q : Q) : bool := (Z.pos (Qden (Qred q)) =? 1)%Z.

Definition wholePart (q : Q) : Z := Qnum (Qred q).

(** The database takes the review: [rating] is an [integer] column, which
    takes a whole number only, and so are the two ids. *)
Definition reviewStorable (review : InsertReview) : bool :=
  int4 (ir_userId review) && int4 (ir_equipmentId review)
  && isWhole (ir_rating review) && int4 (wholePart (ir_rating review)).

Definition createReview (review : InsertReview) (now : Z) : M Review :=
  tryCatch
    (if negb (reviewStorable review) then throw "The insert is refused"
     else
       w <- get ;;
       let newReview :=
         mkReview (reviews_id_seq w) (ir_userId review) (ir_equipmentId review)
                  (wholePart (ir_rating review)) (ir_comment review) now in
       withReviews (reviews w ++ [newReview]) (reviews_id_seq w + 1) ;;;
       record (DbInsertReview (r_id newReview)) ;;;
       ret newReview)
    (fun _ => throw "Failed to create review").

(** [DELETE FROM equipment WHERE id = ...] *)
Definition deleteEquipment (id : Z) : M unit :=
  w <- get ;;
  withEquipmentTable (filter (fun e => negb (e_id e =? id)) (equipmentTable w)).

(** [DELETE FROM bookings WHERE equipment_id = ...] *)
Definition deleteEquipmentBookings (equipment : Z) : M unit :=
  w <- get ;;
  withBookings (filter (fun b => negb (equipmentId b =? equipment)) (bookings w))
               (bookings_id_seq w).

(** *** Comparison lists

    The [comparisons] table is touched by no other part of the storage
    layer; its three operations pass the table along explicitly. *)

Record Comparison := mkComparison {
  c_id : Z;
  c_userId : Z;
  equipmentIds : list Z;
  c_createdAt : Z
}.

Record Comparisons := mkComparisons {
  comparisonRows : list Comparison;
  comparisons_id_seq : Z
}.

(** [[row] = SELECT ... WHERE user_id = ...]: the first row of the user. *)
Definition comparisonOf (user : Z) (t : Comparisons) : option Comparison :=
  find (fun c => c_userId c =? user) (comparisonRows t).

(** [UPDATE comparisons SET equipment_ids = ... WHERE user_id = ...] *)
Definition setEquipmentIds (user : Z) (ids : list Z) (t : Comparisons) : Comparisons :=
  mkComparisons
    (map (fun c => if c_userId c =? user
                   then mkComparison (c_id c) (c_userId c) ids (c_createdAt c)
                   else c)
         (comparisonRows t))
    (comparisons_id_seq t).

Definition includes (ids : list Z) (id : Z) : bool := existsb (Z.eqb id) ids.

Definition addToComparison (user equipment now : Z) (t : Comparisons) : Comparisons :=
  match comparisonOf user t with
  | Some existingComparison =>
      let ids := equipmentIds existingComparison in
      if negb (includes ids equipment)
      then setEquipmentIds user (ids ++ [equipment]) t
      else t
  | None =>
      mkComparisons
        (comparisonRows t
         ++ [mkComparison (comparisons_id_seq t) user [equipment] now])
        (comparisons_id_seq t + 1)
  end.

Definition removeFromComparison (user equipment : Z) (t : Comparisons) : Comparisons :=
  match comparisonOf user t with
  | Some comparison =>
      setEquipmentIds user
        (filter (fun id => negb (id =? equipment)) (equipmentIds comparison)) t
  | None => t
  end.


End Storage.

(** ** Collaborators outside the repository *)

Record Notes := mkNotes {
  bookingId : option string
}.

(** [event.payload.payment.entity] of a gateway event. *)
Record PaymentEntity := mkPaymentEntity {
  ent_id : option string;
  ent_order_id : option string;
  ent_notes : option Notes;
  ent_error_description : option string
}.

(** [event.payload.payment].  [pay_order_id] is the row id the database
    reads from the field [order_id]: [None] when the field is missing or is
    not a number, in which case a query comparing it with an integer column
    finds no row or is refused. *)
Record PaymentPayload := mkPaymentPayload {
  pay_status : option string;
  pay_order_id : option Z;
  pay_id : option string;
  pay_entity : option PaymentEntity
}.

(** A parsed webhook body.  [ev_payment] is [None] when [event.payload] or
    [event.payload.payment] is missing, so that reading a field of it raises
    a TypeError. *)
Record WebhookEvent := mkWebhookEvent {
  ev_event : option string;
  ev_payment : option PaymentPayload
}.

Record RazorpayPayment := mkRazorpayPayment {
  rp_status : string;
  rp_currency : string;
  rp_method : string
}.

Record Env := mkEnv {
  RAZORPAY_KEY_ID : string;
  RAZORPAY_KEY_SECRET : string;
  RAZORPAY_WEBHOOK_SECRET : option string;
  (** [crypto.createHmac('sha256', key).update(data).digest('hex')] *)
  hmacSha256Hex : string -> string -> string;
  (** [JSON.parse]; [None] when it throws *)
  JSON_parse : string -> option WebhookEvent;
  (** [razorpay.orders.create] by receipt booking and amount in paise: the
      id of the order, [None] when the call is rejected *)
  orders_create : Z -> Z -> option string;
  (** [razorpay.payments.fetch]; [None] when the call is rejected *)
  payments_fetch : string -> option RazorpayPayment
}.

(** JavaScript truthiness of an optional string and of an optional number. *)
Definition truthyStr (s : option string) : bool :=
  match s with
  | Some v => negb (String.eqb v "")
  | None => false
  end.

Definition truthyNum (n : option Z) : bool :=
  match n with
  | Some v => negb (v =? 0)
  | None => false
  end.

(** ** Payment helpers ([server/payment.ts]) *)

Module Payment.

Record RazorpayConfig := mkRazorpayConfig {
  cfg_id : string;
  cfg_keyId : string;
  cfg_amount : Z;
  cfg_currency : string;
  cfg_name : string;
  cfg_description : string
}.

(** The receipt, without its amount in rupees and its ISO timestamp. *)
Record Receipt := mkReceipt {
  rc_bookingId : Z;
  rc_paymentId : string;
  rc_status : string;
  rc_currency : string;
  rc_method : string
}.

Inductive WebhookResult :=
| WebhookSuccess (bookingId : Z) (orderId paymentId : option string)
| WebhookFailure (bookingId : option Z) (error : option string)
| WebhookNull.

(** [parseInt(s)], called without a radix; [None] is NaN.

    White space at the front is skipped: the characters that the language
    counts as white space or as line terminators, here in their UTF-8
    encoding.  Then comes an optional sign, then an optional [0x] or [0X],
    which makes the radix 16, then the longest run of digits of the radix;
    without a digit the result is NaN.  The result is a number, that is the
    double nearest to the integer that the digits denote, ties going to the
    even significand; an integer below 2^53 in absolute value is its own
    nearest double.  A numeral beyond the largest double, which reads as
    Infinity, has more than three hundred digits and is not distinguished
    here. *)
Definition code (c : ascii) : Z := Z.of_N (N_of_ascii c).

Definition digitOf (radix : Z) (c : ascii) : option Z :=
  let n := code c in
  let d := if (48 <=? n) && (n <=? 57) then n - 48
           else if (97 <=? n) && (n <=? 122) then n - 87
           else if (65 <=? n) && (n <=? 90) then n - 55
           else 36 in
  if d <? radix then Some d else None.

Fixpoint parseDigits (radix : Z) (s : string) (acc : option Z) : option Z :=
  match s with
  | EmptyString => acc
  | String c r =>
      match digitOf radix c with
      | Some d => parseDigits radix r (Some (Storage.orElse acc 0 * radix + d))
      | None => acc
      end
  end.

(** TAB, LF, VT, FF, CR and the space. *)
Definition blank1 (a : Z) : bool :=
  ((9 <=? a) && (a <=? 13)) || (a =? 32).

(** U+00A0. *)
Definition blank2 (a b : Z) : bool := (a =? 194) && (b =? 160).

(** U+1680, U+2000 to U+200A, U+2028, U+2029, U+202F, U+205F, U+3000 and
    U+FEFF. *)
Definition blank3 (a b c : Z) : bool :=
  ((a =? 225) && (b =? 154) && (c =? 128))
  || ((a =? 226) && (b =? 128)
      && (((128 <=? c) && (c <=? 138)) || (c =? 168) || (c =? 169) || (c =? 175)))
  || ((a =? 226) && (b =? 129) && (c =? 159))
  || ((a =? 227) && (b =? 128) && (c =? 128))
  || ((a =? 239) && (b =? 187) && (c =? 191)).

Fixpoint skipBlanks (s : string) : string :=
  match s with
  | EmptyString => s
  | String c1 r1 =>
      if blank1 (code c1) then skipBlanks r1
      else if code c1 <? 128 then s
      else
        match r1 with
        | EmptyString => s
        | String c2 r2 =>
            if blank2 (code c1) (code c2) then skipBlanks r2
            else
              match r2 with
              | EmptyString => s
              | String c3 r3 =>
                  if blank3 (code c1) (code c2) (code c3) then skipBlanks r3 else s
              end
        end
  end.

(** The sign, and what follows it. *)
Definition stripSign (s : string) : bool * string :=
  match s with
  | String "-" r => (true, r)
  | String "+" r => (false, r)
  | _ => (false, s)
  end.

(** The radix, and what follows the prefix. *)
Definition stripPrefix (s : string) : Z * string :=
  match s with
  | String "0" (String "x" r) => (16, r)
  | String "0" (String "X" r) => (16, r)
  | _ => (10, s)
  end.

(** The double nearest to an integer. *)
Definition toNumber (n : Z) : Z :=
  let a := Z.abs n in
  if a <? 2 ^ 53 then n
  else
    let k := Z.log2 a - 52 in
    let q := a / 2 ^ k in
    let r := a mod 2 ^ k in
    let half := 2 ^ (k - 1) in
    let q' := if (half <? r) || ((r =? half) && Z.odd q) then q + 1 else q in
    Z.sgn n * (q' * 2 ^ k).

Definition parseInt (s : string) : option Z :=
  let (negative, unsigned) := stripSign (skipBlanks s) in
  let (radix, digits) := stripPrefix unsigned in
  option_map (fun mathInt => toNumber (if negative then - mathInt else mathInt))
             (parseDigits radix digits None).

Section WithEnv.
Variable env : Env.

Definition createPaymentSession (booking amount : Z) (equipmentName : string)
  : M RazorpayConfig :=
  tryCatch
    (if amount <=? 0 then throw "Invalid amount. Amount must be greater than 0"
     else
       let amountInPaise := amount * 100 in
       record (GwOrdersCreate booking amountInPaise) ;;;
       match orders_create env booking amountInPaise with
       | None => throw "Razorpay order creation rejected"
       | Some orderId =>
           if String.eqb orderId "" then throw "Failed to create Razorpay order"
           else ret (mkRazorpayConfig orderId (RAZORPAY_KEY_ID env) amountInPaise "INR"
                       "AgriRent Equipment"
                       (String.append "Booking for " equipmentName))
       end)
    (fun error => throw error).

Definition verifyPaymentSignature (orderId paymentId signature : string) : bool :=
  let text := String.append orderId (String.append "|" paymentId) in
  let expectedSignature := hmacSha256Hex env (RAZORPAY_KEY_SECRET env) text in
  String.eqb expectedSignature signature.

Definition generateReceipt (booking : Z) (paymentId : string) : M Receipt :=
  tryCatch
    (record (GwPaymentsFetch paymentId) ;;;
     match payments_fetch env paymentId with
     | None => throw "Razorpay payment fetch rejected"
     | Some payment =>
         ret (mkReceipt booking paymentId (rp_status payment) (rp_currency payment)
                        (rp_method payment))
     end)
    (fun _ => throw "Failed to generate receipt").

End WithEnv.

(** The exported event handler of the payment module. *)
Definition handleWebhookEvent (event : WebhookEvent) : outcome WebhookResult :=
  match ev_event event with
  | Some "payment.captured" =>
      match ev_payment event with
      | Some {| pay_entity := Some entity |} =>
          match ent_notes entity with
          | None => Throw "TypeError"
          | Some notes =>
              match option_map parseInt (bookingId notes) with
              | Some (Some n) =>
                  if n =? 0 then Throw "Booking ID not found in payment notes"
                  else Return (WebhookSuccess n (ent_order_id entity) (ent_id entity))
              | _ => Throw "Booking ID not found in payment notes"
              end
          end
      | _ => Throw "TypeError"
      end
  | Some "payment.failed" =>
      match ev_payment event with
      | Some {| pay_entity := Some entity |} =>
          match ent_notes entity with
          | None => Throw "TypeError"
          | Some notes =>
              Return (WebhookFailure
                        (match bookingId notes with Some s => parseInt s | None => None end)
                        (ent_error_description entity))
          end
      | _ => Throw "TypeError"
      end
  | _ => Return WebhookNull
  end.

(** [n.toString()] for an integer [n]: an optional minus sign and the
    decimal digits, most significant first.  The fuel is the number of bits
    of [n], which bounds the number of its decimal digits.  A JavaScript
    number holds every integer up to [Number.MAX_SAFE_INTEGER] exactly and
    prints it this way; [safeInteger] names that range. *)
Definition safeInteger (n : Z) : Prop := Z.abs n <= 9007199254740991.

Definition digitChar (d : Z) : ascii := ascii_of_N (Z.to_N (48 + d)).

Fixpoint digitsOf (fuel : nat) (n : Z) (acc : string) : string :=
  match fuel with
  | O => acc
  | S f =>
      let acc' := String (digitChar (n mod 10)) acc in
      if n <? 10 then acc' else digitsOf f (n / 10) acc'
  end.

Definition toString (n : Z) : string :=
  if n <? 0 then String "-" (digitsOf (S (Z.to_nat (Z.log2 (- n)))) (- n) "")
  else digitsOf (S (Z.to_nat (Z.log2 n))) n "".

(** The notes [createPaymentSession] attaches to the order it creates, as
    far as [Notes] records them: [bookingId: bookingId.toString()]. *)
Definition orderNotes (booking : Z) : Notes := mkNotes (Some (toString booking)).

End Payment.

(** ** HTTP routes ([registerRoutes]) *)

Module Routes.

Import Storage.

Record User := mkUser {
  u_id : Z;
  isAdmin : bool
}.

Inductive Body :=
| NoBody
| Text (s : string)
| ErrorBody (error : string) (details : option string)
| EquipmentBody (e : Equipment)
| BookingCreated (booking : Booking) (razorpayConfig : Payment.RazorpayConfig)
| PaymentVerified (booking : Booking) (message : option string)
| Received
| ReviewBody (r : Review).

Record Response := mkResponse {
  statusCode : Z;
  body : Body
}.

Definition json (code : Z) (b : Body) : M Response := ret (mkResponse code b).

(** *** Equipment edits *)

Inductive JsonField :=
| Absent
| Malformed
| Parsed (value : string).

(** The body of an equipment edit, and the uploaded file.  The route
    spreads the whole body into the object it hands to [updateEquipment], so
    every column can be named, [id], [createdAt] and [popularity] included;
    a key that is no column is ignored by the query builder.  What a body
    gives for [createdAt] is text or another plain value, never a [Date]:
    [ed_createdAt] records that the body names the key.  For the other
    columns a field is [None] when the body does not name it, and otherwise
    holds a value of the column's type. *)
Record EquipmentEdit := mkEquipmentEdit {
  ed_id : option Z;
  ed_ownerId : option Z;
  ed_name : option string;
  ed_description : option string;
  ed_category : option string;
  ed_dailyRate : option Z;
  ed_imageUrl : option string;
  ed_location : option string;
  ed_availability : option bool;
  ed_specs : JsonField;
  ed_features : JsonField;
  ed_createdAt : bool;
  ed_popularity : option Z;
  ed_file : option string
}.

Definition parsedField (f : JsonField) : option string :=
  match f with Parsed v => Some v | _ => None end.

Definition updateDataOf (rq : EquipmentEdit) : EquipmentPatch :=
  mkEquipmentPatch (ed_id rq) (ed_ownerId rq) (ed_name rq) (ed_description rq)
    (ed_category rq) (ed_dailyRate rq)
    (match ed_file rq with
     | Some filename => Some (String.append "/uploads/" filename)
     | None => ed_imageUrl rq
     end)
    (ed_location rq) (ed_availability rq)
    (parsedField (ed_specs rq)) (parsedField (ed_features rq))
    (if ed_createdAt rq then Some None else None)
    (ed_popularity rq).

(** [PATCH /api/equipment/:id] *)
Definition patch_api_equipment (user : option User) (id : Z) (rq : EquipmentEdit)
  : M Response :=
  match user with
  | None => json 401 (ErrorBody "Authentication required" None)
  | Some u =>
      tryCatch
        (equipment <- getEquipment id ;;
         match equipment with
         | None => json 404 (ErrorBody "Equipment not found" None)
         | Some equipment =>
             if negb (ownerId equipment =? u_id u) && negb (isAdmin u)
             then json 403 (ErrorBody "Not authorized to update this equipment" None)
             else
               match ed_specs rq, ed_features rq with
               | Malformed, _ => json 400 (ErrorBody "Invalid specs format" None)
               | _, Malformed => json 400 (ErrorBody "Invalid features format" None)
               | _, _ =>
                   updated <- updateEquipment id (updateDataOf rq) ;;
                   json 200 (EquipmentBody updated)
               end
         end)
        (fun error => json 500 (ErrorBody "Failed to update equipment" (Some error)))
  end.

(** [PATCH /api/equipment/:id/availability]; [available] is the field of
    that name in the request body. *)
Definition patch_api_equipment_availability (user : option User) (id : Z)
    (available : option bool) : M Response :=
  match user with
  | None => json 401 NoBody
  | Some u =>
      tryCatch
        (equipment <- getEquipment id ;;
         match equipment with
         | None => json 404 (ErrorBody "Equipment not found" None)
         | Some equipment =>
             if negb (ownerId equipment =? u_id u)
             then json 403 (ErrorBody "Not authorized to update this equipment" None)
             else
               updated <- updateEquipment id (availabilityPatch available) ;;
               json 200 (EquipmentBody updated)
         end)
        (fun _ => json 500 (ErrorBody "Failed to update availability" None))
  end.

(** *** Request bodies as the application parses them

    The application installs [express.json()] and [express.urlencoded()]
    for every route before the routes are registered.  A route therefore
    finds in [req.body] what these have made of the request: the object or
    the array that a JSON body denotes (the JSON parser is strict and admits
    no other value at the top), the object of a form, or an empty object
    when the request has another content type.  A parser named again at a
    route, such as [express.raw] at the webhook route, finds the body
    already read and leaves it as it is.

    A number is an integer of fewer than 22 digits here, which is printed
    with all its digits, and an object is given by the names of its
    members. *)

#[local] Set Warnings "-register-all".

Inductive JsonValue :=
| JNull
| JBool (b : bool)
| JNumber (n : Z)
| JString (s : string)
| JArray (elements : list JsonValue)
| JObject (keys : list string).

Inductive ParsedBody :=
| ObjectBody (keys : list string)
| ArrayBody (elements : list JsonValue).

(** [toString()] of an object that JSON denotes.  A member named
    [toString] hides the inherited method and cannot be called. *)
Definition objectToString (keys : list string) : outcome string :=
  if existsb (String.eqb "toString") keys then Throw "TypeError"
  else Return "[object Object]".

(** The conversion of a JSON value to a string; an array is joined with
    commas, and [null] among its elements gives the empty string. *)
Fixpoint toStringOf (v : JsonValue) : outcome string :=
  match v with
  | JNull => Return "null"
  | JBool b => Return (if b then "true" else "false")
  | JNumber n => Return (Payment.toString n)
  | JString s => Return s
  | JArray elements =>
      (fix join (l : list JsonValue) : outcome string :=
         let element (x : JsonValue) :=
           match x with JNull => Return "" | _ => toStringOf x end in
         match l with
         | [] => Return ""
         | [x] => element x
         | x :: r =>
             match element x with
             | Throw e => Throw e
             | Return a =>
                 match join r with
                 | Throw e => Throw e
                 | Return b => Return (String.append a (String.append "," b))
                 end
             end
         end) elements
  | JObject keys => objectToString keys
  end.

(** [req.body.toString()] *)
Definition bodyText (b : ParsedBody) : outcome string :=
  match b with
  | ObjectBody keys => objectToString keys
  | ArrayBody elements => toStringOf (JArray elements)
  end.

Record WebhookRequest := mkWebhookRequest {
  x_razorpay_signature : option string;
  reqBody : ParsedBody
}.

(** *** Booking creation *)

(** The request body after [z.coerce.date()] has been applied to its dates. *)
Record BookingRequest := mkBookingRequest {
  rq_equipmentId : option Z;
  rq_startDate : Date;
  rq_endDate : Date;
  rq_totalPrice : option Z;
  rq_razorpayOrderId : option string;
  rq_razorpayPaymentId : option string
}.

Record ParsedBooking := mkParsedBooking {
  pb_equipmentId : Z;
  pb_userId : Z;
  pb_startDate : Z;
  pb_endDate : Z;
  pb_razorpayOrderId : option string;
  pb_razorpayPaymentId : option string
}.

(** [insertBookingSchema.safeParse({...req.body, userId, status})] *)
Definition safeParseBooking (rq : BookingRequest) (user : Z) : option ParsedBooking :=
  match rq_equipmentId rq, rq_startDate rq, rq_endDate rq with
  | Some e, Some s, Some t =>
      Some (mkParsedBooking e user s t (rq_razorpayOrderId rq) (rq_razorpayPaymentId rq))
  | _, _, _ => None
  end.

Definition totalDays (startDate endDate : Z) : Z :=
  Z.max 1 (ceilDiv (endDate - startDate) msPerDay + 1).

Section WithEnv.
Variable env : Env.

(** [POST /api/bookings] *)
Definition post_api_bookings (user : option User) (rq : BookingRequest) (now : Z)
  : M Response :=
  match user with
  | None => json 401 NoBody
  | Some u =>
      tryCatch
        (match safeParseBooking rq (u_id u) with
         | None => json 400 (ErrorBody "Invalid booking data" None)
         | Some parsed =>
             equipment <- getEquipment (pb_equipmentId parsed) ;;
             match equipment with
             | None => json 404 (ErrorBody "Equipment not found" None)
             | Some equipment =>
                 if negb (availability equipment)
                 then json 400 (ErrorBody "Equipment is not available for booking" None)
                 else
                   let startDate := pb_startDate parsed in
                   let endDate := pb_endDate parsed in
                   let totalAmount := dailyRate equipment * totalDays startDate endDate in
                   isAvailable <- checkEquipmentAvailability (pb_equipmentId parsed)
                                    (Some startDate) (Some endDate) ;;
                   if negb isAvailable
                   then json 400
                          (ErrorBody "Equipment is no longer available for these dates" None)
                   else
                     booking <- createBooking
                                  (mkInsertBooking (pb_equipmentId parsed) (pb_userId parsed)
                                     startDate endDate totalAmount "pending"
                                     (pb_razorpayOrderId parsed)
                                     (pb_razorpayPaymentId parsed))
                                  now ;;
                     tryCatch
                       (updateEquipment (pb_equipmentId parsed)
                                        (availabilityPatch (Some false)) ;;;
                        razorpayOrder <- Payment.createPaymentSession env (b_id booking)
                                           totalAmount (name equipment) ;;
                        updatedBooking <- updateBooking (b_id booking)
                                            (mkBookingPatch (Some "awaiting_payment")
                                               (Some (Payment.cfg_id razorpayOrder))
                                               None None)
                                            now ;;
                        json 201 (BookingCreated updatedBooking razorpayOrder))
                       (fun paymentError =>
                          updateEquipment (pb_equipmentId parsed)
                                          (availabilityPatch (Some true)) ;;;
                          updateBooking (b_id booking)
                                        (mkBookingPatch (Some "payment_failed") None None None)
                                        now ;;;
                          json 400 (ErrorBody "Payment order creation failed"
                                              (Some paymentError)))
             end
         end)
        (fun error => json 500 (ErrorBody "Failed to process booking" (Some error)))
  end.

(** *** Payment confirmation, synchronous path *)

Record VerifyRequest := mkVerifyRequest {
  vr_bookingId : option Z;
  razorpay_order_id : option string;
  razorpay_payment_id : option string;
  razorpay_signature : option string
}.

Definition str (s : option string) : string := orElse s "".

(** [POST /api/bookings/verify-payment] *)
Definition post_api_bookings_verify_payment (rq : VerifyRequest) (now : Z) : M Response :=
  tryCatch
    (if negb (truthyNum (vr_bookingId rq)) || negb (truthyStr (razorpay_order_id rq))
        || negb (truthyStr (razorpay_payment_id rq))
        || negb (truthyStr (razorpay_signature rq))
     then json 400 (ErrorBody "Missing required payment details"
                              (Some "All payment verification fields are required"))
     else
       let bookingId := orElse (vr_bookingId rq) 0 in
       booking <- getBooking bookingId ;;
       match booking with
       | None => json 404 (ErrorBody "Booking not found" None)
       | Some booking =>
           if String.eqb (status booking) "paid"
           then json 200 (PaymentVerified booking None)
           else
             let isValid :=
               Payment.verifyPaymentSignature env (str (razorpay_order_id rq))
                 (str (razorpay_payment_id rq)) (str (razorpay_signature rq)) in
             if negb isValid
             then
               updateEquipment (equipmentId booking) (availabilityPatch (Some true)) ;;;
               json 400 (ErrorBody "Invalid payment signature" None)
             else
               updatedBooking <- updateBooking bookingId
                                   (mkBookingPatch (Some "paid") None
                                      (razorpay_payment_id rq) None)
                                   now ;;
               updateEquipment (equipmentId booking) (availabilityPatch (Some false)) ;;;
               json 200 (PaymentVerified updatedBooking
                           (Some "Payment verified successfully and equipment marked as unavailable"))
       end)
    (fun error => json 500 (ErrorBody "Payment verification failed" (Some error))).

(** *** Payment confirmation, webhook path *)

Inductive ResultStatus := success | failed.

Record WebhookResult := mkWebhookResult {
  wr_status : ResultStatus;
  wr_bookingId : option Z;
  wr_paymentId : option string
}.

(** The handler defined at the end of the routes file, which is the one the
    webhook route calls.  Reading a field of a missing
    [event.payload.payment] raises a TypeError. *)
Definition handleWebhookEvent (event : WebhookEvent) : M (option WebhookResult) :=
  match ev_payment event with
  | None => throw "TypeError"
  | Some payment =>
      match pay_status payment with
      | Some "captured" =>
          ret (Some (mkWebhookResult success (pay_order_id payment) (pay_id payment)))
      | Some "failed" =>
          ret (Some (mkWebhookResult failed (pay_order_id payment) None))
      | _ => ret None
      end
  end.

(** A storage call by a booking id that is not a number the column
    accepts: the query matches no row or is refused, so the call throws. *)
Definition updateBookingBy (id : option Z) (data : BookingPatch) (now : Z) : M Booking :=
  match id with
  | Some n => updateBooking n data now
  | None => throw "Failed to update booking"
  end.

Definition webhookError (msg : string) : Body :=
  Text (String.append "Webhook Error: " msg).

(** The steps of the webhook route after the signature check:
    [JSON.parse(req.body.toString())] and what follows. *)
Definition processWebhook (rq : WebhookRequest) (now : Z) : M Response :=
  match bodyText (reqBody rq) with
  | Throw e => throw e
  | Return text =>
  match JSON_parse env text with
  | None => throw "SyntaxError"
  | Some event =>
      result <- handleWebhookEvent event ;;
      match result with
      | Some {| wr_status := success; wr_bookingId := bid; wr_paymentId := Some pid |} =>
          if String.eqb pid "" then json 200 Received
          else
            booking <- updateBookingBy bid (mkBookingPatch (Some "paid") None (Some pid) None)
                         now ;;
            updateEquipment (equipmentId booking) (availabilityPatch (Some false)) ;;;
            Payment.generateReceipt env (orElse bid 0) pid ;;;
            json 200 Received
      | Some {| wr_status := failed; wr_bookingId := bid |} =>
          booking <- updateBookingBy bid (mkBookingPatch (Some "payment_failed") None None None)
                       now ;;
          updateEquipment (equipmentId booking) (availabilityPatch (Some true)) ;;;
          json 200 Received
      | _ => json 200 Received
      end
  end
  end.

(** [POST /api/webhooks/razorpay].  With a webhook secret configured the
    route passes [req.body] to [Hmac.update], which takes a string or a
    buffer and throws a TypeError on the object or array that [req.body]
    is. *)
Definition post_api_webhooks_razorpay (rq : WebhookRequest) (now : Z) : M Response :=
  tryCatch
    (if truthyStr (RAZORPAY_WEBHOOK_SECRET env)
     then
       if negb (truthyStr (x_razorpay_signature rq))
       then json 400 (ErrorBody "Missing signature" None)
       else throw "TypeError"
     else processWebhook rq now)
    (fun err => json 400 (webhookError err)).

End WithEnv.

(** *** Reviews *)

(** The body of a review.  A field is [None] when the body does not name
    it or gives it a value of another type than the schema asks for;
    [rv_idIsNumber] is false when the body names an [id] that is not a
    number, the one way in which the optional field of the schema can
    fail.  The rating is any number, the equipment id a whole one: the
    schema would pass a fraction, which is the id of no booking. *)
Record ReviewRequest := mkReviewRequest {
  rv_equipmentId : option Z;
  rv_rating : option Q;
  rv_comment : option string;
  rv_idIsNumber : bool
}.

(** [string.length]: the number of UTF-16 code units.  A character of one
    to three bytes of UTF-8 is one unit, a character of four bytes two. *)
Definition utf16Units (c : ascii) : Z :=
  let n := Z.of_N (N_of_ascii c) in
  if n <? 128 then 1 else if n <? 192 then 0 else if n <? 240 then 1 else 2.

Fixpoint utf16Length (s : string) : Z :=
  match s with
  | EmptyString => 0
  | String c r => utf16Units c + utf16Length r
  end.

(** [reviewSchema.safeParse({...req.body, userId, createdAt})] *)
Definition safeParseReview (rq : ReviewRequest) (user : Z) : option InsertReview :=
  match rv_equipmentId rq, rv_rating rq, rv_comment rq with
  | Some e, Some r, Some c =>
      if rv_idIsNumber rq
         && Qle_bool (inject_Z 1) r && Qle_bool r (inject_Z 5)
         && (10 <=? utf16Length c) && (utf16Length c <=? 500)
      then Some (mkInsertReview user e r c)
      else None
  | _, _, _ => None
  end.

(** The predicate of [bookings.find] in the review route. *)
Definition reviewable (equipment : option Z) (b : Booking) : bool :=
  match equipment with
  | Some e => (equipmentId b =? e) && String.eqb (status b) "paid" && negb (isRated b)
  | None => false
  end.

(** [POST /api/reviews] *)
Definition post_api_reviews (user : option User) (rq : ReviewRequest) (now : Z)
  : M Response :=
  match user with
  | None => json 401 (ErrorBody "Authentication required" None)
  | Some u =>
      tryCatch
        (match safeParseReview rq (u_id u) with
         | None => json 400 (ErrorBody "Invalid review data" None)
         | Some data =>
             bookings <- listBookings (Some (u_id u)) ;;
             match find (reviewable (rv_equipmentId rq)) bookings with
             | None =>
                 json 400 (ErrorBody "Invalid review submission"
                             (Some "You can only review equipment from paid, unrated bookings"))
             | Some validBooking =>
                 newReview <- createReview data now ;;
                 updateBooking (b_id validBooking)
                               (mkBookingPatch None None None (Some true)) now ;;;
                 json 200 (ReviewBody newReview)
             end
         end)
        (fun error => json 500 (ErrorBody "Failed to create review" (Some error)))
  end.

(** *** Reading a booking, the administrator's override, deleting equipment *)

Inductive Payload :=
| Empty
| Failure (error : string)
| BookingJson (booking : Booking)
| Deleted.

Record Reply := mkReply {
  code : Z;
  payload : Payload
}.

Definition reply (c : Z) (p : Payload) : M Reply := ret (mkReply c p).

(** [GET /api/bookings/:id]; [id] is [parseInt(req.params.id)], [None]
    when that is NaN. *)
Definition get_api_bookings_id (user : option User) (id : option Z) : M Reply :=
  match user with
  | None => reply 401 (Failure "Authentication required")
  | Some u =>
      tryCatch
        (match id with
         | None => reply 400 (Failure "Invalid booking ID")
         | Some bookingId =>
             booking <- getBooking bookingId ;;
             match booking with
             | None => reply 404 (Failure "Booking not found")
             | Some booking =>
                 if negb (userId booking =? u_id u) && negb (isAdmin u)
                 then reply 403 (Failure "Not authorized to view this booking")
                 else reply 200 (BookingJson booking)
             end
         end)
        (fun _ => reply 500 (Failure "Failed to get bookingdetails"))
  end.

(** [PATCH /api/bookings/:id/status]; [st] is [req.body.status]. *)
Definition patch_api_bookings_status (user : option User) (id : option Z)
    (st : option string) (now : Z) : M Reply :=
  match user with
  | None => reply 401 Empty
  | Some u =>
      if negb (isAdmin u) then reply 401 Empty
      else
        tryCatch
          (match id with
           | None => reply 400 (Failure "Invalid booking ID")
           | Some bookingId =>
               if negb (truthyStr st)
                  || negb (String.eqb (str st) "approved" || String.eqb (str st) "rejected")
               then reply 400 (Failure "Invalid status")
               else
                 updatedBooking <- updateBookingStatus bookingId (str st) now ;;
                 reply 200 (BookingJson updatedBooking)
           end)
          (fun _ => reply 500 (Failure "Failed to update booking status"))
  end.

(** [DELETE /api/equipment/:id]; [id] is [parseInt(req.params.id)], taken
    to be a number. *)
Definition delete_api_equipment (user : option User) (id : Z) : M Reply :=
  match user with
  | None => reply 401 (Failure "Authentication required")
  | Some u =>
      tryCatch
        (equipment <- getEquipment id ;;
         match equipment with
         | None => reply 404 (Failure "Equipment not found")
         | Some equipment =>
             if negb (ownerId equipment =? u_id u) && negb (isAdmin u)
             then reply 403 (Failure "Not authorized to delete this equipment")
             else
               deleteEquipment id ;;;
               deleteEquipmentBookings id ;;;
               reply 200 Deleted
         end)
        (fun _ => reply 500 (Failure "Failed to delete equipment"))
  end.

(** *** Recommendations

    The scoring of [GET /api/recommendations]: the [map] over all
    equipment, then [filter], [sort] and [slice].  The user's preferences
    come from the [users] table; [decodeFeatures] is the decoding of the
    [features] column into the list of its strings. *)

Record Preferences := mkPreferences {
  preferredCategories : list string;
  preferredLocations : list string;
  priceRange_min : Z;
  priceRange_max : Z;
  preferredFeatures : list string
}.

Record Scored := mkScored {
  sc_equipment : Equipment;
  score : Z;
  reason : string
}.

Definition includesStr (l : list string) (s : string) : bool := existsb (String.eqb s) l.

Section Recommendations.
Variable decodeFeatures : string -> list string.

Definition scoreEquipment (prefs : Preferences) (userBookings : list Booking)
    (equipment : Equipment) : Scored :=
  let score0 := 0 in
  let reasons0 : list string := [] in
  let '(score1, reasons1) :=
    if includesStr (preferredCategories prefs) (category equipment)
    then (score0 + 30,
          reasons0 ++ [String.append "Matches your preferred category: "
                                     (category equipment)])
    else (score0, reasons0) in
  let '(score2, reasons2) :=
    if includesStr (preferredLocations prefs) (location equipment)
    then (score1 + 20,
          reasons1 ++ [String.append "Available in your preferred location: "
                                     (location equipment)])
    else (score1, reasons1) in
  let '(score3, reasons3) :=
    if (priceRange_min prefs <=? dailyRate equipment)
       && (dailyRate equipment <=? priceRange_max prefs)
    then (score2 + 15, reasons2 ++ ["Within your preferred price range"])
    else (score2, reasons2) in
  let matchingFeatures :=
    filter (includesStr (preferredFeatures prefs)) (decodeFeatures (features equipment)) in
  let '(score4, reasons4) :=
    if (0 <? Z.of_nat (List.length matchingFeatures))
    then (score3 + 5 * Z.of_nat (List.length matchingFeatures),
          reasons3 ++ [String.append "Has "
                         (String.append
                            (Payment.toString (Z.of_nat (List.length matchingFeatures)))
                            " features you prefer")])
    else (score3, reasons3) in
  let score5 :=
    if 0 <? popularity equipment then score4 + Z.min 10 (popularity equipment)
    else score4 in
  let '(score6, reasons6) :=
    if existsb (fun booking => equipmentId booking =? e_id equipment) userBookings
    then (score5 + 10, reasons4 ++ ["You have rented this before"])
    else (score5, reasons4) in
  mkScored equipment (Z.min 100 score6)
           (match reasons6 with
            | r :: _ => if String.eqb r "" then "Recommended based on your preferences" else r
            | [] => "Recommended based on your preferences"
            end).

(** [sort((a, b) => b.score - a.score)]: a stable sort, highest score first. *)
Fixpoint insertByScoreDesc (x : Scored) (l : list Scored) : list Scored :=
  match l with
  | [] => [x]
  | y :: r => if score y <=? score x then x :: y :: r
              else y :: insertByScoreDesc x r
  end.

Fixpoint sortByScoreDesc (l : list Scored) : list Scored :=
  match l with
  | [] => []
  | x :: r => insertByScoreDesc x (sortByScoreDesc r)
  end.

Definition topRecommendations (prefs : Preferences) (userBookings : list Booking)
    (allEquipment : list Equipment) : list Scored :=
  let recommendations := map (scoreEquipment prefs userBookings) allEquipment in
  firstn 5 (sortByScoreDesc (filter (fun rec => 30 <? score rec) recommendations)).

End Recommendations.

End Routes.

(** ** Worlds after a write, and conditions on a request

    The world a storage call leaves behind, written out; and the conditions
    under which the booking route goes on to insert a row. *)

(** The rows the date-range query answers with. *)
Definition rowsInDateRange (equipment : Z) (sd ed : Date) (rows : list Booking)
  : list Booking :=
  match sd, ed with
  | Some s, Some e =>
      if storableDate (startOfDayUTC s) && storableDate (endOfDayUTC e)
      then filter (Storage.inDateRange equipment (startOfDayUTC s) (endOfDayUTC e)) rows
      else []
  | _, _ => []
  end.

Definition afterRecord (e : Effect) (w : World) : World :=
  mkWorld (equipmentTable w) (bookings w) (reviews w)
          (bookings_id_seq w) (reviews_id_seq w) (journal w ++ [e]).

Definition afterUpdateEquipment (id : Z) (p : EquipmentPatch) (w : World) : World :=
  mkWorld (map (fun e => if e_id e =? id then Storage.applyEquipmentPatch p e else e)
               (equipmentTable w))
          (bookings w) (reviews w) (bookings_id_seq w) (reviews_id_seq w)
          (journal w ++ [DbUpdateEquipment id p]).

Definition afterUpdateBooking (id : Z) (p : BookingPatch) (now : Z) (w : World) : World :=
  mkWorld (equipmentTable w)
          (map (fun b => if b_id b =? id then Storage.applyBookingPatch p now b else b)
               (bookings w))
          (reviews w) (bookings_id_seq w) (reviews_id_seq w)
          (journal w ++ [DbUpdateBooking id p]).

Definition newBooking (ib : InsertBooking) (now : Z) (w : World) : Booking :=
  mkBooking (bookings_id_seq w) (ib_equipmentId ib) (ib_userId ib)
            (ib_startDate ib) (ib_endDate ib) (ib_totalPrice ib)
            (Storage.statusOrPending (ib_status ib))
            (ib_razorpayOrderId ib) (ib_razorpayPaymentId ib)
            false now now.

Definition afterCreateBooking (ib : InsertBooking) (now : Z) (w : World) : World :=
  mkWorld (equipmentTable w) (bookings w ++ [newBooking ib now w]) (reviews w)
          (bookings_id_seq w + 1) (reviews_id_seq w)
          (journal w ++ [DbInsertBooking (bookings_id_seq w)
                           (Storage.statusOrPending (ib_status ib))]).

Definition newReview (review : InsertReview) (now : Z) (w : World) : Review :=
  mkReview (reviews_id_seq w) (ir_userId review) (ir_equipmentId review)
           (Storage.wholePart (ir_rating review)) (ir_comment review) now.

Definition afterCreateReview (review : InsertReview) (now : Z) (w : World) : World :=
  mkWorld (equipmentTable w) (bookings w) (reviews w ++ [newReview review now w])
          (bookings_id_seq w) (reviews_id_seq w + 1)
          (journal w ++ [DbInsertReview (reviews_id_seq w)]).

(** The sequence of the bookings table is ahead of every id in the table,
    as it is for a [serial] primary key. *)
Definition bookingIdsBelowSeq (w : World) : Prop :=
  Forall (fun b => b_id b < bookings_id_seq w) (bookings w).

(** The booking route admits a request: the body validates, the equipment
    row exists, and the availability check answers [true] for the range. *)
Definition admits (w : World) (rq : Routes.BookingRequest)
    (equipment s t : Z) (e : Equipment) : Prop :=
  Routes.rq_equipmentId rq = Some equipment /\
  Routes.rq_startDate rq = Some s /\
  Routes.rq_endDate rq = Some t /\
  find (fun x => e_id x =? equipment) (equipmentTable w) = Some e /\
  Storage.checkEquipmentAvailability equipment (Some s) (Some t) w = (Return true, w).

(** The database takes the row the booking route inserts for an admitted
    request: the ids and the total price fit their integer columns, and the
    two dates are times the timestamp columns hold. *)
Definition storable (user equipment s t : Z) (e : Equipment) : Prop :=
  -2147483648 <= equipment <= 2147483647 /\
  -2147483648 <= user <= 2147483647 /\
  -2147483648 <= dailyRate e * Routes.totalDays s t <= 2147483647 /\
  -62135596800000 <= s <= 253402300799999 /\
  -62135596800000 <= t <= 253402300799999.

(** The gateway order for a booking and an amount cannot be created. *)
Definition orderFails (env : Env) (booking amount : Z) : Prop :=
  amount <= 0 \/
  orders_create env booking (amount * 100) = None \/
  orders_create env booking (amount * 100) = Some "".

(** The row the booking route inserts on admission. *)
Definition pendingBooking (w : World) (rq : Routes.BookingRequest) (user : Z)
    (equipment s t : Z) (e : Equipment) (now : Z) : Booking :=
  mkBooking (bookings_id_seq w) equipment user s t
            (dailyRate e * Routes.totalDays s t) "pending"
            (Routes.rq_razorpayOrderId rq) (Routes.rq_razorpayPaymentId rq)
            false now now.

(** The worlds the booking route passes through once it has admitted a
    request: after the insert and the lock, after a successful order, and
    after the compensation for a failed one. *)
Definition lockedWorld (w : World) (rq : Routes.BookingRequest) (user : Z)
    (equipment s t : Z) (e : Equipment) (now : Z) : World :=
  afterUpdateEquipment equipment (availabilityPatch (Some false))
    (afterCreateBooking
       (mkInsertBooking equipment user s t (dailyRate e * Routes.totalDays s t) "pending"
          (Routes.rq_razorpayOrderId rq) (Routes.rq_razorpayPaymentId rq))
       now w).

Definition orderedWorld (w : World) (rq : Routes.BookingRequest) (user : Z)
    (equipment s t : Z) (e : Equipment) (now : Z) : World :=
  afterRecord (GwOrdersCreate (bookings_id_seq w)
                 (dailyRate e * Routes.totalDays s t * 100))
    (lockedWorld w rq user equipment s t e now).

Definition awaitingWorld (w : World) (rq : Routes.BookingRequest) (user : Z)
    (equipment s t : Z) (e : Equipment) (now : Z) (orderId : string) : World :=
  afterUpdateBooking (bookings_id_seq w)
    (mkBookingPatch (Some "awaiting_payment") (Some orderId) None None) now
    (orderedWorld w rq user equipment s t e now).

Definition compensated (equipment booking now : Z) (w : World) : World :=
  afterUpdateBooking booking (mkBookingPatch (Some "payment_failed") None None None) now
    (afterUpdateEquipment equipment (availabilityPatch (Some true)) w).

(** ** Sample data *)

Definition sampleEnv : Env :=
  mkEnv "rzp_test_key" "key_secret" None
        (fun key data => String.append key (String.append ":" data))
        (fun _ => None)
        (fun _ _ => Some "order_1")
        (fun _ => Some (mkRazorpayPayment "captured" "INR" "upi")).

Definition tractor : Equipment :=
  mkEquipment 1 10 "Tractor" "A 45 HP tractor" "tractors" 500 "/uploads/tractor.png"
              "Pune" true "{}" "[]" 0 0.

Definition owner : Routes.User := Routes.mkUser 10 false.

Definition renter : Routes.User := Routes.mkUser 20 false.

Definition sampleWorld : World := mkWorld [tractor] [] [] 1 1 [].

(** 2024-01-01 to 2024-01-03, and the same two days the other way round. *)
Definition januaryRequest : Routes.BookingRequest :=
  Routes.mkBookingRequest (Some 1) (Some (utcMidnight 2024 1 1))
                          (Some (utcMidnight 2024 1 3)) None None None.

Definition reversedRequest : Routes.BookingRequest :=
  Routes.mkBookingRequest (Some 1) (Some (utcMidnight 2024 1 3))
                          (Some (utcMidnight 2024 1 1)) None None None.


(** A tractor at two thousand million a day: three days of it cost more
    than the total-price column holds. *)
Definition costlyTractor : Equipment :=
  mkEquipment 1 10 "Tractor" "A 45 HP tractor" "tractors" 2000000000
              "/uploads/tractor.png" "Pune" true "{}" "[]" 0 0.

Definition costlyWorld : World := mkWorld [costlyTractor] [] [] 1 1 [].


(** The tractor held by booking 1 of the renter, which awaits payment of
    order [order_1]; and the same booking once paid. *)
Definition heldTractor : Equipment :=
  mkEquipment 1 10 "Tractor" "A 45 HP tractor" "tractors" 500 "/uploads/tractor.png"
              "Pune" false "{}" "[]" 0 0.

Definition awaitingBooking : Booking :=
  mkBooking 1 1 20 (utcMidnight 2024 1 1) (utcMidnight 2024 1 3) 1500 "awaiting_payment"
            (Some "order_1") None false 50 50.

Definition paidBooking : Booking :=
  mkBooking 1 1 20 (utcMidnight 2024 1 1) (utcMidnight 2024 1 3) 1500 "paid"
            (Some "order_1") (Some "pay_1") false 50 60.

Definition heldWorld : World := mkWorld [heldTractor] [awaitingBooking] [] 2 1 [].

Definition paidWorld : World := mkWorld [heldTractor] [paidBooking] [] 2 1 [].

(** The paid booking, with the tractor's availability flag switched on
    again, as its owner can do. *)
Definition reopenedWorld : World := mkWorld [tractor] [paidBooking] [] 2 1 [].

(** A paid booking from noon of 2024-01-05 to noon of 2024-01-07. *)
Definition noonBooking : Booking :=
  mkBooking 1 1 20 (utcMidnight 2024 1 5 + 12 * 3600000)
            (utcMidnight 2024 1 7 + 12 * 3600000) 1500 "paid"
            (Some "order_1") (Some "pay_1") false 50 60.

Definition noonWorld : World := mkWorld [tractor] [noonBooking] [] 2 1 [].

(** Events.  [gatewayCaptured] and [gatewayFailed] have the layout the
    payment module reads: the event name at the top, the payment under
    [payload.payment.entity], the booking id in its notes.  [flatCaptured]
    carries [status], [order_id] and [id] directly under [payload.payment]. *)
Definition gatewayCaptured : WebhookEvent :=
  mkWebhookEvent (Some "payment.captured")
    (Some (mkPaymentPayload None None None
             (Some (mkPaymentEntity (Some "pay_1") (Some "order_1")
                                    (Some (mkNotes (Some "1"))) None)))).

Definition gatewayFailed : WebhookEvent :=
  mkWebhookEvent (Some "payment.failed")
    (Some (mkPaymentPayload None None None
             (Some (mkPaymentEntity (Some "pay_1") (Some "order_1")
                                    (Some (mkNotes (Some "1")))
                                    (Some "Payment declined"))))).

Definition flatCaptured : WebhookEvent :=
  mkWebhookEvent (Some "payment.captured")
    (Some (mkPaymentPayload (Some "captured") (Some 1) (Some "pay_1") None)).

(** A stand-in for the JSON parser on three request bodies. *)
Definition sampleParse (body : string) : option WebhookEvent :=
  if String.eqb body "gateway payment.captured" then Some gatewayCaptured
  else if String.eqb body "gateway payment.failed" then Some gatewayFailed
  else if String.eqb body "flat captured" then Some flatCaptured
  else None.

(** No webhook secret configured, and one configured. *)
Definition openEnv : Env :=
  mkEnv "rzp_test_key" "key_secret" None
        (fun key data => String.append key (String.append ":" data))
        sampleParse
        (fun _ _ => Some "order_1")
        (fun _ => Some (mkRazorpayPayment "captured" "INR" "upi")).

Definition securedEnv : Env :=
  mkEnv "rzp_test_key" "key_secret" (Some "whsec")
        (fun key data => String.append key (String.append ":" data))
        sampleParse
        (fun _ _ => Some "order_1")
        (fun _ => Some (mkRazorpayPayment "captured" "INR" "upi")).

(** How many receipts have been generated: the calls to the gateway that
    fetch a payment. *)
Definition isPaymentsFetch (e : Effect) : bool :=
  match e with GwPaymentsFetch _ => true | _ => false end.

Definition receiptsGenerated (w : World) : nat :=
  List.length (filter isPaymentsFetch (journal w)).

(** Rows ordered newest first. *)
Definition newerFirst (a b : Booking) : Prop := createdAt b <= createdAt a.

(** The renter has rented the tractor twice, paid both times and rated
    neither rental; a third booking of theirs still awaits payment. *)
Definition rentedTwiceWorld : World :=
  mkWorld [heldTractor]
    [mkBooking 1 1 20 (utcMidnight 2024 1 1) (utcMidnight 2024 1 3) 1500 "paid"
               (Some "order_1") (Some "pay_1") false 50 60;
     mkBooking 2 1 20 (utcMidnight 2024 2 1) (utcMidnight 2024 2 2) 1000 "paid"
               (Some "order_2") (Some "pay_2") false 80 85;
     mkBooking 3 1 20 (utcMidnight 2024 3 1) (utcMidnight 2024 3 1) 500 "awaiting_payment"
               (Some "order_3") None false 90 90]
    [] 4 1 [].

Definition sampleReview : Routes.ReviewRequest :=
  Routes.mkReviewRequest (Some 1) (Some (inject_Z 5))
                         (Some "Sturdy tractor, started every morning") true.

(** An owner edit that renames the equipment and names no other field. *)
Definition renameEdit : Routes.EquipmentEdit :=
  Routes.mkEquipmentEdit None None (Some "Tractor 45 HP") None None None None None None
                         Routes.Absent Routes.Absent false None None.

(** An owner edit whose body names an id: the row is to become
    equipment 7. *)
Definition renumberEdit : Routes.EquipmentEdit :=
  Routes.mkEquipmentEdit (Some 7) None None None None None None None None
                         Routes.Absent Routes.Absent false None None.

(** A string of decimal digits. *)
Fixpoint allDigits (s : string) : bool :=
  match s with
  | EmptyString => true
  | String c r =>
      (match Payment.digitOf 10 c with Some _ => true | None => false end) && allDigits r
  end.

(** ** Invariants of the tables *)

(** A computation keeps an invariant of the world, whether it returns or
    throws. *)
Definition keeps {A} (I : World -> Prop) (m : M A) : Prop :=
  forall w o w', I w -> m w = (o, w') -> I w'.

(** Primary keys: ids are unique in each table, and the ids of the two
    tables with modelled inserts are below their sequences. *)
Definition keysSound (w : World) : Prop :=
  NoDup (map e_id (equipmentTable w)) /\
  NoDup (map b_id (bookings w)) /\
  Forall (fun b => b_id b < bookings_id_seq w) (bookings w) /\
  NoDup (map r_id (reviews w)) /\
  Forall (fun r => r_id r < reviews_id_seq w) (reviews w).

(** Every booking refers to an equipment row that exists. *)
Definition bookingsReferToEquipment (w : World) : Prop :=
  forall b, In b (bookings w) -> In (equipmentId b) (map e_id (equipmentTable w)).

(** The world after [DELETE /api/equipment/:id] has run both deletions. *)
Definition afterDeleteEquipment (id : Z) (w : World) : World :=
  mkWorld (filter (fun e => negb (e_id e =? id)) (equipmentTable w))
          (filter (fun b => negb (equipmentId b =? id)) (bookings w))
          (reviews w) (bookings_id_seq w) (reviews_id_seq w) (journal w).

(** The comparison list of a user: the ids in the user's first row. *)
Definition comparedIds (user : Z) (t : Storage.Comparisons) : list Z :=
  match Storage.comparisonOf user t with
  | Some c => Storage.equipmentIds c
  | None => []
  end.

(** Recommendations ordered best first. *)
Definition betterFirst (a b : Routes.Scored) : Prop := Routes.score b <= Routes.score a.

(** The bookings a user may still review for an equipment. *)
Definition reviewableBy (user equipment : Z) (b : Booking) : bool :=
  (userId b =? user) && Routes.reviewable (Some equipment) b.





(** * Properties *)

Import Storage Routes.

(** ** Running the monad *)

Lemma bind_Return {A B} (m : M A) (k : A -> M B) w a w' :
  m w = (Return a, w') -> bind m k w = k a w'.
Proof. intros H. unfold bind. now rewrite H. Qed.

Lemma bind_Throw {A B} (m : M A) (k : A -> M B) w e w' :
  m w = (Throw e, w') -> bind m k w = (Throw e, w').
Proof. intros H. unfold bind. now rewrite H. Qed.

Lemma tryCatch_Return {A} (m : M A) h w a w' :
  m w = (Return a, w') -> tryCatch m h w = (Return a, w').
Proof. intros H. unfold tryCatch. now rewrite H. Qed.

Lemma tryCatch_Throw {A} (m : M A) h w e w' :
  m w = (Throw e, w') -> tryCatch m h w = h e w'.
Proof. intros H. unfold tryCatch. now rewrite H. Qed.

(** ** Rows and keys *)

Lemma find_map_update {A} (key : A -> Z) (f : A -> A) (id : Z) (l : list A) :
  (forall x, key (f x) = key x) ->
  find (fun x => key x =? id) (map (fun x => if key x =? id then f x else x) l)
  = option_map f (find (fun x => key x =? id) l).
Proof.
  intros Hkey. induction l as [|x l IH]; simpl; [reflexivity|].
  destruct (key x =? id) eqn:E.
  - rewrite Hkey, E. reflexivity.
  - rewrite E. exact IH.
Qed.

(** ** Availability ledger *)

Lemma getEquipment_run (id : Z) (w : World) :
  getEquipment id w = (Return (find (fun e => e_id e =? id) (equipmentTable w)), w).
Proof. reflexivity. Qed.

Lemma getBookingsByDateRange_run (equipment : Z) (sd ed : Date) (w : World) :
  getBookingsByDateRange equipment sd ed w
  = (Return (rowsInDateRange equipment sd ed (bookings w)), w).
Proof.
  unfold getBookingsByDateRange, rowsInDateRange.
  destruct sd as [s|], ed as [t|]; try reflexivity.
  unfold tryCatch. destruct (storableDate (startOfDayUTC s) && storableDate (endOfDayUTC t));
    reflexivity.
Qed.

Lemma checkEquipmentAvailability_run (equipment : Z) (sd ed : Date) (w : World) :
  checkEquipmentAvailability equipment sd ed w
  = (Return (match find (fun e => e_id e =? equipment) (equipmentTable w) with
             | None => false
             | Some e =>
                 availability e
                 && negb (existsb isConflicting
                            (rowsInDateRange equipment sd ed (bookings w)))
             end), w).
Proof.
  unfold checkEquipmentAvailability.
  apply tryCatch_Return.
  rewrite (bind_Return _ _ _ _ _ (getEquipment_run equipment w)).
  destruct (find _ _) as [e|]; [|reflexivity].
  destruct (availability e); simpl; [|reflexivity].
  rewrite (bind_Return _ _ _ _ _ (getBookingsByDateRange_run equipment sd ed w)).
  reflexivity.
Qed.

Lemma isConflicting_spec (b : Booking) :
  isConflicting b = true <-> status b = "paid" \/ status b = "awaiting_payment".
Proof.
  unfold isConflicting. rewrite orb_true_iff, !String.eqb_eq. tauto.
Qed.

Lemma inDateRange_spec (equipment start end_ : Z) (b : Booking) :
  inDateRange equipment start end_ b = true <->
  equipmentId b = equipment /\
  ((start <= startDate b /\ startDate b <= end_)
   \/ (start <= endDate b /\ endDate b <= end_)
   \/ (startDate b <= start /\ end_ <= endDate b)).
Proof.
  unfold inDateRange, startsWithin, endsWithin, spansRange.
  rewrite andb_true_iff, !orb_true_iff, !andb_true_iff, Z.eqb_eq, !Z.leb_le.
  tauto.
Qed.

Lemma storableDate_spec (t : Z) :
  storableDate t = true <-> -62135596800000 <= t <= 253402300799999.
Proof.
  unfold storableDate, minTimestamp, maxTimestamp.
  rewrite andb_true_iff, !Z.leb_le. tauto.
Qed.

(** The two normalizations, written out in milliseconds. *)
Lemma startOfDayUTC_eq (t : Z) : startOfDayUTC t = 86400000 * (t / 86400000).
Proof. unfold startOfDayUTC, msPerDay. change (1000 * 3600 * 24) with 86400000. lia. Qed.

Lemma endOfDayUTC_eq (t : Z) : endOfDayUTC t = 86400000 * (t / 86400000) + 86399999.
Proof. unfold endOfDayUTC, msPerDay. change (1000 * 3600 * 24) with 86400000. lia. Qed.

(** The availability check on a range the database can compare with. *)
Lemma availability_in_range (w : World) (equipment s t : Z) (e : Equipment) :
  find (fun x => e_id x =? equipment) (equipmentTable w) = Some e ->
  availability e = true ->
  storableDate (startOfDayUTC s) = true -> storableDate (endOfDayUTC t) = true ->
  forall r, checkEquipmentAvailability equipment (Some s) (Some t) w = (Return r, w) ->
  (r = false <->
   exists b, In b (bookings w) /\ equipmentId b = equipment /\
             ((startOfDayUTC s <= startDate b /\ startDate b <= endOfDayUTC t)
              \/ (startOfDayUTC s <= endDate b /\ endDate b <= endOfDayUTC t)
              \/ (startDate b <= startOfDayUTC s /\ endOfDayUTC t <= endDate b)) /\
             (status b = "paid" \/ status b = "awaiting_payment")).
Proof.
  intros Hf Hav Hs Ht r Hrun.
  rewrite checkEquipmentAvailability_run, Hf, Hav in Hrun.
  unfold rowsInDateRange in Hrun. rewrite Hs, Ht in Hrun. cbn [andb] in Hrun.
  injection Hrun as <-.
  rewrite negb_false_iff, existsb_exists. split.
  - intros (b & Hin & Hc). apply filter_In in Hin. destruct Hin as [Hin Hr].
    apply inDateRange_spec in Hr. destruct Hr as [He Hr].
    apply isConflicting_spec in Hc. exists b. repeat split; assumption.
  - intros (b & Hin & He & Hr & Hc). exists b. split.
    + apply filter_In. split; [assumption|]. apply inDateRange_spec. split; assumption.
    + now apply isConflicting_spec.
Qed.

(** C1.  For an equipment id in the range of the id column, an availability
    query never fails and writes nothing.  It answers [false] when the
    equipment row is missing or its availability flag is off.  Otherwise,
    with the start bound taken at 00:00:00.000 UTC of its day and the end
    bound at 23:59:59.999 UTC of its day, and both of these times the
    database can compare with (years 0001 to 9999), it answers [false]
    exactly when some booking of that equipment has status paid or
    awaiting_payment and starts inside the range, ends inside it, or spans
    it.  But when a bound is an invalid date or a time outside those years it
    answers [true] whatever bookings there are: the query fails and the
    failure is taken for an empty result.  So the tractor, available and with
    a paid booking from 2024-01-01 to 2024-01-03, is reported available
    from 2024-01-02 to the first day of the year 10000.  The last three
    queries show the day granularity: a booking from noon to noon is met by a
    range that starts on its last day after noon and by a range that ends on
    its first day before noon, and not by a range that starts the day
    after. *)
Theorem availability_ledger :
  (forall (w : World) (equipment : Z) (sd ed : Date),
      int4 equipment = true ->
      exists r : bool,
        checkEquipmentAvailability equipment sd ed w = (Return r, w) /\
        match find (fun e => e_id e =? equipment) (equipmentTable w) with
        | None => r = false
        | Some e =>
            if availability e then
              match sd, ed with
              | Some s, Some t =>
                  let start := 86400000 * (s / 86400000) in
                  let end_ := 86400000 * (t / 86400000) + 86399999 in
                  (-62135596800000 <= start <= 253402300799999 /\
                   -62135596800000 <= end_ <= 253402300799999 ->
                   (r = false <->
                    exists b,
                      In b (bookings w) /\ equipmentId b = equipment /\
                      ((start <= startDate b /\ startDate b <= end_)
                       \/ (start <= endDate b /\ endDate b <= end_)
                       \/ (startDate b <= start /\ end_ <= endDate b)) /\
                      (status b = "paid" \/ status b = "awaiting_payment")))
                  /\
                  (~ (-62135596800000 <= start <= 253402300799999 /\
                      -62135596800000 <= end_ <= 253402300799999) ->
                   r = true)
              | _, _ => r = true
              end
            else r = false
        end)
  /\
  (In paidBooking (bookings reopenedWorld) /\
   (equipmentId paidBooking = 1 /\ status paidBooking = "paid") /\
   utcMidnight 2024 1 2 <= endDate paidBooking <= utcMidnight 10000 1 1 /\
   checkEquipmentAvailability 1 (Some (utcMidnight 2024 1 2)) (Some (utcMidnight 10000 1 1))
     reopenedWorld
   = (Return true, reopenedWorld))
  /\
  (checkEquipmentAvailability 1 (Some (utcMidnight 2024 1 7 + 18 * 3600000))
     (Some (utcMidnight 2024 1 9)) noonWorld
   = (Return false, noonWorld) /\
   checkEquipmentAvailability 1 (Some (utcMidnight 2024 1 3))
     (Some (utcMidnight 2024 1 5 + 6 * 3600000)) noonWorld
   = (Return false, noonWorld) /\
   checkEquipmentAvailability 1 (Some (utcMidnight 2024 1 8))
     (Some (utcMidnight 2024 1 9)) noonWorld
   = (Return true, noonWorld)).
Proof.
  split.
  - intros w equipment sd ed _.
    eexists. split; [apply checkEquipmentAvailability_run|].
    destruct (find _ _) as [e|] eqn:Hf; [|reflexivity].
    destruct (availability e) eqn:Hav; [|reflexivity]. cbn [andb].
    destruct sd as [s|]; [|reflexivity]. destruct ed as [t|]; [|reflexivity].
    cbv zeta. rewrite <- startOfDayUTC_eq, <- endOfDayUTC_eq. split.
    + intros [Hs Ht]. apply storableDate_spec in Hs, Ht.
      apply (availability_in_range w equipment s t e Hf Hav Hs Ht).
      now rewrite checkEquipmentAvailability_run, Hf, Hav.
    + intros Hout. unfold rowsInDateRange.
      destruct (storableDate (startOfDayUTC s)) eqn:Hs;
        [destruct (storableDate (endOfDayUTC t)) eqn:Ht|]; try reflexivity.
      apply storableDate_spec in Hs, Ht. tauto.
  - split.
    + split; [now left|]. split; [split; reflexivity|].
      split; [split; vm_compute; discriminate|]. vm_compute. reflexivity.
    + split; [|split]; vm_compute; reflexivity.
Qed.

(** ** Storage calls, run *)

Lemma updateEquipment_run (id : Z) (p : EquipmentPatch) (w : World) :
  equipmentPatchEmpty p = false ->
  equipmentUpdateRefused id p (equipmentTable w) = false ->
  updateEquipment id p w
  = (match find (fun e => e_id e =? id) (equipmentTable w) with
     | Some e => Return (applyEquipmentPatch p e)
     | None => Throw "Failed to update equipment"
     end, afterUpdateEquipment id p w).
Proof.
  intros Hp Hr. unfold updateEquipment. rewrite Hp.
  unfold tryCatch, bind, get, withEquipmentTable, record. simpl. rewrite Hr. simpl.
  destruct (find _ _); reflexivity.
Qed.

Lemma updateEquipment_empty (id : Z) (p : EquipmentPatch) (w : World) :
  equipmentPatchEmpty p = true ->
  updateEquipment id p w = (Throw "Failed to update equipment", w).
Proof. intros Hp. unfold updateEquipment. rewrite Hp. reflexivity. Qed.

Lemma updateEquipment_refused (id : Z) (p : EquipmentPatch) (w : World) :
  equipmentUpdateRefused id p (equipmentTable w) = true ->
  updateEquipment id p w = (Throw "Failed to update equipment", w).
Proof.
  intros Hr. unfold updateEquipment. destruct (equipmentPatchEmpty p); [reflexivity|].
  unfold tryCatch, bind, get. simpl. rewrite Hr. reflexivity.
Qed.

Lemma updateBooking_run (id : Z) (p : BookingPatch) (now : Z) (w : World) :
  updateBooking id p now w
  = (match find (fun b => b_id b =? id) (bookings w) with
     | Some b => Return (applyBookingPatch p now b)
     | None => Throw "Failed to update booking"
     end, afterUpdateBooking id p now w).
Proof.
  unfold updateBooking, tryCatch, bind, get, withBookings, record. simpl.
  rewrite (find_map_update b_id (applyBookingPatch p now) id) by reflexivity.
  destruct (find _ _); reflexivity.
Qed.

Lemma createBooking_run (ib : InsertBooking) (now : Z) (w : World) :
  bookingStorable ib = true ->
  createBooking ib now w = (Return (newBooking ib now w), afterCreateBooking ib now w).
Proof. intros H. unfold createBooking. rewrite H. reflexivity. Qed.

Lemma createBooking_refused (ib : InsertBooking) (now : Z) (w : World) :
  bookingStorable ib = false ->
  createBooking ib now w = (Throw "Failed to create booking", w).
Proof. intros H. unfold createBooking. rewrite H. reflexivity. Qed.

Lemma createReview_run (review : InsertReview) (now : Z) (w : World) :
  reviewStorable review = true ->
  createReview review now w
  = (Return (newReview review now w), afterCreateReview review now w).
Proof. intros H. unfold createReview. rewrite H. reflexivity. Qed.

Lemma createReview_refused (review : InsertReview) (now : Z) (w : World) :
  reviewStorable review = false ->
  createReview review now w = (Throw "Failed to create review", w).
Proof. intros H. unfold createReview. rewrite H. reflexivity. Qed.

Lemma createPaymentSession_run (env : Env) (booking amount : Z) (nm : string) (w : World) :
  Payment.createPaymentSession env booking amount nm w
  = if amount <=? 0
    then (Throw "Invalid amount. Amount must be greater than 0", w)
    else
      (match orders_create env booking (amount * 100) with
       | None => Throw "Razorpay order creation rejected"
       | Some orderId =>
           if String.eqb orderId "" then Throw "Failed to create Razorpay order"
           else Return (Payment.mkRazorpayConfig orderId (RAZORPAY_KEY_ID env)
                          (amount * 100) "INR" "AgriRent Equipment"
                          (String.append "Booking for " nm))
       end, afterRecord (GwOrdersCreate booking (amount * 100)) w).
Proof.
  unfold Payment.createPaymentSession, tryCatch, bind, record, throw.
  destruct (amount <=? 0); [reflexivity|].
  destruct (orders_create env booking (amount * 100)) as [o|]; [|reflexivity].
  destruct (String.eqb o ""); reflexivity.
Qed.

(** Order creation throws exactly when [orderFails] holds. *)
Lemma createPaymentSession_throws (env : Env) (booking amount : Z) (nm : string) (w : World) :
  (exists msg w', Payment.createPaymentSession env booking amount nm w = (Throw msg, w'))
  <-> orderFails env booking amount.
Proof.
  rewrite createPaymentSession_run. unfold orderFails.
  destruct (Z.leb_spec amount 0) as [Hle|Hgt].
  - split; [intros _; now left | intros _; eauto].
  - destruct (orders_create env booking (amount * 100)) as [o|].
    + destruct (String.eqb_spec o "") as [->|Hne].
      * split; [intros _; right; right; reflexivity | intros _; eauto].
      * split.
        -- intros (msg & w' & H). discriminate H.
        -- intros [H|[H|H]]; [lia | discriminate H | congruence].
    + split; [intros _; right; left; reflexivity | intros _; eauto].
Qed.

Lemma find_fresh (l : list Booking) (id : Z) :
  Forall (fun b => b_id b < id) l -> find (fun b => b_id b =? id) l = None.
Proof.
  induction 1 as [|b l Hb _ IH]; simpl; [reflexivity|].
  destruct (Z.eqb_spec (b_id b) id); [lia | exact IH].
Qed.

Lemma map_update_fresh (f : Booking -> Booking) (l : list Booking) (id : Z) :
  Forall (fun b => b_id b < id) l ->
  map (fun b => if b_id b =? id then f b else b) l = l.
Proof.
  induction 1 as [|b l Hb _ IH]; simpl; [reflexivity|].
  destruct (Z.eqb_spec (b_id b) id); [lia | now rewrite IH].
Qed.

Lemma find_app_fresh (l : list Booking) (b : Booking) :
  Forall (fun x => b_id x < b_id b) l ->
  find (fun x => b_id x =? b_id b) (l ++ [b]) = Some b.
Proof.
  induction 1 as [|x l Hx _ IH]; simpl.
  - now rewrite Z.eqb_refl.
  - destruct (Z.eqb_spec (b_id x) (b_id b)); [lia | exact IH].
Qed.

Lemma admits_available w rq equipment s t e :
  admits w rq equipment s t e -> availability e = true.
Proof.
  intros (_ & _ & _ & Hf & Hc).
  rewrite checkEquipmentAvailability_run, Hf in Hc.
  injection Hc as Hc. apply andb_true_iff in Hc. tauto.
Qed.


(** ** Booking creation *)

Ltac compensate Hfe Hfb :=
  rewrite updateEquipment_run by reflexivity;
  cbn [equipmentTable afterRecord orderedWorld]; rewrite Hfe;
  rewrite updateBooking_run;
  cbn [bookings afterUpdateEquipment afterRecord orderedWorld]; rewrite Hfb;
  reflexivity.

(** The row of an admitted request fits its columns exactly when the
    insert is carried out. *)
Lemma storable_bookingStorable (user equipment s t : Z) (e : Equipment)
    (st : string) (order payment : option string) :
  storable user equipment s t e <->
  bookingStorable (mkInsertBooking equipment user s t (dailyRate e * totalDays s t)
                                   st order payment) = true.
Proof.
  unfold storable, bookingStorable, int4.
  cbn [ib_equipmentId ib_userId ib_totalPrice ib_startDate ib_endDate].
  rewrite !andb_true_iff, !storableDate_spec, !Z.leb_le. tauto.
Qed.

Lemma storable_dec (user equipment s t : Z) (e : Equipment) :
  storable user equipment s t e \/ ~ storable user equipment s t e.
Proof.
  destruct (bookingStorable (mkInsertBooking equipment user s t
                               (dailyRate e * totalDays s t) "" None None)) eqn:H.
  - left. now apply (storable_bookingStorable user equipment s t e "" None None).
  - right. intros Hs.
    apply (storable_bookingStorable user equipment s t e "" None None) in Hs. congruence.
Qed.

Lemma post_api_bookings_admitted (env : Env) (w : World) (u : User)
    (rq : BookingRequest) (now equipment s t : Z) (e : Equipment) :
  admits w rq equipment s t e ->
  storable (u_id u) equipment s t e ->
  bookingIdsBelowSeq w ->
  post_api_bookings env (Some u) rq now w
  = let amount := dailyRate e * totalDays s t in
    let id := bookings_id_seq w in
    let w1 := lockedWorld w rq (u_id u) equipment s t e now in
    let w2 := orderedWorld w rq (u_id u) equipment s t e now in
    let failure msg w' :=
      (Return (mkResponse 400 (ErrorBody "Payment order creation failed" (Some msg))),
       compensated equipment id now w') in
    if amount <=? 0
    then failure "Invalid amount. Amount must be greater than 0" w1
    else
      match orders_create env id (amount * 100) with
      | None => failure "Razorpay order creation rejected" w2
      | Some orderId =>
          if String.eqb orderId "" then failure "Failed to create Razorpay order" w2
          else
            (Return (mkResponse 201
               (BookingCreated
                  (applyBookingPatch
                     (mkBookingPatch (Some "awaiting_payment") (Some orderId) None None)
                     now (pendingBooking w rq (u_id u) equipment s t e now))
                  (Payment.mkRazorpayConfig orderId (RAZORPAY_KEY_ID env)
                     (amount * 100) "INR" "AgriRent Equipment"
                     (String.append "Booking for " (name e))))),
             awaitingWorld w rq (u_id u) equipment s t e now orderId)
      end.
Proof.
  intros Hadm Hsto Hwf. pose proof (admits_available _ _ _ _ _ _ Hadm) as Hav.
  destruct Hadm as (He & Hs & Ht & Hf & Hc).
  unfold post_api_bookings, safeParseBooking. rewrite He, Hs, Ht.
  cbv beta iota delta [bind tryCatch json ret
    pb_equipmentId pb_userId pb_startDate pb_endDate pb_razorpayOrderId pb_razorpayPaymentId].
  rewrite getEquipment_run, Hf, Hav. cbv beta iota delta [negb].
  rewrite Hc. cbv beta iota delta [negb].
  rewrite createBooking_run by (apply storable_bookingStorable; exact Hsto).
  rewrite updateEquipment_run by reflexivity.
  cbn [equipmentTable afterCreateBooking b_id newBooking]. rewrite Hf.
  fold (lockedWorld w rq (u_id u) equipment s t e now).
  set (w1 := lockedWorld w rq (u_id u) equipment s t e now).
  set (amount := dailyRate e * totalDays s t).
  assert (Hfe1 : find (fun x => e_id x =? equipment) (equipmentTable w1)
                 = Some (applyEquipmentPatch (availabilityPatch (Some false)) e)).
  { subst w1. unfold lockedWorld, afterUpdateEquipment. cbn [equipmentTable afterCreateBooking].
    rewrite (find_map_update e_id _ equipment) by reflexivity. now rewrite Hf. }
  assert (Hfb1 : find (fun b => b_id b =? bookings_id_seq w) (bookings w1)
                 = Some (pendingBooking w rq (u_id u) equipment s t e now)).
  { subst w1. cbn [bookings lockedWorld afterUpdateEquipment afterCreateBooking].
    apply (find_app_fresh (bookings w) (pendingBooking w rq (u_id u) equipment s t e now)).
    exact Hwf. }
  rewrite createPaymentSession_run.
  cbv zeta.
  fold (orderedWorld w rq (u_id u) equipment s t e now).
  destruct (amount <=? 0).
  - compensate Hfe1 Hfb1.
  - fold w1. destruct (orders_create env (bookings_id_seq w) (amount * 100)) as [o|].
    + destruct (String.eqb o "").
      * compensate Hfe1 Hfb1.
      * rewrite updateBooking_run.
        cbn [bookings afterUpdateEquipment afterRecord orderedWorld]. fold w1. rewrite Hfb1.
        reflexivity.
    + compensate Hfe1 Hfb1.
Qed.

(** An admitted request whose row the database refuses: the route answers
    500 and nothing is written. *)
Lemma post_api_bookings_unstorable (env : Env) (w : World) (u : User)
    (rq : BookingRequest) (now equipment s t : Z) (e : Equipment) :
  admits w rq equipment s t e ->
  ~ storable (u_id u) equipment s t e ->
  post_api_bookings env (Some u) rq now w
  = (Return (mkResponse 500
       (ErrorBody "Failed to process booking" (Some "Failed to create booking"))), w).
Proof.
  intros Hadm Hsto. pose proof (admits_available _ _ _ _ _ _ Hadm) as Hav.
  destruct Hadm as (He & Hs & Ht & Hf & Hc).
  unfold post_api_bookings, safeParseBooking. rewrite He, Hs, Ht.
  cbv beta iota delta [bind tryCatch json ret
    pb_equipmentId pb_userId pb_startDate pb_endDate pb_razorpayOrderId pb_razorpayPaymentId].
  rewrite getEquipment_run, Hf, Hav. cbv beta iota delta [negb].
  rewrite Hc. cbv beta iota delta [negb].
  rewrite createBooking_refused; [reflexivity|].
  apply not_true_is_false. intros Hyes. apply Hsto.
  now apply storable_bookingStorable in Hyes.
Qed.




Lemma post_api_bookings_rejected (env : Env) (user : option User)
    (rq : BookingRequest) (now : Z) (w : World) :
  (exists u equipment s t e, user = Some u /\ admits w rq equipment s t e)
  \/ (exists resp, post_api_bookings env user rq now w = (Return resp, w)
                   /\ statusCode resp <> 201).
Proof.
  destruct user as [u|]; [|right; eexists; split; [reflexivity|simpl; lia]].
  destruct (rq_equipmentId rq) as [equipment|] eqn:He.
  2:{ right. unfold post_api_bookings, safeParseBooking. rewrite He.
      eexists; split; [reflexivity|simpl; lia]. }
  destruct (rq_startDate rq) as [s|] eqn:Hs.
  2:{ right. unfold post_api_bookings, safeParseBooking. rewrite He, Hs.
      eexists; split; [reflexivity|simpl; lia]. }
  destruct (rq_endDate rq) as [t|] eqn:Ht.
  2:{ right. unfold post_api_bookings, safeParseBooking. rewrite He, Hs, Ht.
      eexists; split; [reflexivity|simpl; lia]. }
  destruct (find (fun x => e_id x =? equipment) (equipmentTable w)) as [e|] eqn:Hf.
  2:{ right. unfold post_api_bookings, safeParseBooking. rewrite He, Hs, Ht.
      cbv beta iota delta [bind tryCatch json ret pb_equipmentId].
      rewrite getEquipment_run, Hf.
      eexists; split; [reflexivity|simpl; lia]. }
  destruct (availability e) eqn:Hav.
  2:{ right. unfold post_api_bookings, safeParseBooking. rewrite He, Hs, Ht.
      cbv beta iota delta [bind tryCatch json ret pb_equipmentId].
      rewrite getEquipment_run, Hf, Hav.
      eexists; split; [reflexivity|simpl; lia]. }
  pose proof (checkEquipmentAvailability_run equipment (Some s) (Some t) w) as Hc.
  rewrite Hf, Hav in Hc. cbv beta iota in Hc.
  destruct (true && negb _)%bool eqn:Hr in Hc.
  - left. exists u, equipment, s, t, e. split; [reflexivity|].
    repeat split; assumption.
  - right. unfold post_api_bookings, safeParseBooking. rewrite He, Hs, Ht.
    cbv beta iota delta [bind tryCatch json ret
      pb_equipmentId pb_userId pb_startDate pb_endDate].
    rewrite getEquipment_run, Hf, Hav. cbv beta iota delta [negb].
    rewrite Hc.
    eexists; split; [reflexivity|simpl; lia].
Qed.

Lemma bookings_compensated (w : World) (rq : BookingRequest) (user equipment s t : Z)
    (e : Equipment) (now : Z) (w' : World) :
  bookingIdsBelowSeq w ->
  bookings w' = bookings (lockedWorld w rq user equipment s t e now) ->
  bookings (compensated equipment (bookings_id_seq w) now w')
  = bookings w
    ++ [applyBookingPatch (mkBookingPatch (Some "payment_failed") None None None) now
          (pendingBooking w rq user equipment s t e now)].
Proof.
  intros Hwf Hb. unfold compensated.
  cbn [bookings afterUpdateBooking afterUpdateEquipment]. rewrite Hb.
  cbn [bookings lockedWorld afterUpdateEquipment afterCreateBooking].
  rewrite map_app, map_update_fresh by exact Hwf.
  cbn [map newBooking b_id]. now rewrite Z.eqb_refl.
Qed.

Lemma bookings_awaitingWorld (w : World) (rq : BookingRequest) (user equipment s t : Z)
    (e : Equipment) (now : Z) (orderId : string) :
  bookingIdsBelowSeq w ->
  bookings (awaitingWorld w rq user equipment s t e now orderId)
  = bookings w
    ++ [applyBookingPatch (mkBookingPatch (Some "awaiting_payment") (Some orderId) None None)
          now (pendingBooking w rq user equipment s t e now)].
Proof.
  intros Hwf. unfold awaitingWorld, orderedWorld, lockedWorld.
  cbn [bookings afterUpdateBooking afterRecord afterUpdateEquipment afterCreateBooking].
  rewrite map_app, map_update_fresh by exact Hwf.
  cbn [map newBooking b_id]. now rewrite Z.eqb_refl.
Qed.

Lemma availability_after_update (id : Z) (v : bool) (rows : list Equipment) (x : Equipment) :
  In x (map (fun e => if e_id e =? id then applyEquipmentPatch (availabilityPatch (Some v)) e
                      else e) rows) ->
  e_id x = id -> availability x = v.
Proof.
  intros Hin Hid. apply in_map_iff in Hin. destruct Hin as (y & Hy & _).
  destruct (Z.eqb_spec (e_id y) id) as [Heq|Hne].
  - subst x. reflexivity.
  - subst x. contradiction.
Qed.

Lemma post_api_bookings_failure (env : Env) (u : User) (rq : BookingRequest)
    (now : Z) (w : World) (equipment s t : Z) (e : Equipment) :
  bookingIdsBelowSeq w ->
  admits w rq equipment s t e ->
  storable (u_id u) equipment s t e ->
  orderFails env (bookings_id_seq w) (dailyRate e * totalDays s t) ->
  exists msg w1,
    post_api_bookings env (Some u) rq now w
    = (Return (mkResponse 400 (ErrorBody "Payment order creation failed" (Some msg))),
       compensated equipment (bookings_id_seq w) now w1) /\
    (w1 = lockedWorld w rq (u_id u) equipment s t e now
     \/ w1 = orderedWorld w rq (u_id u) equipment s t e now).
Proof.
  intros Hwf Hadm Hsto Hfail.
  rewrite (post_api_bookings_admitted env w u rq now equipment s t e Hadm Hsto Hwf).
  cbv zeta. unfold orderFails in Hfail.
  destruct (Z.leb_spec (dailyRate e * totalDays s t) 0) as [Hle|Hgt].
  - do 2 eexists. split; [reflexivity|]. now left.
  - destruct Hfail as [H|[H|H]]; [lia| |]; rewrite H.
    + do 2 eexists. split; [reflexivity|]. now right.
    + do 2 eexists. split; [reflexivity|]. now right.
Qed.

Lemma after_admission_tables (w : World) (rq : BookingRequest) (user equipment s t : Z)
    (e : Equipment) (now : Z) (w1 : World) :
  w1 = lockedWorld w rq user equipment s t e now
  \/ w1 = orderedWorld w rq user equipment s t e now ->
  bookings w1 = bookings (lockedWorld w rq user equipment s t e now) /\
  equipmentTable w1 = equipmentTable (lockedWorld w rq user equipment s t e now).
Proof. intros [->| ->]; split; reflexivity. Qed.

Lemma post_api_bookings_success (env : Env) (u : User) (rq : BookingRequest)
    (now : Z) (w : World) (equipment s t : Z) (e : Equipment) :
  bookingIdsBelowSeq w ->
  admits w rq equipment s t e ->
  storable (u_id u) equipment s t e ->
  ~ orderFails env (bookings_id_seq w) (dailyRate e * totalDays s t) ->
  exists orderId cfg,
    orders_create env (bookings_id_seq w) (dailyRate e * totalDays s t * 100) = Some orderId /\
    post_api_bookings env (Some u) rq now w
    = (Return (mkResponse 201
         (BookingCreated
            (applyBookingPatch
               (mkBookingPatch (Some "awaiting_payment") (Some orderId) None None)
               now (pendingBooking w rq (u_id u) equipment s t e now))
            cfg)),
       awaitingWorld w rq (u_id u) equipment s t e now orderId).
Proof.
  intros Hwf Hadm Hsto Hok.
  rewrite (post_api_bookings_admitted env w u rq now equipment s t e Hadm Hsto Hwf).
  cbv zeta. unfold orderFails in Hok.
  destruct (Z.leb_spec (dailyRate e * totalDays s t) 0) as [Hle|Hgt]; [tauto|].
  destruct (orders_create env _ _) as [o|]; [|tauto].
  destruct (String.eqb_spec o "") as [->|Hne]; [tauto|].
  do 2 eexists. split; reflexivity.
Qed.

Lemma orderFails_dec (env : Env) (booking amount : Z) :
  orderFails env booking amount \/ ~ orderFails env booking amount.
Proof.
  unfold orderFails.
  destruct (Z.leb_spec amount 0) as [Hle|Hgt]; [now left; left|].
  destruct (orders_create env booking (amount * 100)) as [o|].
  - destruct (String.eqb_spec o "") as [->|Hne].
    + left. right. right. reflexivity.
    + right. intros [H|[H|H]]; [lia | discriminate | congruence].
  - left. right. left. reflexivity.
Qed.




Lemma sampleWorld_ids : bookingIdsBelowSeq sampleWorld.
Proof. constructor. Qed.




(** The tractor at two thousand million a day, asked for three days: the
    request is admitted, the database refuses the row, the route answers
    500 and nothing is written. *)
Example booking_price_overflow :
  admits costlyWorld januaryRequest 1 (utcMidnight 2024 1 1) (utcMidnight 2024 1 3)
         costlyTractor /\
  post_api_bookings sampleEnv (Some renter) januaryRequest 0 costlyWorld
  = (Return (mkResponse 500
       (ErrorBody "Failed to process booking" (Some "Failed to create booking"))),
     costlyWorld).
Proof. split; [repeat split; reflexivity|vm_compute; reflexivity]. Qed.

(** C2, as amended.  The booking route either leaves the world untouched
    and answers with a code other than 201, or it has admitted the request:
    the user is signed in, the body carries an equipment id and two valid
    dates, the equipment row exists with its availability flag on, and the
    availability check answers true for the requested range.  On admission
    the route first inserts the booking row with status pending, then
    switches the equipment's availability flag off, and only then calls the
    gateway; when the order is created the row gets status awaiting_payment
    and the order id, the flag stays off, and the answer is 201. *)
Theorem create_admission_and_eager_lock (env : Env) (user : option User)
    (rq : BookingRequest) (now : Z) (w : World) :
  bookingIdsBelowSeq w ->
  (exists resp,
      post_api_bookings env user rq now w = (Return resp, w) /\ statusCode resp <> 201)
  \/
  (exists u equipment s t e resp w' rest,
      user = Some u /\
      admits w rq equipment s t e /\ availability e = true /\
      post_api_bookings env user rq now w = (Return resp, w') /\
      journal w'
      = journal w
        ++ DbInsertBooking (bookings_id_seq w) "pending"
           :: DbUpdateEquipment equipment (availabilityPatch (Some false))
           :: rest /\
      (orderFails env (bookings_id_seq w) (dailyRate e * totalDays s t)
       \/
       exists orderId b,
         orders_create env (bookings_id_seq w) (dailyRate e * totalDays s t * 100)
         = Some orderId /\
         statusCode resp = 201 /\
         rest = [GwOrdersCreate (bookings_id_seq w) (dailyRate e * totalDays s t * 100);
                 DbUpdateBooking (bookings_id_seq w)
                   (mkBookingPatch (Some "awaiting_payment") (Some orderId) None None)] /\
         bookings w' = bookings w ++ [b] /\
         b_id b = bookings_id_seq w /\ equipmentId b = equipment /\
         startDate b = s /\ endDate b = t /\
         status b = "awaiting_payment" /\ razorpayOrderId b = Some orderId /\
         (forall x, In x (equipmentTable w') -> e_id x = equipment ->
                    availability x = false))).
Proof.
  intros Hwf.
  destruct (post_api_bookings_rejected env user rq now w)
    as [(u & equipment & s & t & e & -> & Hadm)|Hrej]; [|now left].
  destruct (storable_dec (u_id u) equipment s t e) as [Hsto|Hsto].
  2:{ left. eexists.
      split; [apply (post_api_bookings_unstorable env w u rq now equipment s t e Hadm Hsto)|].
      discriminate. }
  right.
  exists u, equipment, s, t, e.
  pose proof (admits_available _ _ _ _ _ _ Hadm) as Hav.
  destruct (orderFails_dec env (bookings_id_seq w) (dailyRate e * totalDays s t)) as [Hf|Hok].
  - destruct (post_api_bookings_failure env u rq now w equipment s t e Hwf Hadm Hsto Hf)
      as (msg & w1 & Hrun & [-> | ->]).
    + do 3 eexists. split; [reflexivity|]. split; [exact Hadm|]. split; [exact Hav|].
      split; [exact Hrun|]. split; [|now left].
      cbn [journal compensated afterUpdateBooking afterUpdateEquipment lockedWorld
           afterCreateBooking statusOrPending ib_status].
      rewrite <- !app_assoc. reflexivity.
    + do 3 eexists. split; [reflexivity|]. split; [exact Hadm|]. split; [exact Hav|].
      split; [exact Hrun|]. split; [|now left].
      cbn [journal compensated afterUpdateBooking afterUpdateEquipment lockedWorld
           orderedWorld afterRecord afterCreateBooking statusOrPending ib_status].
      rewrite <- !app_assoc. reflexivity.
  - destruct (post_api_bookings_success env u rq now w equipment s t e Hwf Hadm Hsto Hok)
      as (o & cfg & Ho & Hrun).
    do 3 eexists. split; [reflexivity|]. split; [exact Hadm|]. split; [exact Hav|].
    split; [exact Hrun|]. split.
    + cbn [journal awaitingWorld afterUpdateBooking afterUpdateEquipment lockedWorld
           orderedWorld afterRecord afterCreateBooking statusOrPending ib_status].
      rewrite <- !app_assoc. reflexivity.
    + right. exists o. eexists. split; [exact Ho|]. split; [reflexivity|].
      split; [reflexivity|].
      split; [apply (bookings_awaitingWorld w rq (u_id u) equipment s t e now o Hwf)|].
      repeat (split; [reflexivity|]).
      intros x Hin Hid.
      exact (availability_after_update equipment false _ x Hin Hid).
Qed.

Lemma create_admission_witness :
  bookingIdsBelowSeq sampleWorld /\
  exists resp w',
    post_api_bookings sampleEnv (Some renter) januaryRequest 0 sampleWorld = (Return resp, w') /\
    statusCode resp = 201 /\
    journal w' = [DbInsertBooking 1 "pending";
                  DbUpdateEquipment 1 (availabilityPatch (Some false));
                  GwOrdersCreate 1 150000;
                  DbUpdateBooking 1
                    (mkBookingPatch (Some "awaiting_payment") (Some "order_1") None None)].
Proof.
  split; [exact sampleWorld_ids|].
  destruct (create_admission_and_eager_lock sampleEnv (Some renter) januaryRequest 0
              sampleWorld sampleWorld_ids)
    as [(resp & Hrun & _)
       |(u & equipment & s & t & e & resp & w' & rest & _ & _ & _ & Hrun & _)].
  - vm_compute in Hrun. discriminate Hrun.
  - exists resp, w'. split; [exact Hrun|].
    vm_compute in Hrun. injection Hrun as <- <-. split; reflexivity.
Defined.

(** Against C2 as stated: a request whose start date is two days after its
    end date is admitted and answered with 201, and the row is inserted
    with status pending. *)
Lemma create_admits_reversed_range :
  ~ (forall env user rq now w resp w' s t,
        post_api_bookings env user rq now w = (Return resp, w') ->
        statusCode resp = 201 ->
        rq_startDate rq = Some s -> rq_endDate rq = Some t ->
        s <= t)
  /\ (exists resp w',
        post_api_bookings sampleEnv (Some renter) reversedRequest 0 sampleWorld
        = (Return resp, w') /\
        statusCode resp = 201 /\
        journal w' = [DbInsertBooking 1 "pending";
                      DbUpdateEquipment 1 (availabilityPatch (Some false));
                      GwOrdersCreate 1 50000;
                      DbUpdateBooking 1
                        (mkBookingPatch (Some "awaiting_payment") (Some "order_1")
                                        None None)]).
Proof.
  destruct (post_api_bookings sampleEnv (Some renter) reversedRequest 0 sampleWorld)
    as [r w'] eqn:Hrun.
  pose proof Hrun as Hval. vm_compute in Hval. injection Hval as <- <-.
  split.
  - intros H.
    specialize (H sampleEnv (Some renter) reversedRequest 0 sampleWorld _ _
                  (utcMidnight 2024 1 3) (utcMidnight 2024 1 1) Hrun
                  eq_refl eq_refl eq_refl).
    vm_compute in H. apply H. reflexivity.
  - do 2 eexists. split; [reflexivity|]. split; reflexivity.
Qed.



(** ** Payment confirmation *)

Lemma truthyStr_Some (s : string) : s <> "" -> truthyStr (Some s) = true.
Proof.
  intros H. unfold truthyStr. destruct (String.eqb_spec s ""); [contradiction|reflexivity].
Qed.

Lemma truthyNum_Some (n : Z) : n <> 0 -> truthyNum (Some n) = true.
Proof.
  intros H. unfold truthyNum. destruct (Z.eqb_spec n 0); [contradiction|reflexivity].
Qed.

Lemma getBooking_run (id : Z) (w : World) :
  getBooking id w = (Return (find (fun b => b_id b =? id) (bookings w)), w).
Proof. reflexivity. Qed.

(** The synchronous confirmation once the four fields are present and the
    booking row is found. *)
Lemma verify_payment_run (env : Env) (now id : Z) (order payment signature : string)
    (w : World) (b : Booking) :
  id <> 0 -> order <> "" -> payment <> "" -> signature <> "" ->
  find (fun x => b_id x =? id) (bookings w) = Some b ->
  post_api_bookings_verify_payment env
    (mkVerifyRequest (Some id) (Some order) (Some payment) (Some signature)) now w
  = if String.eqb (status b) "paid"
    then (Return (mkResponse 200 (PaymentVerified b None)), w)
    else if Payment.verifyPaymentSignature env order payment signature
    then
      let w1 := afterUpdateBooking id (mkBookingPatch (Some "paid") None (Some payment) None)
                  now w in
      let w2 := afterUpdateEquipment (equipmentId b) (availabilityPatch (Some false)) w1 in
      match find (fun e => e_id e =? equipmentId b) (equipmentTable w) with
      | Some _ =>
          (Return (mkResponse 200
             (PaymentVerified
                (applyBookingPatch (mkBookingPatch (Some "paid") None (Some payment) None)
                                   now b)
                (Some "Payment verified successfully and equipment marked as unavailable"))),
           w2)
      | None =>
          (Return (mkResponse 500
             (ErrorBody "Payment verification failed" (Some "Failed to update equipment"))),
           w2)
      end
    else
      let w1 := afterUpdateEquipment (equipmentId b) (availabilityPatch (Some true)) w in
      match find (fun e => e_id e =? equipmentId b) (equipmentTable w) with
      | Some _ => (Return (mkResponse 400 (ErrorBody "Invalid payment signature" None)), w1)
      | None =>
          (Return (mkResponse 500
             (ErrorBody "Payment verification failed" (Some "Failed to update equipment"))),
           w1)
      end.
Proof.
  intros Hid Ho Hp Hs Hf.
  unfold post_api_bookings_verify_payment.
  cbn [vr_bookingId razorpay_order_id razorpay_payment_id razorpay_signature].
  rewrite (truthyNum_Some id Hid), (truthyStr_Some order Ho),
          (truthyStr_Some payment Hp), (truthyStr_Some signature Hs).
  cbv beta iota delta [negb orb bind tryCatch json ret orElse str].
  rewrite getBooking_run, Hf.
  destruct (String.eqb (status b) "paid"); [reflexivity|].
  destruct (Payment.verifyPaymentSignature env order payment signature);
    cbv beta iota delta [negb].
  - rewrite updateBooking_run, Hf.
    rewrite updateEquipment_run by reflexivity.
    cbn [equipmentTable afterUpdateBooking].
    destruct (find (fun e => e_id e =? equipmentId b) (equipmentTable w)); reflexivity.
  - rewrite updateEquipment_run by reflexivity.
    destruct (find (fun e => e_id e =? equipmentId b) (equipmentTable w)); reflexivity.
Qed.

(** C10, as amended.  When the booking is already paid, a synchronous
    confirmation that carries its four fields, the signature among them and
    not empty, answers 200 with the booking as it is and leaves the world as
    it was, whatever the signature says: two calls with the same booking id,
    order id and payment id and any two signatures that are not empty have
    the same response and the same resulting world.  The test for paid comes
    before the signature is verified, but after the test that the four
    fields are there. *)
Theorem verify_payment_paid_ignores_signature (env : Env) (w : World)
    (now1 now2 id : Z) (order payment sig1 sig2 : string) (b : Booking) :
  id <> 0 -> order <> "" -> payment <> "" -> sig1 <> "" -> sig2 <> "" ->
  find (fun x => b_id x =? id) (bookings w) = Some b ->
  status b = "paid" ->
  post_api_bookings_verify_payment env
    (mkVerifyRequest (Some id) (Some order) (Some payment) (Some sig1)) now1 w
  = (Return (mkResponse 200 (PaymentVerified b None)), w)
  /\
  post_api_bookings_verify_payment env
    (mkVerifyRequest (Some id) (Some order) (Some payment) (Some sig2)) now2 w
  = post_api_bookings_verify_payment env
      (mkVerifyRequest (Some id) (Some order) (Some payment) (Some sig1)) now1 w.
Proof.
  intros Hid Ho Hp Hs1 Hs2 Hf Hst.
  rewrite (verify_payment_run env now1 id order payment sig1 w b Hid Ho Hp Hs1 Hf).
  rewrite (verify_payment_run env now2 id order payment sig2 w b Hid Ho Hp Hs2 Hf).
  rewrite Hst. split; reflexivity.
Qed.

Lemma verifyPaymentSignature_spec (env : Env) (order payment signature : string) :
  Payment.verifyPaymentSignature env order payment signature = true <->
  signature = hmacSha256Hex env (RAZORPAY_KEY_SECRET env)
                (String.append order (String.append "|" payment)).
Proof.
  unfold Payment.verifyPaymentSignature. rewrite String.eqb_eq. split; congruence.
Qed.

(** With a webhook secret configured every delivery is answered 400 and
    nothing is written: a delivery without a signature is turned away, and
    for any other the computation of the signature throws. *)
Lemma webhook_secured (env : Env) (rq : WebhookRequest) (now : Z) (w : World)
    (secret : string) :
  RAZORPAY_WEBHOOK_SECRET env = Some secret -> secret <> "" ->
  exists answer,
    post_api_webhooks_razorpay env rq now w = (Return (mkResponse 400 answer), w).
Proof.
  intros Hsec Hne.
  unfold post_api_webhooks_razorpay. rewrite Hsec, (truthyStr_Some secret Hne).
  destruct (negb (truthyStr (x_razorpay_signature rq))); eexists; reflexivity.
Qed.

(** C4, as amended.  A failed signature check is never turned into a
    success.  Synchronous path: for a request that carries its four fields,
    the signature among them and not empty, for a booking awaiting payment
    and a signature other than HMAC-SHA256(key secret, orderId|paymentId),
    the route answers 400 (500 if the equipment row is gone), the bookings
    table is unchanged, so the booking still awaits payment, and the
    availability flag of its equipment is on afterwards.  Webhook path: with
    a webhook secret configured, every request is answered 400 and the world
    is unchanged, whatever its signature header. *)
Theorem signature_failure_is_not_success :
  (forall (env : Env) (w : World) (now id : Z) (order payment signature : string)
          (b : Booking),
      id <> 0 -> order <> "" -> payment <> "" -> signature <> "" ->
      find (fun x => b_id x =? id) (bookings w) = Some b ->
      status b = "awaiting_payment" ->
      signature <> hmacSha256Hex env (RAZORPAY_KEY_SECRET env)
                     (String.append order (String.append "|" payment)) ->
      exists resp w',
        post_api_bookings_verify_payment env
          (mkVerifyRequest (Some id) (Some order) (Some payment) (Some signature)) now w
        = (Return resp, w') /\
        (statusCode resp = 400 \/ statusCode resp = 500) /\
        bookings w' = bookings w /\
        find (fun x => b_id x =? id) (bookings w') = Some b /\
        (forall e, find (fun x => e_id x =? equipmentId b) (equipmentTable w) = Some e ->
                   statusCode resp = 400 /\
                   exists e', find (fun x => e_id x =? equipmentId b) (equipmentTable w')
                              = Some e' /\ availability e' = true) /\
        (forall x, In x (equipmentTable w') -> e_id x = equipmentId b ->
                   availability x = true))
  /\
  (forall (env : Env) (rq : WebhookRequest) (now : Z) (w : World) (secret : string),
      RAZORPAY_WEBHOOK_SECRET env = Some secret -> secret <> "" ->
      exists resp,
        post_api_webhooks_razorpay env rq now w = (Return resp, w) /\
        statusCode resp = 400).
Proof.
  split.
  - intros env w now id order payment signature b Hid Ho Hp Hs Hf Hst Hsig.
    rewrite (verify_payment_run env now id order payment signature w b Hid Ho Hp Hs Hf).
    rewrite Hst. cbn [String.eqb Ascii.eqb Bool.eqb].
    destruct (Payment.verifyPaymentSignature env order payment signature) eqn:Hv.
    { apply verifyPaymentSignature_spec in Hv. contradiction. }
    cbv zeta.
    destruct (find (fun e => e_id e =? equipmentId b) (equipmentTable w)) as [e|] eqn:He.
    + do 2 eexists. split; [reflexivity|]. split; [now left|].
      split; [reflexivity|]. split; [exact Hf|]. split.
      * intros e0 _. split; [reflexivity|].
        cbn [equipmentTable afterUpdateEquipment].
        rewrite (find_map_update e_id _ (equipmentId b)) by reflexivity. rewrite He.
        eexists. split; reflexivity.
      * intros x Hin Hx.
        exact (availability_after_update (equipmentId b) true _ x Hin Hx).
    + do 2 eexists. split; [reflexivity|]. split; [now right|].
      split; [reflexivity|]. split; [exact Hf|]. split.
      * intros e0 He0. discriminate He0.
      * intros x Hin Hx.
        exact (availability_after_update (equipmentId b) true _ x Hin Hx).
  - intros env rq now w secret Hsec Hne.
    destruct (webhook_secured env rq now w secret Hsec Hne) as (answer & Hrun).
    eexists. split; [exact Hrun|reflexivity].
Qed.

Lemma signature_failure_witness :
  (exists resp w',
     post_api_bookings_verify_payment openEnv
       (mkVerifyRequest (Some 1) (Some "order_1") (Some "pay_1") (Some "forged")) 70 heldWorld
     = (Return resp, w') /\
     statusCode resp = 400 /\
     bookings w' = [awaitingBooking] /\
     equipmentTable w' = [tractor])
  /\
  (exists resp,
     post_api_webhooks_razorpay securedEnv
       (mkWebhookRequest (Some "forged") (ArrayBody [JString "flat captured"])) 70 heldWorld
     = (Return resp, heldWorld) /\
     statusCode resp = 400).
Proof.
  split.
  - assert (Hsig : "forged" <> hmacSha256Hex openEnv (RAZORPAY_KEY_SECRET openEnv)
                                (String.append "order_1" (String.append "|" "pay_1")))
      by (vm_compute; discriminate).
    destruct (proj1 signature_failure_is_not_success openEnv heldWorld 70 1
                "order_1" "pay_1" "forged" awaitingBooking)
      as (resp & w' & Hrun & _ & Hb & _ & He & _);
      [discriminate | discriminate | discriminate | discriminate
      | reflexivity | reflexivity | exact Hsig |].
    exists resp, w'. split; [exact Hrun|].
    split; [exact (proj1 (He heldTractor eq_refl))|].
    split; [exact Hb|].
    vm_compute in Hrun. injection Hrun as _ <-. reflexivity.
  - apply (proj2 signature_failure_is_not_success securedEnv
             (mkWebhookRequest (Some "forged") (ArrayBody [JString "flat captured"]))
             70 heldWorld "whsec");
      [reflexivity | discriminate].
Defined.

(** Against C4 as stated: a confirmation whose signature is the empty
    string, which is not the HMAC, for booking 1, which awaits payment.  The
    route answers 400 on the test of its four fields, before it reads the
    booking: nothing is written, and the availability flag of the tractor
    stays off. *)
Lemma empty_signature_restores_nothing :
  ~ (forall (env : Env) (w : World) (now id : Z) (order payment signature : string)
            (b : Booking) (resp : Response) (w' : World),
        find (fun x => b_id x =? id) (bookings w) = Some b ->
        status b = "awaiting_payment" ->
        signature <> hmacSha256Hex env (RAZORPAY_KEY_SECRET env)
                       (String.append order (String.append "|" payment)) ->
        post_api_bookings_verify_payment env
          (mkVerifyRequest (Some id) (Some order) (Some payment) (Some signature)) now w
        = (Return resp, w') ->
        forall x, In x (equipmentTable w') -> e_id x = equipmentId b ->
                  availability x = true)
  /\
  post_api_bookings_verify_payment openEnv
    (mkVerifyRequest (Some 1) (Some "order_1") (Some "pay_1") (Some "")) 70 heldWorld
  = (Return (mkResponse 400
       (ErrorBody "Missing required payment details"
                  (Some "All payment verification fields are required"))),
     heldWorld)
  /\
  map availability (equipmentTable heldWorld) = [false].
Proof.
  assert (Hrun : post_api_bookings_verify_payment openEnv
                   (mkVerifyRequest (Some 1) (Some "order_1") (Some "pay_1") (Some "")) 70
                   heldWorld
                 = (Return (mkResponse 400
                      (ErrorBody "Missing required payment details"
                                 (Some "All payment verification fields are required"))),
                    heldWorld)) by reflexivity.
  split; [|split; [exact Hrun|reflexivity]].
  intros H.
  assert (Hsig : "" <> hmacSha256Hex openEnv (RAZORPAY_KEY_SECRET openEnv)
                         (String.append "order_1" (String.append "|" "pay_1")))
    by (vm_compute; discriminate).
  specialize (H openEnv heldWorld 70 1 "order_1" "pay_1" "" awaitingBooking _ _
                eq_refl eq_refl Hsig Hrun heldTractor (or_introl eq_refl) eq_refl).
  discriminate H.
Qed.

Lemma verify_payment_paid_witness :
  post_api_bookings_verify_payment openEnv
    (mkVerifyRequest (Some 1) (Some "order_1") (Some "pay_1") (Some "forged")) 70 paidWorld
  = (Return (mkResponse 200 (PaymentVerified paidBooking None)), paidWorld) /\
  post_api_bookings_verify_payment openEnv
    (mkVerifyRequest (Some 1) (Some "order_1") (Some "pay_1") (Some "another")) 80 paidWorld
  = post_api_bookings_verify_payment openEnv
      (mkVerifyRequest (Some 1) (Some "order_1") (Some "pay_1") (Some "forged")) 70 paidWorld.
Proof.
  apply (verify_payment_paid_ignores_signature openEnv paidWorld 70 80 1
           "order_1" "pay_1" "forged" "another" paidBooking);
    [discriminate | discriminate | discriminate | discriminate | discriminate
    | reflexivity | reflexivity].
Defined.

(** Against C10 as stated: for booking 1, which is paid, the same booking
    id, order id and payment id are sent once with the empty string as
    signature and once with another signature.  The first call is answered
    400, the second 200. *)
Lemma empty_signature_is_not_ignored :
  ~ (forall (env : Env) (w : World) (now1 now2 id : Z) (order payment sig1 sig2 : string)
            (b : Booking),
        find (fun x => b_id x =? id) (bookings w) = Some b ->
        status b = "paid" ->
        post_api_bookings_verify_payment env
          (mkVerifyRequest (Some id) (Some order) (Some payment) (Some sig2)) now2 w
        = post_api_bookings_verify_payment env
            (mkVerifyRequest (Some id) (Some order) (Some payment) (Some sig1)) now1 w)
  /\
  post_api_bookings_verify_payment openEnv
    (mkVerifyRequest (Some 1) (Some "order_1") (Some "pay_1") (Some "")) 70 paidWorld
  = (Return (mkResponse 400
       (ErrorBody "Missing required payment details"
                  (Some "All payment verification fields are required"))),
     paidWorld)
  /\
  post_api_bookings_verify_payment openEnv
    (mkVerifyRequest (Some 1) (Some "order_1") (Some "pay_1") (Some "forged")) 80 paidWorld
  = (Return (mkResponse 200 (PaymentVerified paidBooking None)), paidWorld).
Proof.
  split; [|split; reflexivity].
  intros H.
  specialize (H openEnv paidWorld 70 80 1 "order_1" "pay_1" "" "forged" paidBooking
                eq_refl eq_refl).
  discriminate H.
Qed.

(** ** The webhook route *)

Lemma generateReceipt_run (env : Env) (booking : Z) (paymentId : string) (w : World) :
  Payment.generateReceipt env booking paymentId w
  = (match payments_fetch env paymentId with
     | Some payment =>
         Return (Payment.mkReceipt booking paymentId (rp_status payment)
                                   (rp_currency payment) (rp_method payment))
     | None => Throw "Failed to generate receipt"
     end, afterRecord (GwPaymentsFetch paymentId) w).
Proof.
  unfold Payment.generateReceipt, tryCatch, bind, record, throw.
  destruct (payments_fetch env paymentId); reflexivity.
Qed.

(** A capture accepted by the webhook route, for a booking and an equipment
    that exist: the three steps run whatever the booking's status is. *)
Lemma webhook_capture_run (env : Env) (rq : WebhookRequest) (now : Z) (w : World)
    (text : string) (event : WebhookEvent) (p : PaymentPayload) (n : Z) (pid : string)
    (b : Booking) (e : Equipment) (payment : RazorpayPayment) :
  truthyStr (RAZORPAY_WEBHOOK_SECRET env) = false ->
  bodyText (reqBody rq) = Return text ->
  JSON_parse env text = Some event ->
  ev_payment event = Some p ->
  pay_status p = Some "captured" -> pay_order_id p = Some n ->
  pay_id p = Some pid -> pid <> "" ->
  find (fun x => b_id x =? n) (bookings w) = Some b ->
  find (fun x => e_id x =? equipmentId b) (equipmentTable w) = Some e ->
  payments_fetch env pid = Some payment ->
  post_api_webhooks_razorpay env rq now w
  = (Return (mkResponse 200 Received),
     afterRecord (GwPaymentsFetch pid)
       (afterUpdateEquipment (equipmentId b) (availabilityPatch (Some false))
          (afterUpdateBooking n (mkBookingPatch (Some "paid") None (Some pid) None) now w))).
Proof.
  intros Hsec Htext Hparse Hpay Hst Hord Hid Hpid Hfb Hfe Hfetch.
  unfold post_api_webhooks_razorpay. rewrite Hsec.
  unfold processWebhook. rewrite Htext, Hparse.
  unfold handleWebhookEvent. rewrite Hpay, Hst, Hord, Hid.
  cbv beta iota delta [bind tryCatch json ret updateBookingBy].
  destruct (String.eqb_spec pid ""); [contradiction|].
  rewrite updateBooking_run, Hfb.
  rewrite updateEquipment_run by reflexivity.
  cbn [equipmentTable afterUpdateBooking equipmentId applyBookingPatch]. rewrite Hfe.
  rewrite generateReceipt_run, Hfetch. reflexivity.
Qed.

(** Delivering an accepted capture twice generates two receipts. *)
Lemma webhook_capture_twice (env : Env) (rq : WebhookRequest) (now1 now2 : Z) (w : World)
    (text : string) (event : WebhookEvent) (p : PaymentPayload) (n : Z) (pid : string)
    (b : Booking) (e : Equipment) (payment : RazorpayPayment) :
  truthyStr (RAZORPAY_WEBHOOK_SECRET env) = false ->
  bodyText (reqBody rq) = Return text ->
  JSON_parse env text = Some event ->
  ev_payment event = Some p ->
  pay_status p = Some "captured" -> pay_order_id p = Some n ->
  pay_id p = Some pid -> pid <> "" ->
  find (fun x => b_id x =? n) (bookings w) = Some b ->
  find (fun x => e_id x =? equipmentId b) (equipmentTable w) = Some e ->
  payments_fetch env pid = Some payment ->
  exists w1 w2,
    post_api_webhooks_razorpay env rq now1 w = (Return (mkResponse 200 Received), w1) /\
    post_api_webhooks_razorpay env rq now2 w1 = (Return (mkResponse 200 Received), w2) /\
    receiptsGenerated w1 = S (receiptsGenerated w) /\
    receiptsGenerated w2 = S (S (receiptsGenerated w)).
Proof.
  intros Hsec Htext Hparse Hpay Hst Hord Hid Hpid Hfb Hfe Hfetch.
  do 2 eexists. split.
  { apply (webhook_capture_run env rq now1 w text event p n pid b e payment); assumption. }
  split.
  { eapply (webhook_capture_run env rq now2 _ text event p n pid
              (applyBookingPatch (mkBookingPatch (Some "paid") None (Some pid) None) now1 b)
              (applyEquipmentPatch (availabilityPatch (Some false)) e) payment);
      try assumption.
    - cbn [bookings afterRecord afterUpdateEquipment afterUpdateBooking].
      rewrite (find_map_update b_id _ n) by reflexivity. now rewrite Hfb.
    - cbn [equipmentTable afterRecord afterUpdateEquipment afterUpdateBooking
           equipmentId applyBookingPatch].
      rewrite (find_map_update e_id _ (equipmentId b)) by reflexivity. now rewrite Hfe. }
  unfold receiptsGenerated.
  cbn [journal afterRecord afterUpdateEquipment afterUpdateBooking equipmentId
       applyBookingPatch].
  rewrite !filter_app, !length_app. cbn. lia.
Qed.

Example parseInt_decimal : Payment.parseInt "17" = Some 17.
Proof. reflexivity. Qed.

Example parseInt_prefix : Payment.parseInt " 42nd" = Some 42.
Proof. reflexivity. Qed.

Example parseInt_NaN : Payment.parseInt "booking" = None.
Proof. reflexivity. Qed.

Example parseInt_hex : Payment.parseInt "-0x1F" = Some (-31).
Proof. reflexivity. Qed.

Example parseInt_carriage_return : Payment.parseInt (String "013" "12") = Some 12.
Proof. reflexivity. Qed.

Example parseInt_no_break_space :
  Payment.parseInt (String "194" (String "160" "12")) = Some 12.
Proof. reflexivity. Qed.

Example parseInt_rounds : Payment.parseInt "9007199254740993" = Some 9007199254740992.
Proof. vm_compute. reflexivity. Qed.

(** The payment module's handler dispatches on the event name. *)
Lemma payment_module_captured (p : PaymentPayload) (entity : PaymentEntity) (notes : Notes)
    (s : string) (n : Z) :
  pay_entity p = Some entity -> ent_notes entity = Some notes ->
  bookingId notes = Some s -> Payment.parseInt s = Some n -> n <> 0 ->
  Payment.handleWebhookEvent (mkWebhookEvent (Some "payment.captured") (Some p))
  = Return (Payment.WebhookSuccess n (ent_order_id entity) (ent_id entity)).
Proof.
  intros He Hn Hb Hp Hz. unfold Payment.handleWebhookEvent.
  cbn [ev_event ev_payment]. destruct p as [st o i ent]. cbn in He. subst ent.
  rewrite Hn, Hb. cbn [option_map]. rewrite Hp.
  destruct (Z.eqb_spec n 0); [contradiction|reflexivity].
Qed.

Lemma payment_module_failed (p : PaymentPayload) (entity : PaymentEntity) (notes : Notes) :
  pay_entity p = Some entity -> ent_notes entity = Some notes ->
  Payment.handleWebhookEvent (mkWebhookEvent (Some "payment.failed") (Some p))
  = Return (Payment.WebhookFailure
              (match bookingId notes with Some s => Payment.parseInt s | None => None end)
              (ent_error_description entity)).
Proof.
  intros He Hn. unfold Payment.handleWebhookEvent.
  cbn [ev_event ev_payment]. destruct p as [st o i ent]. cbn in He. subst ent.
  now rewrite Hn.
Qed.

(** The webhook route acknowledges, and does nothing else, whenever
    [payload.payment] has no [status] field, whatever the event name. *)
Lemma webhook_without_status (env : Env) (rq : WebhookRequest) (now : Z) (w : World)
    (text : string) (event : WebhookEvent) (p : PaymentPayload) :
  truthyStr (RAZORPAY_WEBHOOK_SECRET env) = false ->
  bodyText (reqBody rq) = Return text ->
  JSON_parse env text = Some event ->
  ev_payment event = Some p ->
  pay_status p = None ->
  post_api_webhooks_razorpay env rq now w = (Return (mkResponse 200 Received), w).
Proof.
  intros Hsec Htext Hparse Hpay Hst.
  unfold post_api_webhooks_razorpay. rewrite Hsec.
  unfold processWebhook. rewrite Htext, Hparse.
  unfold handleWebhookEvent. rewrite Hpay, Hst. reflexivity.
Qed.

(** A delivery whose body is a JSON object, as the gateway sends it, is
    answered 400 and changes nothing: the text that [toString] makes of the
    object is not JSON. *)
Lemma webhook_object_body (env : Env) (signature : option string) (keys : list string)
    (now : Z) (w : World) :
  JSON_parse env "[object Object]" = None ->
  exists answer,
    post_api_webhooks_razorpay env (mkWebhookRequest signature (ObjectBody keys)) now w
    = (Return (mkResponse 400 answer), w).
Proof.
  intros Hparse. unfold post_api_webhooks_razorpay.
  destruct (truthyStr (RAZORPAY_WEBHOOK_SECRET env)).
  - cbn [x_razorpay_signature].
    destruct (negb (truthyStr signature)); eexists; reflexivity.
  - unfold processWebhook, bodyText, objectToString. cbn [reqBody].
    destruct (existsb (String.eqb "toString") keys); [eexists; reflexivity|].
    rewrite Hparse. eexists; reflexivity.
Qed.

(** C3.  The synchronous path is idempotent, the webhook path is not.  No
    webhook secret is configured and booking 1 awaits payment.  A capture
    reaches the handler of the webhook route when its JSON text is the one
    element of a JSON array, for then [req.body.toString()] is that text.
    Delivered so, it marks booking 1 paid and generates one receipt; the same
    delivery once more is applied again in full: the booking row is rewritten
    (its last status update moves from 60 to 90) and a second receipt is
    generated.  A synchronous confirmation arriving after the first delivery
    changes nothing.  The same event delivered as a JSON object is answered
    400 both times and changes nothing. *)
Theorem webhook_redelivery_repeats_receipt :
  let delivery := mkWebhookRequest None (ArrayBody [JString "flat captured"]) in
  let '(r1, w1) := post_api_webhooks_razorpay openEnv delivery 60 heldWorld in
  let '(r2, w2) := post_api_webhooks_razorpay openEnv delivery 90 w1 in
  bodyText (reqBody delivery) = Return "flat captured" /\
  JSON_parse openEnv "flat captured"
  = Some (mkWebhookEvent (Some "payment.captured")
            (Some (mkPaymentPayload (Some "captured") (Some 1) (Some "pay_1") None))) /\
  r1 = Return (mkResponse 200 Received) /\
  r2 = Return (mkResponse 200 Received) /\
  map status (bookings w1) = ["paid"] /\
  map status (bookings w2) = ["paid"] /\
  receiptsGenerated w1 = 1%nat /\
  receiptsGenerated w2 = 2%nat /\
  map lastStatusUpdate (bookings w1) = [60] /\
  map lastStatusUpdate (bookings w2) = [90] /\
  journal w2
  = journal w1
    ++ [DbUpdateBooking 1 (mkBookingPatch (Some "paid") None (Some "pay_1") None);
        DbUpdateEquipment 1 (availabilityPatch (Some false));
        GwPaymentsFetch "pay_1"] /\
  snd (post_api_bookings_verify_payment openEnv
         (mkVerifyRequest (Some 1) (Some "order_1") (Some "pay_1")
                          (Some "key_secret:order_1|pay_1")) 90 w1)
  = w1 /\
  (forall (keys : list string) (now : Z) (w : World),
      exists answer,
        post_api_webhooks_razorpay openEnv (mkWebhookRequest None (ObjectBody keys)) now w
        = (Return (mkResponse 400 answer), w)).
Proof.
  cbv zeta.
  destruct (post_api_webhooks_razorpay openEnv
              (mkWebhookRequest None (ArrayBody [JString "flat captured"])) 60 heldWorld)
    as [r1 w1] eqn:H1.
  vm_compute in H1. injection H1 as <- <-.
  match goal with
  | |- context [post_api_webhooks_razorpay ?e ?d 90 ?w] =>
      destruct (post_api_webhooks_razorpay e d 90 w) as [r2 w2] eqn:H2
  end.
  vm_compute in H2. injection H2 as <- <-.
  repeat (split; [vm_compute; reflexivity|]).
  intros keys now w. apply webhook_object_body. reflexivity.
Qed.

(** C6.  The payment module's handler reads the event name: it maps a
    payment.captured event to a success for the booking named in the notes
    and a payment.failed event to a failure.  The webhook route does not
    call it.  The handler it calls never reads the event name, only
    [payload.payment.status]; a gateway event, which has no such field, is
    acknowledged and changes nothing when it reaches the handler, so neither
    Confirm nor Fail runs.  It reaches the handler when no webhook secret is
    configured and its text is the one element of a JSON array; delivered as
    the JSON object that the gateway sends, or with a secret configured, it
    is answered 400 and changes nothing either. *)
Theorem webhook_route_ignores_gateway_events :
  Payment.handleWebhookEvent gatewayCaptured
  = Return (Payment.WebhookSuccess 1 (Some "order_1") (Some "pay_1")) /\
  Payment.handleWebhookEvent gatewayFailed
  = Return (Payment.WebhookFailure (Some 1) (Some "Payment declined")) /\
  (forall (eventName : option string) (payment : option PaymentPayload),
      Routes.handleWebhookEvent (mkWebhookEvent eventName payment)
      = Routes.handleWebhookEvent (mkWebhookEvent None payment)) /\
  post_api_webhooks_razorpay openEnv
    (mkWebhookRequest None (ArrayBody [JString "gateway payment.captured"])) 60 heldWorld
  = (Return (mkResponse 200 Received), heldWorld) /\
  post_api_webhooks_razorpay openEnv
    (mkWebhookRequest None (ArrayBody [JString "gateway payment.failed"])) 60 heldWorld
  = (Return (mkResponse 200 Received), heldWorld) /\
  (forall (env : Env) (rq : WebhookRequest) (now : Z) (w : World) (text : string)
          (event : WebhookEvent) (p : PaymentPayload),
      truthyStr (RAZORPAY_WEBHOOK_SECRET env) = false ->
      bodyText (reqBody rq) = Return text ->
      JSON_parse env text = Some event ->
      ev_payment event = Some p -> pay_status p = None ->
      post_api_webhooks_razorpay env rq now w = (Return (mkResponse 200 Received), w)) /\
  (forall (env : Env) (signature : option string) (keys : list string) (now : Z) (w : World),
      JSON_parse env "[object Object]" = None ->
      exists answer,
        post_api_webhooks_razorpay env (mkWebhookRequest signature (ObjectBody keys)) now w
        = (Return (mkResponse 400 answer), w)) /\
  (forall (env : Env) (rq : WebhookRequest) (now : Z) (w : World) (secret : string),
      RAZORPAY_WEBHOOK_SECRET env = Some secret -> secret <> "" ->
      exists answer,
        post_api_webhooks_razorpay env rq now w = (Return (mkResponse 400 answer), w)).
Proof.
  split; [vm_compute; reflexivity|].
  split; [vm_compute; reflexivity|].
  split; [reflexivity|].
  split; [vm_compute; reflexivity|].
  split; [vm_compute; reflexivity|].
  split; [exact webhook_without_status|].
  split; [exact webhook_object_body|exact webhook_secured].
Qed.

(** ** Review gate *)

Lemma In_insertByCreatedAtDesc (b x : Booking) (l : list Booking) :
  In x (insertByCreatedAtDesc b l) <-> x = b \/ In x l.
Proof.
  induction l as [|y l IH]; simpl.
  - intuition congruence.
  - destruct (createdAt y <=? createdAt b); simpl.
    + intuition congruence.
    + rewrite IH. intuition congruence.
Qed.

Lemma In_orderByCreatedAtDesc (x : Booking) (l : list Booking) :
  In x (orderByCreatedAtDesc l) <-> In x l.
Proof.
  induction l as [|y l IH]; simpl; [reflexivity|].
  rewrite In_insertByCreatedAtDesc, IH. intuition congruence.
Qed.

Lemma insertByCreatedAtDesc_sorted (b : Booking) (l : list Booking) :
  StronglySorted newerFirst l -> StronglySorted newerFirst (insertByCreatedAtDesc b l).
Proof.
  induction 1 as [|y l Hs IH Hall]; simpl.
  - constructor; constructor.
  - destruct (Z.leb_spec (createdAt y) (createdAt b)) as [Hle|Hgt].
    + constructor; [constructor; assumption|].
      constructor; [exact Hle|].
      eapply Forall_impl; [|exact Hall].
      intros z Hz. unfold newerFirst in *. lia.
    + constructor; [exact IH|].
      apply Forall_forall. intros z Hz.
      apply In_insertByCreatedAtDesc in Hz. destruct Hz as [->|Hz].
      * unfold newerFirst. lia.
      * rewrite Forall_forall in Hall. now apply Hall.
Qed.

Lemma orderByCreatedAtDesc_sorted (l : list Booking) :
  StronglySorted newerFirst (orderByCreatedAtDesc l).
Proof.
  induction l as [|b l IH]; simpl; [constructor|].
  now apply insertByCreatedAtDesc_sorted.
Qed.

(** In a list ordered newest first, [find] picks a newest row among those
    that satisfy the predicate. *)
Lemma find_newest (p : Booking -> bool) (l : list Booking) (x : Booking) :
  StronglySorted newerFirst l ->
  find p l = Some x ->
  In x l /\ p x = true /\ forall y, In y l -> p y = true -> createdAt y <= createdAt x.
Proof.
  induction 1 as [|a l Hs IH Hall]; simpl; [discriminate|].
  destruct (p a) eqn:Hpa.
  - intros [= <-]. split; [now left|]. split; [exact Hpa|].
    intros y [<-|Hy] _; [lia|].
    rewrite Forall_forall in Hall. exact (Hall y Hy).
  - intros Hf. destruct (IH Hf) as (Hin & Hpx & Hmax).
    split; [now right|]. split; [exact Hpx|].
    intros y [<-|Hy] Hpy; [congruence|]. now apply Hmax.
Qed.

Lemma find_key_of_In {A} (key : A -> Z) (l : list A) (x : A) :
  In x l -> exists y, find (fun z => key z =? key x) l = Some y.
Proof.
  induction l as [|a l IH]; simpl; [contradiction|].
  intros [->|Hin].
  - rewrite Z.eqb_refl. eauto.
  - destruct (key a =? key x); eauto.
Qed.

Lemma listBookings_run (u : Z) (w : World) :
  u <> 0 ->
  listBookings (Some u) w
  = (Return (orderByCreatedAtDesc (filter (fun b => userId b =? u) (bookings w))), w).
Proof.
  intros Hu. unfold listBookings, bind, get.
  destruct (Z.eqb_spec u 0); [contradiction|reflexivity].
Qed.


Lemma post_api_reviews_run (u : User) (rq : ReviewRequest) (now : Z) (w : World)
    (data : InsertReview) :
  u_id u <> 0 ->
  safeParseReview rq (u_id u) = Some data ->
  post_api_reviews (Some u) rq now w
  = match find (reviewable (rv_equipmentId rq))
               (orderByCreatedAtDesc (filter (fun b => userId b =? u_id u) (bookings w))) with
    | None =>
        (Return (mkResponse 400
           (ErrorBody "Invalid review submission"
              (Some "You can only review equipment from paid, unrated bookings"))), w)
    | Some validBooking =>
        if reviewStorable data
        then
          (Return (mkResponse 200 (ReviewBody (newReview data now w))),
           afterUpdateBooking (b_id validBooking) (mkBookingPatch None None None (Some true))
             now (afterCreateReview data now w))
        else
          (Return (mkResponse 500
             (ErrorBody "Failed to create review" (Some "Failed to create review"))), w)
    end.
Proof.
  intros Hu Hparse. unfold post_api_reviews. rewrite Hparse.
  cbv beta iota delta [bind tryCatch json ret].
  rewrite (listBookings_run (u_id u) w Hu).
  destruct (find _ _) as [vb|] eqn:Hfind; [|reflexivity].
  destruct (reviewStorable data) eqn:Hst.
  - rewrite (createReview_run data now w Hst), updateBooking_run.
    cbn [bookings afterCreateReview].
    destruct (find_newest _ _ _ (orderByCreatedAtDesc_sorted _) Hfind) as (Hin & _ & _).
    apply In_orderByCreatedAtDesc, filter_In in Hin. destruct Hin as [Hin _].
    destruct (find_key_of_In b_id (bookings w) vb Hin) as (y & Hy).
    rewrite Hy. reflexivity.
  - rewrite (createReview_refused data now w Hst). reflexivity.
Qed.




(** ** Calendar *)

Example epoch_midnight : utcMidnight 1970 1 1 = 0.
Proof. reflexivity. Qed.

Example new_year_2024 : utcMidnight 2024 1 1 = 1704067200000.
Proof. reflexivity. Qed.

Example leap_day_2024 : utcMidnight 2024 3 1 - utcMidnight 2024 2 28 = 2 * msPerDay.
Proof. reflexivity. Qed.

Example end_of_new_year_2024 : endOfDayUTC (utcMidnight 2024 1 1 + 5000) = 1704153599999.
Proof. reflexivity. Qed.

Example ceil_of_a_day_and_a_bit : ceilDiv (msPerDay + 1) msPerDay = 2.
Proof. reflexivity. Qed.

(** ** Owner edits *)

Lemma availability_kept (id : Z) (p : EquipmentPatch) (rows : list Equipment) :
  set_availability p = None ->
  map availability
      (map (fun e => if e_id e =? id then applyEquipmentPatch p e else e) rows)
  = map availability rows.
Proof.
  intros Hp. rewrite map_map. apply map_ext. intros e.
  destruct (e_id e =? id); [|reflexivity].
  unfold applyEquipmentPatch. cbn [availability]. now rewrite Hp.
Qed.

Lemma updateEquipment_world (id : Z) (p : EquipmentPatch) (w : World) :
  exists o, updateEquipment id p w = (o, w)
            \/ updateEquipment id p w = (o, afterUpdateEquipment id p w).
Proof.
  destruct (equipmentPatchEmpty p) eqn:Hp.
  - eexists. left. now apply updateEquipment_empty.
  - destruct (equipmentUpdateRefused id p (equipmentTable w)) eqn:Hr.
    + eexists. left. now apply updateEquipment_refused.
    + eexists. right. now apply updateEquipment_run.
Qed.

Lemma patch_api_equipment_world (user : option User) (id : Z) (rq : EquipmentEdit)
    (w : World) :
  exists resp,
    patch_api_equipment user id rq w = (Return resp, w)
    \/ patch_api_equipment user id rq w
       = (Return resp, afterUpdateEquipment id (updateDataOf rq) w).
Proof.
  unfold patch_api_equipment.
  destruct user as [u|]; [|eexists; left; reflexivity].
  cbv beta iota delta [bind tryCatch json ret].
  rewrite getEquipment_run.
  destruct (find _ _) as [e|]; [|eexists; left; reflexivity].
  destruct (negb (ownerId e =? u_id u) && negb (isAdmin u))%bool;
    [eexists; left; reflexivity|].
  destruct (updateEquipment_world id (updateDataOf rq) w) as (o & [Hrun|Hrun]).
  - destruct (ed_specs rq), (ed_features rq);
      try (eexists; left; reflexivity);
      rewrite Hrun; destruct o; eexists; left; reflexivity.
  - destruct (ed_specs rq), (ed_features rq);
      try (eexists; left; reflexivity);
      rewrite Hrun; destruct o; eexists; right; reflexivity.
Qed.

(** C9, as amended.  The routes put no guard on owner edits while a booking
    is active.  An edit through PATCH /api/equipment/:id whose body does not
    name the availability field leaves the availability flag of every
    equipment row as it was.  PATCH /api/equipment/:id/availability, called
    by the owner with a boolean, writes that boolean into the flag and
    answers 200, whatever bookings refer to the equipment. *)
Theorem owner_edits_and_availability :
  (forall (user : option User) (id : Z) (rq : EquipmentEdit) (w : World),
      ed_availability rq = None ->
      exists resp w',
        patch_api_equipment user id rq w = (Return resp, w') /\
        map availability (equipmentTable w') = map availability (equipmentTable w))
  /\
  (forall (u : User) (id : Z) (v : bool) (w : World) (e : Equipment),
      find (fun x => e_id x =? id) (equipmentTable w) = Some e ->
      ownerId e = u_id u ->
      exists e' w',
        patch_api_equipment_availability (Some u) id (Some v) w
        = (Return (mkResponse 200 (EquipmentBody e')), w') /\
        find (fun x => e_id x =? id) (equipmentTable w') = Some e' /\
        availability e' = v /\
        (forall x, In x (equipmentTable w') -> e_id x = id -> availability x = v) /\
        bookings w' = bookings w).
Proof.
  split.
  - intros user id rq w Hav.
    destruct (patch_api_equipment_world user id rq w) as (resp & [Hrun|Hrun]).
    + exists resp, w. split; [exact Hrun|reflexivity].
    + exists resp. eexists. split; [exact Hrun|].
      cbn [equipmentTable afterUpdateEquipment].
      apply availability_kept. exact Hav.
  - intros u id v w e Hf Hown.
    unfold patch_api_equipment_availability.
    cbv beta iota delta [bind tryCatch json ret].
    rewrite getEquipment_run, Hf, Hown, Z.eqb_refl. cbn [negb].
    rewrite updateEquipment_run by reflexivity. rewrite Hf.
    do 2 eexists. split; [reflexivity|].
    cbn [equipmentTable afterUpdateEquipment].
    split.
    { rewrite (find_map_update e_id _ id) by reflexivity. now rewrite Hf. }
    split; [reflexivity|]. split; [|reflexivity].
    intros x Hin Hx. exact (availability_after_update id v _ x Hin Hx).
Qed.

Lemma owner_edits_witness :
  (ed_availability renameEdit = None /\
   exists resp w',
     patch_api_equipment (Some owner) 1 renameEdit heldWorld = (Return resp, w') /\
     statusCode resp = 200 /\
     map name (equipmentTable w') = ["Tractor 45 HP"] /\
     map availability (equipmentTable w') = [false])
  /\
  (find (fun x => e_id x =? 1) (equipmentTable heldWorld) = Some heldTractor /\
   ownerId heldTractor = u_id owner /\
   map status (bookings heldWorld) = ["awaiting_payment"] /\
   exists w',
     patch_api_equipment_availability (Some owner) 1 (Some true) heldWorld
     = (Return (mkResponse 200 (EquipmentBody tractor)), w') /\
     equipmentTable w' = [tractor]).
Proof.
  split.
  - split; [reflexivity|].
    destruct (proj1 owner_edits_and_availability (Some owner) 1 renameEdit heldWorld eq_refl)
      as (resp & w' & Hrun & Hav).
    exists resp, w'. split; [exact Hrun|].
    split; [|split; [|exact Hav]];
      vm_compute in Hrun; injection Hrun as <- <-; reflexivity.
  - split; [reflexivity|]. split; [reflexivity|]. split; [reflexivity|].
    destruct (proj2 owner_edits_and_availability owner 1 true heldWorld heldTractor
                eq_refl eq_refl)
      as (e' & w' & Hrun & _).
    exists w'. vm_compute in Hrun. injection Hrun as <- <-. split; reflexivity.
Defined.

(** Against C9 as stated: while booking 1 of the tractor awaits payment,
    the owner switches the tractor's availability flag back on. *)
Lemma owner_unlocks_held_equipment :
  ~ (forall (user : option User) (id : Z) (available : option bool) (w : World)
            (resp : Response) (w' : World) (b : Booking),
        In b (bookings w) -> equipmentId b = id ->
        status b = "awaiting_payment" \/ status b = "paid" ->
        patch_api_equipment_availability user id available w = (Return resp, w') ->
        map availability (equipmentTable w') = map availability (equipmentTable w)).
Proof.
  intros H.
  destruct (patch_api_equipment_availability (Some owner) 1 (Some true) heldWorld)
    as [r w'] eqn:Hrun.
  pose proof Hrun as Hval. vm_compute in Hval. injection Hval as <- <-.
  specialize (H (Some owner) 1 (Some true) heldWorld _ _ awaitingBooking
                (or_introl eq_refl) eq_refl (or_introl eq_refl) Hrun).
  discriminate H.
Qed.


(** * Further properties: storage, payment module and routes *)

(** ** Listing bookings *)

Lemma insertByCreatedAtDesc_perm (b : Booking) (l : list Booking) :
  Permutation (b :: l) (insertByCreatedAtDesc b l).
Proof.
  induction l as [|x l IH]; simpl; [reflexivity|].
  destruct (createdAt x <=? createdAt b); [reflexivity|].
  rewrite perm_swap. now apply perm_skip.
Qed.

Lemma orderByCreatedAtDesc_perm (l : list Booking) :
  Permutation l (orderByCreatedAtDesc l).
Proof.
  induction l as [|b l IH]; simpl; [constructor|].
  rewrite <- insertByCreatedAtDesc_perm. now apply perm_skip.
Qed.

(** X1.  [listBookings] for a user id other than 0 never fails and writes
    nothing.  Its rows are the bookings of that user, each as often as it is
    in the table, ordered by creation time, newest first. *)
Theorem listBookings_own_newest_first (u : Z) (w : World) :
  u <> 0 ->
  exists rows,
    listBookings (Some u) w = (Return rows, w) /\
    Permutation (filter (fun b => userId b =? u) (bookings w)) rows /\
    StronglySorted newerFirst rows /\
    (forall b, In b rows <-> In b (bookings w) /\ userId b = u).
Proof.
  intros Hu. eexists. split; [apply (listBookings_run u w Hu)|].
  split; [apply orderByCreatedAtDesc_perm|].
  split; [apply orderByCreatedAtDesc_sorted|].
  intros b. rewrite In_orderByCreatedAtDesc, filter_In, Z.eqb_eq. reflexivity.
Qed.

(** X2.  [listBookings] without a user id lists every booking, newest
    first; so does a call with user id 0, which the test [if (userId)]
    takes for a missing id. *)
Theorem listBookings_without_user_lists_all (w : World) :
  exists rows,
    listBookings None w = (Return rows, w) /\
    listBookings (Some 0) w = (Return rows, w) /\
    Permutation (bookings w) rows /\
    StronglySorted newerFirst rows.
Proof.
  eexists. split; [reflexivity|]. split; [reflexivity|].
  split; [apply orderByCreatedAtDesc_perm|apply orderByCreatedAtDesc_sorted].
Qed.

(** ** Date ranges *)

Lemma msPerDay_pos : 0 < msPerDay.
Proof. reflexivity. Qed.

Lemma startOfDayUTC_bounds (t : Z) :
  startOfDayUTC t <= t < startOfDayUTC t + msPerDay.
Proof.
  unfold startOfDayUTC. pose proof (Z.div_mod t msPerDay) as Hd.
  pose proof (Z.mod_pos_bound t msPerDay msPerDay_pos) as Hm.
  assert (msPerDay <> 0) by (pose proof msPerDay_pos; lia).
  specialize (Hd H). lia.
Qed.

Lemma endOfDayUTC_after_start (t : Z) : endOfDayUTC t = startOfDayUTC t + msPerDay - 1.
Proof. unfold endOfDayUTC, startOfDayUTC, msPerDay. lia. Qed.

Lemma startOfDayUTC_le_endOfDayUTC (s t : Z) :
  s <= t -> startOfDayUTC s <= endOfDayUTC t.
Proof.
  intros Hst. rewrite endOfDayUTC_after_start.
  pose proof (startOfDayUTC_bounds s). pose proof (startOfDayUTC_bounds t). lia.
Qed.

(** X3.  For a query range whose start is not after its end and a booking
    whose start is not after its end, [getBookingsByDateRange] always
    returns and writes nothing.  When the range widened to whole UTC days,
    from 00:00:00.000 of the first day to 23:59:59.999 of the last, lies in
    the years 0001 to 9999, it returns the booking exactly when it is a
    booking of the equipment and its interval meets the widened range: it
    starts no later than the end of the last day and ends no earlier than
    the start of the first day.  The three cases of the query amount to
    interval intersection.  When the widened range leaves those years the
    database refuses the query and the call returns no rows. *)
Theorem date_range_query_is_intersection (equipment s t : Z) (w : World) (b : Booking) :
  s <= t ->
  startDate b <= endDate b ->
  exists rows,
    getBookingsByDateRange equipment (Some s) (Some t) w = (Return rows, w) /\
    (-62135596800000 <= startOfDayUTC s /\ endOfDayUTC t <= 253402300799999 ->
     (In b rows <->
      In b (bookings w) /\ equipmentId b = equipment /\
      startDate b <= endOfDayUTC t /\ startOfDayUTC s <= endDate b)) /\
    (~ (-62135596800000 <= startOfDayUTC s /\ endOfDayUTC t <= 253402300799999) ->
     rows = []).
Proof.
  intros Hst Hb. eexists. split; [apply getBookingsByDateRange_run|].
  pose proof (startOfDayUTC_le_endOfDayUTC s t Hst) as Hle.
  unfold rowsInDateRange.
  destruct (storableDate (startOfDayUTC s)) eqn:Hs;
    [destruct (storableDate (endOfDayUTC t)) eqn:Ht|]; cbn [andb].
  - apply storableDate_spec in Hs, Ht. split; [|intros Hout; lia].
    intros _. rewrite filter_In, inDateRange_spec. intuition lia.
  - split; [|reflexivity]. intros [Hlo Hhi].
    assert (Hyes : storableDate (endOfDayUTC t) = true)
      by (apply storableDate_spec; apply storableDate_spec in Hs; lia).
    congruence.
  - split; [|reflexivity]. intros [Hlo Hhi].
    assert (Hyes : storableDate (startOfDayUTC s) = true)
      by (apply storableDate_spec; lia).
    congruence.
Qed.

(** X4.  [getBookingsByDateRange] and [checkEquipmentAvailability] read
    only the UTC days of the two bounds: two queries whose start bounds fall
    on the same day and whose end bounds fall on the same day have the same
    result. *)
Theorem date_range_query_day_granularity (equipment s t s' t' : Z) (w : World) :
  s / msPerDay = s' / msPerDay ->
  t / msPerDay = t' / msPerDay ->
  getBookingsByDateRange equipment (Some s) (Some t) w
  = getBookingsByDateRange equipment (Some s') (Some t') w
  /\ checkEquipmentAvailability equipment (Some s) (Some t) w
     = checkEquipmentAvailability equipment (Some s') (Some t') w.
Proof.
  intros Hs Ht.
  rewrite !getBookingsByDateRange_run, !checkEquipmentAvailability_run.
  unfold rowsInDateRange, startOfDayUTC, endOfDayUTC. rewrite Hs, Ht. split; reflexivity.
Qed.

Lemma listBookings_own_newest_first_witness :
  exists rows,
    listBookings (Some 20) rentedTwiceWorld = (Return rows, rentedTwiceWorld) /\
    StronglySorted newerFirst rows.
Proof.
  destruct (listBookings_own_newest_first 20 rentedTwiceWorld) as (rows & Hrun & _ & Hs & _);
    [lia|].
  exists rows. split; [exact Hrun|exact Hs].
Defined.

Lemma date_range_query_is_intersection_witness :
  exists rows,
    getBookingsByDateRange 1 (Some (utcMidnight 2024 1 3 + 3600000))
                           (Some (utcMidnight 2024 1 5)) heldWorld
    = (Return rows, heldWorld) /\
    In awaitingBooking rows.
Proof.
  destruct (date_range_query_is_intersection 1 (utcMidnight 2024 1 3 + 3600000)
              (utcMidnight 2024 1 5) heldWorld awaitingBooking)
    as (rows & Hrun & Hiff & _); [vm_compute; discriminate|vm_compute; discriminate|].
  exists rows. split; [exact Hrun|].
  apply Hiff; [split; vm_compute; discriminate|].
  split; [now left|]. split; [reflexivity|]. split; vm_compute; discriminate.
Defined.

Lemma date_range_query_day_granularity_witness :
  getBookingsByDateRange 1 (Some (utcMidnight 2024 1 1)) (Some (utcMidnight 2024 1 3))
                         heldWorld
  = getBookingsByDateRange 1 (Some (utcMidnight 2024 1 1 + 3600000))
                           (Some (utcMidnight 2024 1 3 + 86399999)) heldWorld.
Proof.
  exact (proj1 (date_range_query_day_granularity 1 (utcMidnight 2024 1 1)
                  (utcMidnight 2024 1 3) (utcMidnight 2024 1 1 + 3600000)
                  (utcMidnight 2024 1 3 + 86399999) heldWorld eq_refl eq_refl)).
Defined.

(** ** Storage writes *)

Lemma find_None_map_update {A} (key : A -> Z) (f : A -> A) (id : Z) (l : list A) :
  find (fun x => key x =? id) l = None ->
  map (fun x => if key x =? id then f x else x) l = l.
Proof.
  induction l as [|x l IH]; simpl; [reflexivity|].
  destruct (key x =? id); [discriminate|]. intros H. now rewrite IH.
Qed.

Lemma find_append {A} (p : A -> bool) (l l' : list A) :
  find p (l ++ l') = match find p l with Some x => Some x | None => find p l' end.
Proof.
  induction l as [|x l IH]; simpl; [reflexivity|]. destruct (p x); [reflexivity|exact IH].
Qed.


Lemma map_e_id_update (id : Z) (p : EquipmentPatch) (rows : list Equipment) :
  map e_id (map (fun e => if e_id e =? id then applyEquipmentPatch p e else e) rows)
  = map (fun i => if i =? id then orElse (set_id p) i else i) (map e_id rows).
Proof.
  rewrite !map_map. apply map_ext. intros e.
  destruct (e_id e =? id); reflexivity.
Qed.





(** ** The payment module: booking ids in order notes *)

Example toString_17 : Payment.toString 17 = "17". Proof. reflexivity. Qed.
Example toString_0 : Payment.toString 0 = "0". Proof. reflexivity. Qed.
Example toString_neg : Payment.toString (-240) = "-240". Proof. reflexivity. Qed.
Example toString_big : Payment.toString 1704067200000 = "1704067200000". Proof. reflexivity. Qed.

Lemma digit_cases (d : Z) :
  0 <= d < 10 ->
  d = 0 \/ d = 1 \/ d = 2 \/ d = 3 \/ d = 4 \/ d = 5 \/ d = 6 \/ d = 7 \/ d = 8 \/ d = 9.
Proof. lia. Qed.

Lemma digitOf_digitChar (d : Z) :
  0 <= d < 10 -> Payment.digitOf 10 (Payment.digitChar d) = Some d.
Proof.
  intros H. destruct (digit_cases d H) as [->|[->|[->|[->|[->|[->|[->|[->|[->| ->]]]]]]]]];
    reflexivity.
Qed.

Lemma parseDigits_digitsOf (f : nat) :
  forall (n : Z) (s : string),
    0 <= n < 2 ^ Z.of_nat f -> (1 <= f)%nat ->
    Payment.parseDigits 10 (Payment.digitsOf f n s) None
    = Payment.parseDigits 10 s (Some n).
Proof.
  induction f as [|f IH]; intros n s Hn Hf; [lia|].
  cbn [Payment.digitsOf].
  assert (Hmod : 0 <= n mod 10 < 10) by (apply Z.mod_pos_bound; lia).
  destruct (Z.ltb_spec n 10) as [Hlt|Hge].
  - cbn [Payment.parseDigits]. rewrite (digitOf_digitChar _ Hmod).
    cbn [orElse]. rewrite Z.mod_small by lia. reflexivity.
  - assert (Hdiv : 1 <= n / 10) by (apply Z.div_le_lower_bound; lia).
    assert (Hup : n / 10 < 2 ^ Z.of_nat f).
    { apply Z.div_lt_upper_bound; [lia|].
      rewrite Nat2Z.inj_succ, Z.pow_succ_r in Hn by lia. lia. }
    assert (Hf' : (1 <= f)%nat).
    { destruct f; [|lia]. cbn in Hup. lia. }
    rewrite (IH (n / 10) _ (conj (Z.le_trans 0 1 _ Z.le_0_1 Hdiv) Hup) Hf').
    cbn [Payment.parseDigits]. rewrite (digitOf_digitChar _ Hmod). cbn [orElse].
    f_equal. f_equal. pose proof (Z.div_mod n 10). lia.
Qed.

Lemma log2_fuel (n : Z) : 0 <= n -> n < 2 ^ Z.of_nat (S (Z.to_nat (Z.log2 n))).
Proof.
  intros Hn. rewrite Nat2Z.inj_succ, Z2Nat.id by apply Z.log2_nonneg.
  destruct (Z.eq_dec n 0) as [->|Hne]; [reflexivity|].
  apply Z.log2_spec. lia.
Qed.

Lemma digitsOf_allDigits (f : nat) (n : Z) (s : string) :
  0 <= n -> allDigits s = true -> allDigits (Payment.digitsOf f n s) = true.
Proof.
  revert n s. induction f as [|f IH]; intros n s Hn Hs; [exact Hs|].
  cbn [Payment.digitsOf].
  assert (Hmod : 0 <= n mod 10 < 10) by (apply Z.mod_pos_bound; lia).
  assert (Hacc : allDigits (String (Payment.digitChar (n mod 10)) s) = true).
  { cbn [allDigits]. now rewrite (digitOf_digitChar _ Hmod), Hs. }
  destruct (n <? 10); [exact Hacc|].
  apply IH; [apply Z.div_pos; lia|exact Hacc].
Qed.

Lemma digitsOf_head (f : nat) (n : Z) (s : string) :
  0 <= n ->
  exists d r, 0 <= d < 10 /\ Payment.digitsOf (S f) n s = String (Payment.digitChar d) r.
Proof.
  revert n s. induction f as [|f IH]; intros n s Hn.
  - cbn [Payment.digitsOf]. exists (n mod 10).
    destruct (n <? 10); eexists; (split; [apply Z.mod_pos_bound; lia|reflexivity]).
  - change (Payment.digitsOf (S (S f)) n s)
      with (if n <? 10 then String (Payment.digitChar (n mod 10)) s
            else Payment.digitsOf (S f) (n / 10) (String (Payment.digitChar (n mod 10)) s)).
    destruct (n <? 10).
    + exists (n mod 10). eexists. split; [apply Z.mod_pos_bound; lia|reflexivity].
    + apply IH. apply Z.div_pos; lia.
Qed.

(** Decimal digits hold no radix prefix. *)
Lemma stripPrefix_allDigits (s : string) :
  allDigits s = true -> Payment.stripPrefix s = (10, s).
Proof.
  destruct s as [|c1 [|c2 r]]; [reflexivity| |].
  - intros _. destruct c1 as [[] [] [] [] [] [] [] []]; reflexivity.
  - intros H. cbn [allDigits] in H. apply andb_true_iff in H. destruct H as [_ H].
    apply andb_true_iff in H. destruct H as [H _].
    destruct c1 as [[] [] [] [] [] [] [] []]; try reflexivity;
      destruct c2 as [[] [] [] [] [] [] [] []]; try reflexivity; discriminate H.
Qed.

Lemma toNumber_safe (n : Z) : Payment.safeInteger n -> Payment.toNumber n = n.
Proof.
  unfold Payment.safeInteger, Payment.toNumber. intros H.
  destruct (Z.ltb_spec (Z.abs n) (2 ^ 53)) as [_|Hge]; [reflexivity|].
  change (2 ^ 53) with 9007199254740992 in Hge. lia.
Qed.

(** No white space and no sign in front of a digit. *)
Lemma parseInt_digits (d : Z) (r : string) :
  0 <= d < 10 ->
  Payment.parseInt (String (Payment.digitChar d) r)
  = (let (radix, digits) := Payment.stripPrefix (String (Payment.digitChar d) r) in
     option_map Payment.toNumber (Payment.parseDigits radix digits None)).
Proof.
  intros H. destruct (digit_cases d H) as [->|[->|[->|[->|[->|[->|[->|[->|[->| ->]]]]]]]]];
    reflexivity.
Qed.

Lemma parseInt_toString (n : Z) :
  Payment.safeInteger n -> Payment.parseInt (Payment.toString n) = Some n.
Proof.
  intros Hsafe. unfold Payment.toString. destruct (Z.ltb_spec n 0) as [Hneg|Hpos].
  - change (Payment.parseInt (String "-" ?r)) with
      (let (radix, digits) := Payment.stripPrefix r in
       option_map (fun m => Payment.toNumber (- m))
                  (Payment.parseDigits radix digits None)).
    rewrite stripPrefix_allDigits by (apply digitsOf_allDigits; [lia|reflexivity]).
    rewrite parseDigits_digitsOf; [|split; [lia|apply log2_fuel; lia]|lia].
    cbn [Payment.parseDigits option_map]. rewrite Z.opp_involutive.
    now rewrite toNumber_safe.
  - destruct (digitsOf_head (Z.to_nat (Z.log2 n)) n "" Hpos) as (d & r & Hd & Hhead).
    rewrite Hhead, (parseInt_digits d r Hd), <- Hhead.
    rewrite stripPrefix_allDigits by (apply digitsOf_allDigits; [lia|reflexivity]).
    rewrite parseDigits_digitsOf; [|split; [lia|apply log2_fuel; lia]|lia].
    cbn [Payment.parseDigits option_map]. now rewrite toNumber_safe.
Qed.

Ltac walk_string s :=
  destruct s as [|[[] [] [] [] [] [] [] []] s]; try reflexivity.

(** X8.  The payment module's [handleWebhookEvent] returns null for every
    event whose name is neither payment.captured nor payment.failed,
    without reading the payload. *)
Lemma payment_module_other (event : WebhookEvent) :
  ev_event event <> Some "payment.captured" ->
  ev_event event <> Some "payment.failed" ->
  Payment.handleWebhookEvent event = Return Payment.WebhookNull.
Proof.
  intros Hc Hf. unfold Payment.handleWebhookEvent.
  destruct (ev_event event) as [s|]; [|reflexivity].
  do 9 walk_string s.
  - do 8 walk_string s. now contradiction Hc.
  - do 6 walk_string s. now contradiction Hf.
Qed.

Lemma payment_module_other_witness :
  Payment.handleWebhookEvent (mkWebhookEvent (Some "payment.authorized") None)
  = Return Payment.WebhookNull.
Proof.
  apply payment_module_other; discriminate.
Defined.

(** X9.  For a safe integer, [parseInt] reads back what [toString] prints,
    and [toString] prints different safe integers differently. *)
Theorem toString_parseInt_round_trip (n : Z) :
  Payment.safeInteger n ->
  Payment.parseInt (Payment.toString n) = Some n
  /\ (forall m, Payment.safeInteger m -> Payment.toString m = Payment.toString n -> m = n).
Proof.
  intros Hn. split; [now apply parseInt_toString|].
  intros m Hm H. apply (f_equal Payment.parseInt) in H.
  rewrite !parseInt_toString in H by assumption. congruence.
Qed.

Lemma toString_parseInt_round_trip_witness :
  Payment.parseInt (Payment.toString 2147483647) = Some 2147483647.
Proof.
  refine (proj1 (toString_parseInt_round_trip 2147483647 _)).
  unfold Payment.safeInteger. vm_compute. discriminate.
Defined.

(** X10.  The booking id that [createPaymentSession] writes into the notes
    of the order is the one the payment module's [handleWebhookEvent] reads
    from an event about that order: a payment.failed event gives a failure
    result for that booking, and a payment.captured event gives a success
    result for that booking with the entity's order and payment ids, except
    for booking id 0, which the test [!bookingId] rejects with
    Booking ID not found in payment notes. *)
Theorem order_notes_round_trip (n : Z) (p : PaymentPayload) (entity : PaymentEntity) :
  Payment.safeInteger n ->
  pay_entity p = Some entity ->
  ent_notes entity = Some (Payment.orderNotes n) ->
  Payment.handleWebhookEvent (mkWebhookEvent (Some "payment.failed") (Some p))
  = Return (Payment.WebhookFailure (Some n) (ent_error_description entity))
  /\
  Payment.handleWebhookEvent (mkWebhookEvent (Some "payment.captured") (Some p))
  = if n =? 0 then Throw "Booking ID not found in payment notes"
    else Return (Payment.WebhookSuccess n (ent_order_id entity) (ent_id entity)).
Proof.
  intros Hsafe He Hn. split.
  - rewrite (payment_module_failed p entity _ He Hn).
    cbn [bookingId Payment.orderNotes]. now rewrite parseInt_toString.
  - destruct (Z.eqb_spec n 0) as [->|Hne].
    + unfold Payment.handleWebhookEvent. cbn [ev_event ev_payment].
      destruct p as [st o i ent]. cbn in He. subst ent. rewrite Hn. reflexivity.
    + apply (payment_module_captured p entity _ _ n He Hn eq_refl);
        [now apply parseInt_toString | exact Hne].
Qed.

Lemma order_notes_round_trip_witness :
  Payment.handleWebhookEvent
    (mkWebhookEvent (Some "payment.captured")
       (Some (mkPaymentPayload None None None
                (Some (mkPaymentEntity (Some "pay_9") (Some "order_9")
                                       (Some (Payment.orderNotes 512)) None)))))
  = Return (Payment.WebhookSuccess 512 (Some "order_9") (Some "pay_9")).
Proof.
  refine (proj2 (order_notes_round_trip 512
                   (mkPaymentPayload None None None
                      (Some (mkPaymentEntity (Some "pay_9") (Some "order_9")
                                             (Some (Payment.orderNotes 512)) None)))
                   _ _ eq_refl eq_refl)).
  unfold Payment.safeInteger. vm_compute. discriminate.
Defined.

(** X11.  [createPaymentSession] touches no table.  For an amount of 0 or
    less it calls nothing; otherwise it makes exactly one call to the
    gateway, for the booking and the amount in paise.  A returned
    configuration carries the non-empty order id the gateway answered, the
    amount in paise, the currency INR and the configured key id, and the
    amount was positive.  It throws exactly when the amount is not positive,
    the gateway rejects the order, or the order has no id. *)
Theorem createPaymentSession_outcome (env : Env) (booking amount : Z) (nm : string)
    (w : World) :
  exists o w',
    Payment.createPaymentSession env booking amount nm w = (o, w') /\
    equipmentTable w' = equipmentTable w /\ bookings w' = bookings w /\
    reviews w' = reviews w /\
    journal w' = (if amount <=? 0 then journal w
                  else journal w ++ [GwOrdersCreate booking (amount * 100)]) /\
    (forall cfg, o = Return cfg ->
       0 < amount /\
       orders_create env booking (amount * 100) = Some (Payment.cfg_id cfg) /\
       Payment.cfg_id cfg <> "" /\
       Payment.cfg_amount cfg = amount * 100 /\
       Payment.cfg_currency cfg = "INR" /\
       Payment.cfg_keyId cfg = RAZORPAY_KEY_ID env) /\
    ((exists msg, o = Throw msg) <-> orderFails env booking amount).
Proof.
  rewrite createPaymentSession_run. unfold orderFails.
  destruct (Z.leb_spec amount 0) as [Hle|Hgt].
  - do 2 eexists. split; [reflexivity|]. repeat (split; [reflexivity|]).
    split; [intros cfg [=]|]. split; [intros _; now left|intros _; eauto].
  - destruct (orders_create env booking (amount * 100)) as [oid|].
    + destruct (String.eqb_spec oid "") as [->|Hne].
      * do 2 eexists. split; [reflexivity|]. repeat (split; [reflexivity|]).
        split; [intros cfg [=]|]. split; [intros _; now right; right|intros _; eauto].
      * do 2 eexists. split; [reflexivity|]. repeat (split; [reflexivity|]).
        split.
        -- intros cfg [= <-]. cbn. repeat split; auto.
        -- split; [intros (msg & [=])|intros [H|[H|H]]; [lia|discriminate|congruence]].
    + do 2 eexists. split; [reflexivity|]. repeat (split; [reflexivity|]).
      split; [intros cfg [=]|]. split; [intros _; right; now left|intros _; eauto].
Qed.

(** ** Bookings in sequence *)

(** What a 201 from the booking route tells about the world it leaves. *)
Lemma post_api_bookings_201 (env : Env) (user : option User) (rq : BookingRequest)
    (now : Z) (w : World) (resp : Response) (w' : World) :
  bookingIdsBelowSeq w ->
  post_api_bookings env user rq now w = (Return resp, w') ->
  statusCode resp = 201 ->
  exists u equipment s t e orderId,
    user = Some u /\ admits w rq equipment s t e /\
    w' = awaitingWorld w rq (u_id u) equipment s t e now orderId.
Proof.
  intros Hwf Hrun Hcode.
  destruct (post_api_bookings_rejected env user rq now w)
    as [(u & equipment & s & t & e & -> & Hadm)|(r & Hrej & Hne)].
  2:{ rewrite Hrej in Hrun. injection Hrun as -> _. contradiction. }
  exists u, equipment, s, t, e.
  destruct (storable_dec (u_id u) equipment s t e) as [Hsto|Hsto].
  2:{ rewrite (post_api_bookings_unstorable env w u rq now equipment s t e Hadm Hsto) in Hrun.
      injection Hrun as <- _. discriminate Hcode. }
  destruct (orderFails_dec env (bookings_id_seq w) (dailyRate e * totalDays s t)) as [Hf|Hok].
  - destruct (post_api_bookings_failure env u rq now w equipment s t e Hwf Hadm Hsto Hf)
      as (msg & w1 & Hrun' & _).
    rewrite Hrun' in Hrun. injection Hrun as <- _. discriminate Hcode.
  - destruct (post_api_bookings_success env u rq now w equipment s t e Hwf Hadm Hsto Hok)
      as (o & cfg & _ & Hrun').
    rewrite Hrun' in Hrun. injection Hrun as _ <-.
    exists o. split; [reflexivity|]. split; [exact Hadm|reflexivity].
Qed.

(** X12.  After the booking route has answered 201 for an equipment, any
    further booking request for the same equipment, by anyone, for any
    dates and whatever the gateway would do, is refused with 400 or 401 and
    writes nothing; a signed-in user with two valid dates is told
    Equipment is not available for booking. *)
Theorem second_create_is_refused (env env2 : Env) (user user2 : option User)
    (rq rq2 : BookingRequest) (now now2 : Z) (w : World) (resp : Response) (w1 : World) :
  bookingIdsBelowSeq w ->
  post_api_bookings env user rq now w = (Return resp, w1) ->
  statusCode resp = 201 ->
  rq_equipmentId rq2 = rq_equipmentId rq ->
  exists resp2,
    post_api_bookings env2 user2 rq2 now2 w1 = (Return resp2, w1) /\
    (statusCode resp2 = 400 \/ statusCode resp2 = 401) /\
    (forall u2 s2 t2,
        user2 = Some u2 -> rq_startDate rq2 = Some s2 -> rq_endDate rq2 = Some t2 ->
        resp2 = mkResponse 400 (ErrorBody "Equipment is not available for booking" None)).
Proof.
  intros Hwf Hrun Hcode Heq.
  destruct (post_api_bookings_201 env user rq now w resp w1 Hwf Hrun Hcode)
    as (u & equipment & s & t & e & o & -> & Hadm & ->).
  destruct Hadm as (He & _ & _ & Hf & _). rewrite He in Heq.
  destruct user2 as [u2|].
  2:{ eexists. split; [reflexivity|]. split; [now right|]. intros ? ? ? [=]. }
  unfold post_api_bookings, safeParseBooking. rewrite Heq.
  destruct (rq_startDate rq2) as [s2|].
  2:{ eexists. split; [reflexivity|]. split; [now left|]. intros ? ? ? _ [=]. }
  destruct (rq_endDate rq2) as [t2|].
  2:{ eexists. split; [reflexivity|]. split; [now left|]. intros ? ? ? _ _ [=]. }
  cbv beta iota delta [bind tryCatch json ret pb_equipmentId].
  rewrite getEquipment_run.
  cbn [equipmentTable awaitingWorld orderedWorld lockedWorld afterUpdateBooking
       afterRecord afterUpdateEquipment afterCreateBooking].
  rewrite (find_map_update e_id _ equipment) by reflexivity. rewrite Hf.
  cbn [option_map availability applyEquipmentPatch availabilityPatch set_availability
       orElse negb].
  eexists. split; [reflexivity|]. split; [now left|]. reflexivity.
Qed.

Lemma second_create_is_refused_witness :
  bookingIdsBelowSeq sampleWorld /\
  exists resp w1 resp2,
    post_api_bookings sampleEnv (Some renter) januaryRequest 0 sampleWorld = (Return resp, w1) /\
    statusCode resp = 201 /\
    post_api_bookings sampleEnv (Some owner) reversedRequest 5 w1 = (Return resp2, w1) /\
    statusCode resp2 = 400.
Proof.
  split; [exact sampleWorld_ids|].
  destruct (post_api_bookings sampleEnv (Some renter) januaryRequest 0 sampleWorld)
    as [o w1] eqn:Hrun.
  pose proof Hrun as Hval. vm_compute in Hval. injection Hval as <- <-.
  destruct (second_create_is_refused sampleEnv sampleEnv (Some renter) (Some owner)
              januaryRequest reversedRequest 0 5 sampleWorld _ _
              sampleWorld_ids Hrun eq_refl eq_refl)
    as (resp2 & Hrun2 & _ & Hbody).
  do 3 eexists. split; [reflexivity|]. split; [reflexivity|].
  split; [exact Hrun2|].
  rewrite (Hbody owner _ _ eq_refl eq_refl eq_refl). reflexivity.
Defined.






(** ** Confirmation, synchronous path *)



(** ** Webhook deliveries *)

Lemma webhook_open_run (env : Env) (rq : WebhookRequest) (now : Z) (w : World) :
  truthyStr (RAZORPAY_WEBHOOK_SECRET env) = false ->
  post_api_webhooks_razorpay env rq now w
  = tryCatch (processWebhook env rq now) (fun err => json 400 (webhookError err)) w.
Proof. intros Hoff. unfold post_api_webhooks_razorpay. now rewrite Hoff. Qed.

Lemma route_handler_other (event : WebhookEvent) (p : PaymentPayload) (w : World) :
  ev_payment event = Some p ->
  pay_status p <> Some "captured" -> pay_status p <> Some "failed" ->
  handleWebhookEvent event w = (Return None, w).
Proof.
  intros Hp Hc Hf. unfold handleWebhookEvent. rewrite Hp.
  destruct (pay_status p) as [s|]; [|reflexivity].
  walk_string s.
  - do 8 walk_string s. now contradiction Hc.
  - do 6 walk_string s. now contradiction Hf.
Qed.

(** X15.  A webhook delivery writes nothing in these cases.  With a webhook
    secret configured, always: the answer is 400, for the route hands the
    parsed body to the HMAC, which takes a string or a buffer only.  Without
    a secret: when the body has no text to parse or its text is not JSON,
    which is so for every body that is a JSON object (400); when the event
    has no payment object (400); when the payment's status is neither
    captured nor failed (200, received); and when the status is captured but
    the payment id is missing or empty (200, received). *)
Theorem webhook_writes_nothing (env : Env) (rq : WebhookRequest) (now : Z) (w : World) :
  (truthyStr (RAZORPAY_WEBHOOK_SECRET env) = true ->
   exists answer,
     post_api_webhooks_razorpay env rq now w = (Return (mkResponse 400 answer), w))
  /\
  (truthyStr (RAZORPAY_WEBHOOK_SECRET env) = false ->
   (forall e, bodyText (reqBody rq) = Throw e ->
      exists answer,
        post_api_webhooks_razorpay env rq now w = (Return (mkResponse 400 answer), w))
   /\
   (forall text,
      bodyText (reqBody rq) = Return text -> JSON_parse env text = None ->
      exists answer,
        post_api_webhooks_razorpay env rq now w = (Return (mkResponse 400 answer), w))
   /\
   (forall keys,
      reqBody rq = ObjectBody keys -> JSON_parse env "[object Object]" = None ->
      exists answer,
        post_api_webhooks_razorpay env rq now w = (Return (mkResponse 400 answer), w))
   /\
   (forall text event,
      bodyText (reqBody rq) = Return text ->
      JSON_parse env text = Some event -> ev_payment event = None ->
      exists answer,
        post_api_webhooks_razorpay env rq now w = (Return (mkResponse 400 answer), w))
   /\
   (forall text event p,
      bodyText (reqBody rq) = Return text ->
      JSON_parse env text = Some event -> ev_payment event = Some p ->
      pay_status p <> Some "captured" -> pay_status p <> Some "failed" ->
      post_api_webhooks_razorpay env rq now w = (Return (mkResponse 200 Received), w))
   /\
   (forall text event p,
      bodyText (reqBody rq) = Return text ->
      JSON_parse env text = Some event -> ev_payment event = Some p ->
      pay_status p = Some "captured" -> truthyStr (pay_id p) = false ->
      post_api_webhooks_razorpay env rq now w = (Return (mkResponse 200 Received), w))).
Proof.
  split.
  { intros Hon. unfold post_api_webhooks_razorpay. rewrite Hon.
    destruct (negb (truthyStr (x_razorpay_signature rq))); eexists; reflexivity. }
  intros Hoff. rewrite (webhook_open_run env rq now w Hoff).
  unfold tryCatch, processWebhook.
  split; [intros e ->; eexists; reflexivity|].
  split; [intros text -> ->; eexists; reflexivity|].
  split.
  { intros keys -> Hparse. unfold bodyText, objectToString.
    destruct (existsb (String.eqb "toString") keys); [eexists; reflexivity|].
    rewrite Hparse. eexists; reflexivity. }
  split.
  { intros text event -> -> Hp. unfold handleWebhookEvent, bind. rewrite Hp.
    eexists; reflexivity. }
  split.
  - intros text event p -> -> Hp Hc Hf. unfold bind.
    rewrite (route_handler_other event p w Hp Hc Hf). reflexivity.
  - intros text event p -> -> Hp Hst Hid. unfold bind, handleWebhookEvent.
    rewrite Hp, Hst. cbn. destruct (pay_id p) as [pid|]; [|reflexivity].
    cbn in Hid. apply negb_false_iff in Hid. now rewrite Hid.
Qed.



(** X18.  With no webhook secret configured, a delivery whose body gives a
    text that parses to an event reporting a captured or failed payment
    whose order id names no booking, or that has no order id, answers 400
    Failed to update booking; the three tables are unchanged and no receipt
    is requested. *)
Theorem webhook_unknown_booking (env : Env) (rq : WebhookRequest) (now : Z) (w : World)
    (text : string) (event : WebhookEvent) (p : PaymentPayload) :
  truthyStr (RAZORPAY_WEBHOOK_SECRET env) = false ->
  bodyText (reqBody rq) = Return text ->
  JSON_parse env text = Some event ->
  ev_payment event = Some p ->
  (pay_status p = Some "captured" /\ truthyStr (pay_id p) = true)
  \/ pay_status p = Some "failed" ->
  match pay_order_id p with
  | Some n => find (fun x => b_id x =? n) (bookings w) = None
  | None => True
  end ->
  exists w',
    post_api_webhooks_razorpay env rq now w
    = (Return (mkResponse 400 (webhookError "Failed to update booking")), w') /\
    equipmentTable w' = equipmentTable w /\ bookings w' = bookings w /\
    reviews w' = reviews w /\ receiptsGenerated w' = receiptsGenerated w.
Proof.
  intros Hoff Htext Hparse Hp Hst Hrow.
  rewrite (webhook_open_run env rq now w Hoff).
  unfold tryCatch, processWebhook. rewrite Htext, Hparse.
  unfold bind at 1. unfold handleWebhookEvent. rewrite Hp.
  assert (Hupd : forall data,
            exists w', updateBookingBy (pay_order_id p) data now w
                       = (Throw "Failed to update booking", w') /\
                       equipmentTable w' = equipmentTable w /\ bookings w' = bookings w /\
                       reviews w' = reviews w /\
                       receiptsGenerated w' = receiptsGenerated w).
  { intros data. unfold updateBookingBy. destruct (pay_order_id p) as [n|].
    - rewrite updateBooking_run, Hrow. eexists. split; [reflexivity|].
      cbn [equipmentTable bookings reviews afterUpdateBooking].
      split; [reflexivity|].
      split; [now apply (find_None_map_update b_id)|].
      split; [reflexivity|].
      unfold receiptsGenerated. cbn [journal afterUpdateBooking].
      rewrite filter_app. cbn. now rewrite app_nil_r.
    - eexists. split; [reflexivity|]. repeat split; reflexivity. }
  destruct Hst as [[Hst Hid]|Hst]; rewrite Hst.
  - destruct (pay_id p) as [pid|]; [|discriminate Hid].
    cbn in Hid. apply negb_true_iff in Hid.
    cbv beta iota delta [bind ret json]. rewrite Hid.
    destruct (Hupd (mkBookingPatch (Some "paid") None (Some pid) None))
      as (w' & Hrun & Hrest).
    rewrite Hrun. exists w'. split; [reflexivity|exact Hrest].
  - cbv beta iota delta [bind ret json].
    destruct (Hupd (mkBookingPatch (Some "payment_failed") None None None))
      as (w' & Hrun & Hrest).
    rewrite Hrun. exists w'. split; [reflexivity|exact Hrest].
Qed.

Lemma webhook_writes_nothing_witness :
  (exists answer,
     post_api_webhooks_razorpay securedEnv
       (mkWebhookRequest (Some "whsec:flat captured") (ArrayBody [JString "flat captured"]))
       100 heldWorld
     = (Return (mkResponse 400 answer), heldWorld))
  /\
  (exists answer,
     post_api_webhooks_razorpay openEnv
       (mkWebhookRequest None (ObjectBody ["event"; "payload"])) 100 heldWorld
     = (Return (mkResponse 400 answer), heldWorld)).
Proof.
  split.
  - exact (proj1 (webhook_writes_nothing securedEnv
                    (mkWebhookRequest (Some "whsec:flat captured")
                                      (ArrayBody [JString "flat captured"]))
                    100 heldWorld) eq_refl).
  - exact (proj1 (proj2 (proj2 (proj2 (webhook_writes_nothing openEnv
                    (mkWebhookRequest None (ObjectBody ["event"; "payload"]))
                    100 heldWorld) eq_refl)))
                 ["event"; "payload"] eq_refl eq_refl).
Defined.



Lemma webhook_unknown_booking_witness :
  exists w',
    post_api_webhooks_razorpay openEnv
      (mkWebhookRequest None (ArrayBody [JString "flat captured"])) 100 sampleWorld
    = (Return (mkResponse 400 (webhookError "Failed to update booking")), w') /\
    bookings w' = [].
Proof.
  destruct (webhook_unknown_booking openEnv
              (mkWebhookRequest None (ArrayBody [JString "flat captured"])) 100
              sampleWorld "flat captured" flatCaptured
              (mkPaymentPayload (Some "captured") (Some 1) (Some "pay_1") None))
    as (w' & Hrun & _ & Hb & _); try reflexivity.
  - left. split; reflexivity.
  - exists w'. split; [exact Hrun|exact Hb].
Defined.

(** ** Invariants kept by every route *)

Section Keeps.
Variable I : World -> Prop.

Lemma keeps_ret {A} (a : A) : keeps I (ret a).
Proof. intros w o w' HI [= _ <-]. exact HI. Qed.

Lemma keeps_throw {A} (msg : string) : keeps I (@throw A msg).
Proof. intros w o w' HI [= _ <-]. exact HI. Qed.

Lemma keeps_get : keeps I get.
Proof. intros w o w' HI [= _ <-]. exact HI. Qed.

Lemma keeps_bind {A B} (m : M A) (k : A -> M B) :
  keeps I m -> (forall a, keeps I (k a)) -> keeps I (bind m k).
Proof.
  intros Hm Hk w o w' HI. unfold bind.
  destruct (m w) as [[a|e] w1] eqn:Hrun.
  - intros H. exact (Hk a w1 o w' (Hm w _ w1 HI Hrun) H).
  - intros [= _ <-]. exact (Hm w _ w1 HI Hrun).
Qed.

Lemma keeps_tryCatch {A} (m : M A) (h : string -> M A) :
  keeps I m -> (forall e, keeps I (h e)) -> keeps I (tryCatch m h).
Proof.
  intros Hm Hh w o w' HI. unfold tryCatch.
  destruct (m w) as [[a|e] w1] eqn:Hrun.
  - intros [= _ <-]. exact (Hm w _ w1 HI Hrun).
  - intros H. exact (Hh e w1 o w' (Hm w _ w1 HI Hrun) H).
Qed.

(** Steps that only append to the journal, or change nothing. *)
Hypothesis I_tables :
  forall w w', equipmentTable w' = equipmentTable w -> bookings w' = bookings w ->
               reviews w' = reviews w -> bookings_id_seq w' = bookings_id_seq w ->
               reviews_id_seq w' = reviews_id_seq w -> I w -> I w'.

Lemma keeps_record (e : Effect) : keeps I (record e).
Proof.
  intros w o w' HI [= _ <-]. apply (I_tables w); try reflexivity. exact HI.
Qed.

Lemma keeps_createPaymentSession (env : Env) (booking amount : Z) (nm : string) :
  keeps I (Payment.createPaymentSession env booking amount nm).
Proof.
  intros w o w' HI. rewrite createPaymentSession_run.
  destruct (amount <=? 0); intros [= _ <-]; [exact HI|].
  apply (I_tables w); try reflexivity. exact HI.
Qed.

Lemma keeps_generateReceipt (env : Env) (booking : Z) (pid : string) :
  keeps I (Payment.generateReceipt env booking pid).
Proof.
  intros w o w' HI. rewrite generateReceipt_run. intros [= _ <-].
  apply (I_tables w); try reflexivity. exact HI.
Qed.

Lemma keeps_if {A} (c : bool) (m1 m2 : M A) :
  keeps I m1 -> keeps I m2 -> keeps I (if c then m1 else m2).
Proof. destruct c; auto. Qed.

Ltac keeps_step :=
  first
    [ apply keeps_ret | apply keeps_throw | apply keeps_get
    | apply keeps_record
    | apply keeps_createPaymentSession | apply keeps_generateReceipt
    | assumption
    | match goal with H : forall _, keeps _ _ |- _ => apply H end
    | match goal with H : forall _ _, keeps _ _ |- _ => apply H end
    | match goal with H : forall _ _ _, keeps _ _ |- _ => apply H end
    | apply keeps_bind; [|intro]
    | apply keeps_tryCatch; [|intro]
    | match goal with
      | |- keeps _ (match ?x with _ => _ end) => destruct x
      | |- keeps _ (if ?c then _ else _) => destruct c
      end ].

Ltac keeps_auto := cbv zeta; repeat keeps_step.

Lemma keeps_getEquipment (id : Z) : keeps I (getEquipment id).
Proof. unfold getEquipment. keeps_auto. Qed.

Lemma keeps_getBooking (id : Z) : keeps I (getBooking id).
Proof. unfold getBooking. keeps_auto. Qed.

Lemma keeps_listBookings (user : option Z) : keeps I (listBookings user).
Proof. unfold listBookings. keeps_auto. Qed.

Lemma keeps_checkEquipmentAvailability (equipment : Z) (sd ed : Date) :
  keeps I (checkEquipmentAvailability equipment sd ed).
Proof.
  intros w o w' HI. rewrite checkEquipmentAvailability_run. intros [= _ <-]. exact HI.
Qed.

Hypothesis I_setAvailability :
  forall id v, keeps I (updateEquipment id (availabilityPatch v)).
Hypothesis I_updateBooking : forall id p now, keeps I (updateBooking id p now).
Hypothesis I_updateBookingStatus : forall id st now, keeps I (updateBookingStatus id st now).
Hypothesis I_createReview : forall review now, keeps I (createReview review now).

Lemma keeps_patch_api_equipment user id rq :
  keeps I (updateEquipment id (updateDataOf rq)) ->
  keeps I (patch_api_equipment user id rq).
Proof.
  intros Hupdate.
  unfold patch_api_equipment, json. pose proof keeps_getEquipment. keeps_auto.
Qed.

Lemma keeps_patch_api_equipment_availability user id available :
  keeps I (patch_api_equipment_availability user id available).
Proof.
  unfold patch_api_equipment_availability, json. pose proof keeps_getEquipment. keeps_auto.
Qed.

Lemma keeps_post_api_bookings_verify_payment env rq now :
  keeps I (post_api_bookings_verify_payment env rq now).
Proof.
  unfold post_api_bookings_verify_payment, json. pose proof keeps_getBooking. keeps_auto.
Qed.

Lemma keeps_post_api_webhooks_razorpay env rq now :
  keeps I (post_api_webhooks_razorpay env rq now).
Proof.
  unfold post_api_webhooks_razorpay, processWebhook, handleWebhookEvent, updateBookingBy,
    json.
  keeps_auto.
Qed.

Lemma keeps_post_api_reviews user rq now : keeps I (post_api_reviews user rq now).
Proof.
  unfold post_api_reviews, json. pose proof keeps_listBookings. keeps_auto.
Qed.

Lemma keeps_get_api_bookings_id user id : keeps I (get_api_bookings_id user id).
Proof.
  unfold get_api_bookings_id, reply. pose proof keeps_getBooking. keeps_auto.
Qed.

Lemma keeps_patch_api_bookings_status user id st now :
  keeps I (patch_api_bookings_status user id st now).
Proof.
  unfold patch_api_bookings_status, reply. keeps_auto.
Qed.

Hypothesis I_createBooking : forall ib now, keeps I (createBooking ib now).

Lemma keeps_post_api_bookings env user rq now : keeps I (post_api_bookings env user rq now).
Proof.
  unfold post_api_bookings, json.
  pose proof keeps_getEquipment. pose proof keeps_checkEquipmentAvailability.
  keeps_auto.
Qed.

Hypothesis I_deleteEquipment : forall id, keeps I (deleteEquipment id).
Hypothesis I_deleteEquipmentBookings : forall id, keeps I (deleteEquipmentBookings id).

Lemma keeps_delete_api_equipment user id : keeps I (delete_api_equipment user id).
Proof.
  unfold delete_api_equipment, reply. pose proof keeps_getEquipment. keeps_auto.
Qed.

End Keeps.

Lemma updateBookingStatus_run (id : Z) (st : string) (now : Z) (w : World) :
  updateBookingStatus id st now w
  = (match find (fun b => b_id b =? id) (bookings w) with
     | Some b => Return (applyBookingPatch (mkBookingPatch (Some st) None None None) now b)
     | None => Throw "Failed to update booking status"
     end, afterUpdateBooking id (mkBookingPatch (Some st) None None None) now w).
Proof.
  unfold updateBookingStatus, tryCatch, bind, get, withBookings, record. simpl.
  rewrite (find_map_update b_id (applyBookingPatch _ now) id) by reflexivity.
  destruct (find _ _); reflexivity.
Qed.

Lemma map_key_update {A} (key : A -> Z) (f : A -> A) (id : Z) (l : list A) :
  (forall x, key (f x) = key x) ->
  map key (map (fun x => if key x =? id then f x else x) l) = map key l.
Proof.
  intros Hk. rewrite map_map. apply map_ext. intros x.
  destruct (key x =? id); [apply Hk|reflexivity].
Qed.

Lemma NoDup_map_filter {A} (key : A -> Z) (p : A -> bool) (l : list A) :
  NoDup (map key l) -> NoDup (map key (filter p l)).
Proof.
  induction l as [|x l IH]; simpl; [auto|].
  intros H. inversion H as [|? ? Hnin Hnd]; subst.
  destruct (p x); simpl; [|auto].
  constructor; [|auto].
  intros Hin. apply Hnin. apply in_map_iff in Hin. destruct Hin as (y & Hy & Hyin).
  apply filter_In in Hyin. apply in_map_iff. exists y. tauto.
Qed.

Lemma NoDup_map_snoc {A} (key : A -> Z) (l : list A) (x : A) :
  NoDup (map key l) -> Forall (fun y => key y < key x) l -> NoDup (map key (l ++ [x])).
Proof.
  intros Hnd Hlt. rewrite map_app. apply NoDup_app; [exact Hnd|repeat constructor; auto|].
  intros k Hk [<-|[]]. apply in_map_iff in Hk. destruct Hk as (y & Hy & Hin).
  rewrite Forall_forall in Hlt. specialize (Hlt y Hin). lia.
Qed.

Lemma Forall_snoc_below {A} (key : A -> Z) (l : list A) (x : A) (seq : Z) :
  Forall (fun y => key y < seq) l -> key x = seq ->
  Forall (fun y => key y < seq + 1) (l ++ [x]).
Proof.
  intros H Hx. apply Forall_app. split.
  - eapply Forall_impl; [|exact H]. intros y Hy. cbv beta in Hy. lia.
  - constructor; [lia|constructor].
Qed.

Lemma Forall_key_update {A} (key : A -> Z) (f : A -> A) (id seq : Z) (l : list A) :
  (forall x, key (f x) = key x) ->
  Forall (fun y => key y < seq) l ->
  Forall (fun y => key y < seq) (map (fun x => if key x =? id then f x else x) l).
Proof.
  intros Hk H. apply Forall_forall. intros y Hy. apply in_map_iff in Hy.
  destruct Hy as (x & <- & Hx). rewrite Forall_forall in H. specialize (H x Hx).
  destruct (key x =? id); [rewrite Hk|]; exact H.
Qed.

(** *** Primary keys *)

Lemma keysSound_tables (w w' : World) :
  equipmentTable w' = equipmentTable w -> bookings w' = bookings w ->
  reviews w' = reviews w -> bookings_id_seq w' = bookings_id_seq w ->
  reviews_id_seq w' = reviews_id_seq w -> keysSound w -> keysSound w'.
Proof. unfold keysSound. intros -> -> -> -> ->. auto. Qed.

Lemma keysSound_afterUpdateBooking (id : Z) (p : BookingPatch) (now : Z) (w : World) :
  keysSound w -> keysSound (afterUpdateBooking id p now w).
Proof.
  intros (He & Hb & Hbs & Hr & Hrs). unfold keysSound.
  cbn [equipmentTable bookings reviews bookings_id_seq reviews_id_seq afterUpdateBooking].
  rewrite (map_key_update b_id _ id) by reflexivity.
  repeat split; try assumption.
  now apply (Forall_key_update b_id).
Qed.

Lemma updateEquipment_cases (id : Z) (p : EquipmentPatch) (w : World) :
  (exists o, updateEquipment id p w = (o, w))
  \/ (equipmentUpdateRefused id p (equipmentTable w) = false /\
      exists o, updateEquipment id p w = (o, afterUpdateEquipment id p w)).
Proof.
  destruct (equipmentPatchEmpty p) eqn:Hp.
  - left. eexists. now apply updateEquipment_empty.
  - destruct (equipmentUpdateRefused id p (equipmentTable w)) eqn:Hr.
    + left. eexists. now apply updateEquipment_refused.
    + right. split; [reflexivity|]. eexists. now apply updateEquipment_run.
Qed.

Lemma map_rename_absent (l : list Z) (id n : Z) :
  ~ In id l -> map (fun i => if i =? id then n else i) l = l.
Proof.
  induction l as [|x l IH]; simpl; [reflexivity|].
  intros Hnin. destruct (Z.eqb_spec x id) as [->|_]; [tauto|].
  rewrite IH by tauto. reflexivity.
Qed.

(** Giving the one occurrence of [id] a name that is not in use keeps the
    names distinct. *)
Lemma NoDup_rename (l : list Z) (id n : Z) :
  NoDup l -> (In id l -> ~ In n l \/ n = id) ->
  NoDup (map (fun i => if i =? id then n else i) l).
Proof.
  induction l as [|x l IH]; simpl; [constructor|].
  intros Hnd Hfree. inversion Hnd as [|? ? Hnin Hnd']; subst.
  destruct (Z.eqb_spec x id) as [->|Hne].
  - rewrite (map_rename_absent l id n Hnin). constructor; [|exact Hnd'].
    destruct Hfree as [Hfree| ->]; [now left|tauto|exact Hnin].
  - constructor.
    + intros Hin. apply in_map_iff in Hin. destruct Hin as (y & Hy & Hyin).
      destruct (Z.eqb_spec y id) as [Heq|_]; [|congruence].
      subst y x. destruct Hfree as [Hfree|Hfree]; [now right|tauto|congruence].
    + apply IH; [exact Hnd'|]. intros Hin.
      destruct Hfree as [Hfree|Hfree]; [now right|left; tauto|now right].
Qed.

(** An update that is carried out gives no row the id of another. *)
Lemma idTaken_free (id : Z) (p : EquipmentPatch) (rows : list Equipment) (n : Z) :
  idTaken id p rows = false -> set_id p = Some n ->
  In id (map e_id rows) -> ~ In n (map e_id rows) \/ n = id.
Proof.
  unfold idTaken. intros Ht Hset Hin. rewrite Hset in Ht.
  destruct (Z.eq_dec n id) as [->|Hne]; [now right|left].
  intros Hn. apply in_map_iff in Hin, Hn.
  destruct Hin as (e1 & He1 & Hin1). destruct Hn as (e2 & He2 & Hin2).
  assert (H1 : existsb (fun e => e_id e =? id) rows = true).
  { apply existsb_exists. exists e1. split; [exact Hin1|now apply Z.eqb_eq]. }
  assert (H2 : existsb (fun e => (e_id e =? n) && negb (e_id e =? id)) rows = true).
  { apply existsb_exists. exists e2. split; [exact Hin2|].
    apply andb_true_iff. split; [now apply Z.eqb_eq|].
    apply negb_true_iff, Z.eqb_neq. congruence. }
  rewrite H1, H2 in Ht. discriminate Ht.
Qed.

Lemma equipmentUpdateRefused_idTaken (id : Z) (p : EquipmentPatch) (rows : list Equipment) :
  equipmentUpdateRefused id p rows = false -> idTaken id p rows = false.
Proof.
  unfold equipmentUpdateRefused. intros H. apply orb_false_iff in H. tauto.
Qed.

Lemma NoDup_afterUpdateEquipment (id : Z) (p : EquipmentPatch) (rows : list Equipment) :
  equipmentUpdateRefused id p rows = false ->
  NoDup (map e_id rows) ->
  NoDup (map e_id (map (fun e => if e_id e =? id then applyEquipmentPatch p e else e) rows)).
Proof.
  intros Hr Hnd. apply equipmentUpdateRefused_idTaken in Hr.
  rewrite map_e_id_update. destruct (set_id p) as [n|] eqn:Hn; cbn [orElse].
  - apply NoDup_rename; [exact Hnd|]. now apply (idTaken_free id p rows n).
  - rewrite (map_ext _ (fun i => i)); [now rewrite map_id|].
    intros i. destruct (i =? id); reflexivity.
Qed.

Lemma keysSound_updateEquipment id p : keeps keysSound (updateEquipment id p).
Proof.
  intros w o w' HI Hrun.
  destruct (updateEquipment_cases id p w) as [(o' & H)|(Hr & o' & H)];
    rewrite H in Hrun; injection Hrun as _ <-; [exact HI|].
  destruct HI as (He & Hrest). unfold keysSound.
  cbn [equipmentTable bookings reviews bookings_id_seq reviews_id_seq afterUpdateEquipment].
  split; [|assumption]. now apply NoDup_afterUpdateEquipment.
Qed.

Lemma keysSound_updateBooking id p now : keeps keysSound (updateBooking id p now).
Proof.
  intros w o w' HI. rewrite updateBooking_run. intros [= _ <-].
  now apply keysSound_afterUpdateBooking.
Qed.

Lemma keysSound_updateBookingStatus id st now :
  keeps keysSound (updateBookingStatus id st now).
Proof.
  intros w o w' HI. rewrite updateBookingStatus_run. intros [= _ <-].
  now apply keysSound_afterUpdateBooking.
Qed.

Lemma keysSound_createBooking ib now : keeps keysSound (createBooking ib now).
Proof.
  intros w o w' HI.
  destruct (bookingStorable ib) eqn:Hst;
    [rewrite (createBooking_run ib now w Hst)
    |rewrite (createBooking_refused ib now w Hst); intros [= _ <-]; exact HI].
  destruct HI as (He & Hb & Hbs & Hr & Hrs). intros [= _ <-].
  unfold keysSound.
  cbn [equipmentTable bookings reviews bookings_id_seq reviews_id_seq afterCreateBooking].
  repeat split; try assumption.
  - now apply NoDup_map_snoc.
  - now apply (Forall_snoc_below b_id).
Qed.

Lemma keysSound_createReview review now : keeps keysSound (createReview review now).
Proof.
  intros w o w' HI.
  destruct (reviewStorable review) eqn:Hst;
    [rewrite (createReview_run review now w Hst)
    |rewrite (createReview_refused review now w Hst); intros [= _ <-]; exact HI].
  destruct HI as (He & Hb & Hbs & Hr & Hrs). intros [= _ <-].
  unfold keysSound.
  cbn [equipmentTable bookings reviews bookings_id_seq reviews_id_seq afterCreateReview].
  repeat split; try assumption.
  - now apply NoDup_map_snoc.
  - now apply (Forall_snoc_below r_id).
Qed.

Lemma keysSound_deleteEquipment id : keeps keysSound (deleteEquipment id).
Proof.
  intros w o w' (He & Hrest) [= _ <-]. unfold keysSound.
  cbn [equipmentTable bookings reviews bookings_id_seq reviews_id_seq].
  split; [now apply NoDup_map_filter|exact Hrest].
Qed.

Lemma keysSound_deleteEquipmentBookings id : keeps keysSound (deleteEquipmentBookings id).
Proof.
  intros w o w' (He & Hb & Hbs & Hr & Hrs) [= _ <-]. unfold keysSound.
  cbn [equipmentTable bookings reviews bookings_id_seq reviews_id_seq].
  repeat split; try assumption.
  - now apply NoDup_map_filter.
  - apply Forall_forall. intros b Hin. apply filter_In in Hin.
    rewrite Forall_forall in Hbs. now apply Hbs.
Qed.

Lemma keysSound_setAvailability id v :
  keeps keysSound (updateEquipment id (availabilityPatch v)).
Proof. apply keysSound_updateEquipment. Qed.

Ltac keys_primitive :=
  first [ exact keysSound_tables | exact keysSound_setAvailability
        | exact keysSound_updateBooking | exact keysSound_updateBookingStatus
        | exact keysSound_createBooking | exact keysSound_createReview
        | exact keysSound_deleteEquipment | exact keysSound_deleteEquipmentBookings ].

Lemma keysSound_post_api_bookings env user rq now :
  keeps keysSound (post_api_bookings env user rq now).
Proof. apply keeps_post_api_bookings; keys_primitive. Qed.

Lemma keysSound_verify_payment env rq now :
  keeps keysSound (post_api_bookings_verify_payment env rq now).
Proof. apply keeps_post_api_bookings_verify_payment; keys_primitive. Qed.

Lemma keysSound_webhook env rq now :
  keeps keysSound (post_api_webhooks_razorpay env rq now).
Proof. apply keeps_post_api_webhooks_razorpay; keys_primitive. Qed.

Lemma keysSound_post_api_reviews user rq now :
  keeps keysSound (post_api_reviews user rq now).
Proof. apply keeps_post_api_reviews; keys_primitive. Qed.

Lemma keysSound_patch_api_equipment user id rq :
  keeps keysSound (patch_api_equipment user id rq).
Proof.
  apply keeps_patch_api_equipment;
    first [apply keysSound_updateEquipment | keys_primitive].
Qed.

Lemma keysSound_patch_availability user id available :
  keeps keysSound (patch_api_equipment_availability user id available).
Proof. apply keeps_patch_api_equipment_availability; keys_primitive. Qed.

Lemma keysSound_patch_api_bookings_status user id st now :
  keeps keysSound (patch_api_bookings_status user id st now).
Proof. apply keeps_patch_api_bookings_status; keys_primitive. Qed.

Lemma keysSound_delete_api_equipment user id :
  keeps keysSound (delete_api_equipment user id).
Proof. apply keeps_delete_api_equipment; keys_primitive. Qed.

(** X19.  Every modelled route keeps the primary keys sound, whether it
    answers or throws: ids stay unique in the equipment, bookings and
    reviews tables, and the ids of bookings and reviews stay below their
    sequences. *)
Theorem routes_keep_primary_keys (env : Env) (user : option User) (now : Z) :
  (forall rq, keeps keysSound (post_api_bookings env user rq now)) /\
  (forall rq, keeps keysSound (post_api_bookings_verify_payment env rq now)) /\
  (forall rq, keeps keysSound (post_api_webhooks_razorpay env rq now)) /\
  (forall rq, keeps keysSound (post_api_reviews user rq now)) /\
  (forall id rq, keeps keysSound (patch_api_equipment user id rq)) /\
  (forall id available, keeps keysSound (patch_api_equipment_availability user id available)) /\
  (forall id, keeps keysSound (get_api_bookings_id user id)) /\
  (forall id st, keeps keysSound (patch_api_bookings_status user id st now)) /\
  (forall id, keeps keysSound (delete_api_equipment user id)).
Proof.
  split; [intros; apply keysSound_post_api_bookings|].
  split; [intros; apply keysSound_verify_payment|].
  split; [intros; apply keysSound_webhook|].
  split; [intros; apply keysSound_post_api_reviews|].
  split; [intros; apply keysSound_patch_api_equipment|].
  split; [intros; apply keysSound_patch_availability|].
  split; [intros; apply keeps_get_api_bookings_id|].
  split; [intros; apply keysSound_patch_api_bookings_status|].
  intros; apply keysSound_delete_api_equipment.
Qed.

(** *** References from bookings to equipment *)

Lemma keeps_and {A} (I J : World -> Prop) (m : M A) :
  keeps I m -> keeps J m -> keeps (fun w => I w /\ J w) m.
Proof. intros HI HJ w o w' [Hi Hj] Hrun. split; [eapply HI|eapply HJ]; eauto. Qed.

Lemma refs_tables (w w' : World) :
  equipmentTable w' = equipmentTable w -> bookings w' = bookings w ->
  reviews w' = reviews w -> bookings_id_seq w' = bookings_id_seq w ->
  reviews_id_seq w' = reviews_id_seq w ->
  bookingsReferToEquipment w -> bookingsReferToEquipment w'.
Proof. unfold bookingsReferToEquipment. intros -> -> _ _ _. auto. Qed.

Lemma refs_afterUpdateBooking (id : Z) (p : BookingPatch) (now : Z) (w : World) :
  bookingsReferToEquipment w -> bookingsReferToEquipment (afterUpdateBooking id p now w).
Proof.
  intros H b Hb. cbn [equipmentTable bookings afterUpdateBooking] in *.
  apply in_map_iff in Hb. destruct Hb as (x & <- & Hx).
  destruct (b_id x =? id); apply (H x Hx).
Qed.

Lemma refs_afterUpdateEquipment (id : Z) (p : EquipmentPatch) (w : World) :
  set_id p = None ->
  bookingsReferToEquipment w -> bookingsReferToEquipment (afterUpdateEquipment id p w).
Proof.
  intros Hp H b Hb. cbn [equipmentTable bookings afterUpdateEquipment] in *.
  rewrite map_e_id_update, Hp. cbn [orElse].
  rewrite (map_ext _ (fun i => i)) by (intros i; destruct (i =? id); reflexivity).
  rewrite map_id. now apply H.
Qed.

Lemma refs_updateEquipment id p :
  set_id p = None -> keeps bookingsReferToEquipment (updateEquipment id p).
Proof.
  intros Hp w o w' HI Hrun.
  destruct (updateEquipment_world id p w) as (o' & [H|H]);
    rewrite H in Hrun; injection Hrun as _ <-; [exact HI|].
  now apply refs_afterUpdateEquipment.
Qed.

Lemma refs_setAvailability id v :
  keeps bookingsReferToEquipment (updateEquipment id (availabilityPatch v)).
Proof. now apply refs_updateEquipment. Qed.

Lemma refs_updateBooking id p now : keeps bookingsReferToEquipment (updateBooking id p now).
Proof.
  intros w o w' HI. rewrite updateBooking_run. intros [= _ <-].
  now apply refs_afterUpdateBooking.
Qed.

Lemma refs_updateBookingStatus id st now :
  keeps bookingsReferToEquipment (updateBookingStatus id st now).
Proof.
  intros w o w' HI. rewrite updateBookingStatus_run. intros [= _ <-].
  now apply refs_afterUpdateBooking.
Qed.

Lemma refs_createReview review now : keeps bookingsReferToEquipment (createReview review now).
Proof.
  intros w o w' HI.
  destruct (reviewStorable review) eqn:Hst;
    [rewrite (createReview_run review now w Hst)
    |rewrite (createReview_refused review now w Hst)];
    intros [= _ <-]; exact HI.
Qed.

Ltac refs_primitive :=
  first [ exact refs_tables | exact refs_setAvailability | exact refs_updateBooking
        | exact refs_updateBookingStatus | exact refs_createReview ].

Lemma refs_post_api_bookings env user rq now :
  keeps (fun w => keysSound w /\ bookingsReferToEquipment w)
        (post_api_bookings env user rq now).
Proof.
  intros w o w' [Hk Hr] Hrun.
  split; [exact (keysSound_post_api_bookings env user rq now w o w' Hk Hrun)|].
  assert (Hwf : bookingIdsBelowSeq w) by apply Hk.
  destruct (post_api_bookings_rejected env user rq now w)
    as [(u & equipment & s & t & e & -> & Hadm)|(r & Hrej & _)].
  2:{ rewrite Hrej in Hrun. injection Hrun as _ <-. exact Hr. }
  assert (Hin : In equipment (map e_id (equipmentTable w))).
  { destruct Hadm as (_ & _ & _ & Hf & _). apply find_some in Hf.
    destruct Hf as [Hf Hid]. apply Z.eqb_eq in Hid. subst equipment. now apply in_map. }
  assert (Hnew : forall w1 b',
            bookings w1 = bookings w ++ [b'] -> equipmentId b' = equipment ->
            map e_id (equipmentTable w1) = map e_id (equipmentTable w) ->
            bookingsReferToEquipment w1).
  { intros w1 b' Hb He Hm x Hx. rewrite Hm. rewrite Hb in Hx.
    apply in_app_iff in Hx. destruct Hx as [Hx|[<-|[]]]; [now apply Hr|now rewrite He]. }
  destruct (storable_dec (u_id u) equipment s t e) as [Hsto|Hsto].
  2:{ rewrite (post_api_bookings_unstorable env w u rq now equipment s t e Hadm Hsto) in Hrun.
      injection Hrun as _ <-. exact Hr. }
  destruct (orderFails_dec env (bookings_id_seq w) (dailyRate e * totalDays s t)) as [Hf|Hok].
  - destruct (post_api_bookings_failure env u rq now w equipment s t e Hwf Hadm Hsto Hf)
      as (msg & w0 & Hrun' & Hw0).
    rewrite Hrun' in Hrun. injection Hrun as _ <-.
    destruct (after_admission_tables _ _ _ _ _ _ _ _ _ Hw0) as [Hb He].
    eapply Hnew.
    + apply (bookings_compensated w rq (u_id u) equipment s t e now w0 Hwf Hb).
    + reflexivity.
    + unfold compensated. cbn [equipmentTable afterUpdateBooking afterUpdateEquipment].
      rewrite He. cbn [equipmentTable lockedWorld afterUpdateEquipment afterCreateBooking].
      now rewrite !(map_key_update e_id _ equipment) by reflexivity.
  - destruct (post_api_bookings_success env u rq now w equipment s t e Hwf Hadm Hsto Hok)
      as (oid & cfg & _ & Hrun').
    rewrite Hrun' in Hrun. injection Hrun as _ <-.
    eapply Hnew.
    + apply (bookings_awaitingWorld w rq (u_id u) equipment s t e now oid Hwf).
    + reflexivity.
    + cbn [equipmentTable awaitingWorld orderedWorld lockedWorld afterUpdateBooking
           afterRecord afterUpdateEquipment afterCreateBooking].
      now rewrite (map_key_update e_id _ equipment) by reflexivity.
Qed.

(** The deletion route, run. *)
Lemma delete_api_equipment_run (user : option User) (id : Z) (w : World) :
  delete_api_equipment user id w
  = match user with
    | None => (Return (mkReply 401 (Failure "Authentication required")), w)
    | Some u =>
        match find (fun e => e_id e =? id) (equipmentTable w) with
        | None => (Return (mkReply 404 (Failure "Equipment not found")), w)
        | Some e =>
            if negb (ownerId e =? u_id u) && negb (isAdmin u)
            then (Return (mkReply 403 (Failure "Not authorized to delete this equipment")), w)
            else (Return (mkReply 200 Deleted), afterDeleteEquipment id w)
        end
    end.
Proof.
  unfold delete_api_equipment. destruct user as [u|]; [|reflexivity].
  cbv beta iota delta [bind tryCatch reply ret]. rewrite getEquipment_run.
  destruct (find _ _) as [e|]; [|reflexivity].
  destruct (negb (ownerId e =? u_id u) && negb (isAdmin u))%bool; reflexivity.
Qed.

Lemma refs_afterDeleteEquipment (id : Z) (w : World) :
  bookingsReferToEquipment w -> bookingsReferToEquipment (afterDeleteEquipment id w).
Proof.
  intros H b Hb. cbn [equipmentTable bookings afterDeleteEquipment] in *.
  apply filter_In in Hb. destruct Hb as [Hb Hne].
  apply negb_true_iff, Z.eqb_neq in Hne.
  specialize (H b Hb). apply in_map_iff in H. destruct H as (e & He & Hin).
  apply in_map_iff. exists e. split; [exact He|].
  apply filter_In. split; [exact Hin|].
  apply negb_true_iff, Z.eqb_neq. congruence.
Qed.

Lemma refs_delete_api_equipment user id :
  keeps bookingsReferToEquipment (delete_api_equipment user id).
Proof.
  intros w o w' HI. rewrite delete_api_equipment_run.
  destruct user as [u|]; [|intros [= _ <-]; exact HI].
  destruct (find _ _) as [e|]; [|intros [= _ <-]; exact HI].
  destruct (negb (ownerId e =? u_id u) && negb (isAdmin u))%bool; intros [= _ <-];
    [exact HI|now apply refs_afterDeleteEquipment].
Qed.

(** X20.  Together with sound primary keys, the modelled routes keep the
    reference from bookings to equipment: if every booking names an existing
    equipment row before the request, so it does afterwards.  The deletion
    route keeps it because it deletes the bookings of the equipment along
    with the equipment.  The one exception is an edit through
    PATCH /api/equipment/:id whose body names an id: the route hands the
    body to the update as it is, the row is given the new id, and its
    bookings are left naming the old one.  So the owner of the tractor,
    which booking 1 names, makes it equipment 7, and booking 1 names no
    equipment any more. *)
Theorem routes_keep_booking_references (env : Env) (user : option User) (now : Z) :
  let I := fun w => keysSound w /\ bookingsReferToEquipment w in
  (forall rq, keeps I (post_api_bookings env user rq now)) /\
  (forall rq, keeps I (post_api_bookings_verify_payment env rq now)) /\
  (forall rq, keeps I (post_api_webhooks_razorpay env rq now)) /\
  (forall rq, keeps I (post_api_reviews user rq now)) /\
  (forall id rq, ed_id rq = None -> keeps I (patch_api_equipment user id rq)) /\
  (forall id available, keeps I (patch_api_equipment_availability user id available)) /\
  (forall id, keeps I (get_api_bookings_id user id)) /\
  (forall id st, keeps I (patch_api_bookings_status user id st now)) /\
  (forall id, keeps I (delete_api_equipment user id)) /\
  (I heldWorld /\
   exists resp w',
     patch_api_equipment (Some owner) 1 renumberEdit heldWorld = (Return resp, w') /\
     statusCode resp = 200 /\
     map e_id (equipmentTable w') = [7] /\
     map equipmentId (bookings w') = [1] /\
     ~ bookingsReferToEquipment w').
Proof.
  cbv zeta.
  split; [intros; apply refs_post_api_bookings|].
  split; [intros; apply keeps_and;
          [apply keysSound_verify_payment
          |apply keeps_post_api_bookings_verify_payment; refs_primitive]|].
  split; [intros; apply keeps_and;
          [apply keysSound_webhook
          |apply keeps_post_api_webhooks_razorpay; refs_primitive]|].
  split; [intros; apply keeps_and;
          [apply keysSound_post_api_reviews
          |apply keeps_post_api_reviews; refs_primitive]|].
  split; [intros id rq Hid; apply keeps_and;
          [apply keysSound_patch_api_equipment
          |apply keeps_patch_api_equipment;
           first [apply refs_updateEquipment; exact Hid | refs_primitive]]|].
  split; [intros; apply keeps_and;
          [apply keysSound_patch_availability
          |apply keeps_patch_api_equipment_availability; refs_primitive]|].
  split; [intros; apply keeps_get_api_bookings_id|].
  split; [intros; apply keeps_and;
          [apply keysSound_patch_api_bookings_status
          |apply keeps_patch_api_bookings_status; refs_primitive]|].
  split; [intros; apply keeps_and;
          [apply keysSound_delete_api_equipment|apply refs_delete_api_equipment]|].
  split.
  - split.
    + unfold keysSound. cbn.
      repeat split; repeat constructor; try lia; intros [].
    + intros b [<-|[]]. now left.
  - destruct (patch_api_equipment (Some owner) 1 renumberEdit heldWorld) as [o w'] eqn:Hrun.
    vm_compute in Hrun. injection Hrun as <- <-.
    do 2 eexists. split; [reflexivity|]. split; [reflexivity|].
    split; [reflexivity|]. split; [reflexivity|].
    intros H. specialize (H awaitingBooking (or_introl eq_refl)).
    cbn in H. destruct H as [H|[]]. discriminate H.
Qed.

(** ** Deleting equipment *)

Lemma find_filter_out {A} (key : A -> Z) (id : Z) (l : list A) :
  find (fun x => key x =? id) (filter (fun x => negb (key x =? id)) l) = None.
Proof.
  induction l as [|x l IH]; simpl; [reflexivity|].
  destruct (key x =? id) eqn:E; simpl; [exact IH|]. now rewrite E.
Qed.

(** X21.  [DELETE /api/equipment/:id] always answers.  It answers 200
    exactly when the user is signed in, the equipment exists, and the user
    owns it or is an administrator; any other answer leaves the world as it
    was.  On 200 the equipment table has lost exactly the rows with that id,
    the bookings table exactly the bookings of that equipment, reviews are
    kept, and a later booking request for the id by a signed-in user with
    two valid dates is answered 404. *)
Theorem delete_equipment_cascades (user : option User) (id : Z) (w : World) :
  exists r w',
    delete_api_equipment user id w = (Return r, w') /\
    (code r <> 200 -> w' = w) /\
    (code r = 200 <->
     exists u e, user = Some u /\
                 find (fun x => e_id x =? id) (equipmentTable w) = Some e /\
                 (ownerId e = u_id u \/ isAdmin u = true)) /\
    (code r = 200 ->
     (forall e, In e (equipmentTable w') <-> In e (equipmentTable w) /\ e_id e <> id) /\
     (forall b, In b (bookings w') <-> In b (bookings w) /\ equipmentId b <> id) /\
     reviews w' = reviews w /\
     (forall env user2 rq now s t,
         rq_equipmentId rq = Some id -> rq_startDate rq = Some s -> rq_endDate rq = Some t ->
         user2 <> None ->
         post_api_bookings env user2 rq now w'
         = (Return (mkResponse 404 (ErrorBody "Equipment not found" None)), w'))).
Proof.
  rewrite delete_api_equipment_run.
  destruct user as [u|].
  2:{ do 2 eexists. split; [reflexivity|]. split; [reflexivity|].
      split; [split; [discriminate|intros (? & ? & [=] & _)]|discriminate]. }
  destruct (find (fun x => e_id x =? id) (equipmentTable w)) as [e|] eqn:Hf.
  2:{ do 2 eexists. split; [reflexivity|]. split; [reflexivity|].
      split; [split; [discriminate|intros (? & ? & _ & [=] & _)]|discriminate]. }
  destruct (Z.eqb_spec (ownerId e) (u_id u)) as [Hown|Hown]; cbn [negb andb].
  2: destruct (isAdmin u) eqn:Hadm; cbn [negb].
  3:{ do 2 eexists. split; [reflexivity|]. split; [reflexivity|].
      split; [split; [discriminate|]|discriminate].
      intros (u' & e' & [= <-] & [= <-] & [H|H]); [contradiction|congruence]. }
  all: do 2 eexists; (split; [reflexivity|]); (split; [intros H; now contradiction H|]);
    (split; [split; [intros _; exists u, e; auto|reflexivity]|]);
    intros _; cbn [equipmentTable bookings reviews afterDeleteEquipment];
    (split; [intros x; rewrite filter_In, negb_true_iff, Z.eqb_neq; reflexivity|]);
    (split; [intros x; rewrite filter_In, negb_true_iff, Z.eqb_neq; reflexivity|]);
    (split; [reflexivity|]);
    intros env user2 rq now s t He Hs Ht Hu;
    (destruct user2 as [u2|]; [|contradiction]);
    unfold post_api_bookings, safeParseBooking; rewrite He, Hs, Ht;
    cbv beta iota delta [bind tryCatch json ret pb_equipmentId];
    rewrite getEquipment_run; cbn [equipmentTable afterDeleteEquipment];
    rewrite (find_filter_out e_id id); reflexivity.
Qed.

(** ** The administrator's override *)

(** X22.  [PATCH /api/bookings/:id/status] always answers and changes
    neither equipment nor reviews nor, in any booking, the id, equipment,
    user, rating flag or payment id.  It answers 200 exactly when the user
    is an administrator, the id parses, the status is approved or rejected
    and the booking exists; the answer is then the booking with the new
    status, which is also the row stored.  It never releases equipment: an
    equipment whose availability flag was off is still reported unavailable
    for every range. *)
Theorem admin_override_outcome (user : option User) (id : option Z) (st : option string)
    (now : Z) (w : World) :
  exists r w',
    patch_api_bookings_status user id st now w = (Return r, w') /\
    equipmentTable w' = equipmentTable w /\ reviews w' = reviews w /\
    map (fun b => (b_id b, equipmentId b, userId b, isRated b, razorpayPaymentId b))
        (bookings w')
    = map (fun b => (b_id b, equipmentId b, userId b, isRated b, razorpayPaymentId b))
          (bookings w) /\
    (code r = 200 <->
     exists u n s b,
       user = Some u /\ isAdmin u = true /\ id = Some n /\ st = Some s /\
       (s = "approved" \/ s = "rejected") /\
       find (fun x => b_id x =? n) (bookings w) = Some b) /\
    (forall n s b,
        code r = 200 -> id = Some n -> st = Some s ->
        find (fun x => b_id x =? n) (bookings w) = Some b ->
        payload r = BookingJson
                      (applyBookingPatch (mkBookingPatch (Some s) None None None) now b) /\
        find (fun x => b_id x =? n) (bookings w')
        = Some (applyBookingPatch (mkBookingPatch (Some s) None None None) now b)) /\
    (forall sd ed equipment,
        (forall e, find (fun x => e_id x =? equipment) (equipmentTable w) = Some e ->
                   availability e = false) ->
        checkEquipmentAvailability equipment sd ed w' = (Return false, w')).
Proof.
  assert (Hlocked : forall w', equipmentTable w' = equipmentTable w ->
            forall sd ed equipment,
              (forall e, find (fun x => e_id x =? equipment) (equipmentTable w) = Some e ->
                         availability e = false) ->
              checkEquipmentAvailability equipment sd ed w' = (Return false, w')).
  { intros w' He sd ed equipment Hflag. rewrite checkEquipmentAvailability_run, He.
    destruct (find _ _) as [e|] eqn:Hf; [|reflexivity]. now rewrite (Hflag e eq_refl). }
  unfold patch_api_bookings_status.
  destruct user as [u|].
  2:{ do 2 eexists. split; [reflexivity|]. repeat (split; [reflexivity|]).
      split; [split; [discriminate|intros (? & ? & ? & ? & [=] & _)]|].
      split; [discriminate|now apply Hlocked]. }
  destruct (isAdmin u) eqn:Hadm; cbn [negb].
  2:{ do 2 eexists. split; [reflexivity|]. repeat (split; [reflexivity|]).
      split; [split; [discriminate|intros (? & ? & ? & ? & [= <-] & H & _); congruence]|].
      split; [discriminate|now apply Hlocked]. }
  destruct id as [n|].
  2:{ do 2 eexists. split; [reflexivity|]. repeat (split; [reflexivity|]).
      split; [split; [discriminate|intros (? & ? & ? & ? & _ & _ & [=] & _)]|].
      split; [discriminate|now apply Hlocked]. }
  cbv beta iota delta [tryCatch bind reply ret].
  destruct st as [s|]; cbn [truthyStr str orElse negb orb].
  2:{ do 2 eexists. split; [reflexivity|]. repeat (split; [reflexivity|]).
      split; [split; [discriminate|intros (? & ? & ? & ? & _ & _ & _ & [=] & _)]|].
      split; [discriminate|now apply Hlocked]. }
  destruct (String.eqb_spec s "") as [->|Hne]; cbn [negb orb].
  { do 2 eexists. split; [reflexivity|]. repeat (split; [reflexivity|]).
    split; [split; [discriminate|]|].
    - intros (? & ? & ? & ? & _ & _ & _ & [= <-] & [H|H] & _); discriminate H.
    - split; [discriminate|now apply Hlocked]. }
  destruct (String.eqb_spec s "approved") as [Ha|Ha];
    [|destruct (String.eqb_spec s "rejected") as [Hr|Hr]]; cbn [negb orb].
  3:{ do 2 eexists. split; [reflexivity|]. repeat (split; [reflexivity|]).
      split; [split; [discriminate|]|].
      - intros (? & ? & ? & ? & _ & _ & _ & [= <-] & [H|H] & _); contradiction.
      - split; [discriminate|now apply Hlocked]. }
  all: rewrite updateBookingStatus_run;
    destruct (find (fun x => b_id x =? n) (bookings w)) as [b|] eqn:Hf;
    do 2 eexists; (split; [reflexivity|]);
    cbn [equipmentTable reviews bookings afterUpdateBooking];
    (split; [reflexivity|]); (split; [reflexivity|]);
    (split; [rewrite map_map; apply map_ext; intros x; destruct (b_id x =? n); reflexivity|]).
  all: try (split; [split; [intros _; exists u, n, s, b; auto 10|reflexivity]|]).
  all: try (split; [split; [discriminate|
              intros (? & ? & ? & ? & _ & _ & [= <-] & _ & _ & H); congruence]|]).
  all: (split; [|now apply Hlocked]).
  all: intros n' s' b' Hc [= <-] [= <-]; try discriminate Hc.
  all: intros Hf'; rewrite Hf in Hf'; injection Hf' as <-; cbn [payload];
    (split; [reflexivity|]);
    rewrite (find_map_update b_id _ n) by reflexivity; now rewrite Hf.
Qed.

(** ** Reading a booking *)

(** X23.  [GET /api/bookings/:id] always answers and writes nothing.  A
    booking appears in the answer only with code 200, and only if it is the
    stored booking of the requested id and the signed-in user is its renter
    or an administrator; for an existing booking anyone else gets 403. *)
Theorem booking_shown_to_renter_or_admin (user : option User) (id : option Z) (w : World) :
  exists r,
    get_api_bookings_id user id w = (Return r, w) /\
    (forall b, payload r = BookingJson b ->
       code r = 200 /\
       exists u n, user = Some u /\ id = Some n /\
                   find (fun x => b_id x =? n) (bookings w) = Some b /\
                   (userId b = u_id u \/ isAdmin u = true)) /\
    (forall u n b,
        user = Some u -> id = Some n ->
        find (fun x => b_id x =? n) (bookings w) = Some b ->
        r = if negb (userId b =? u_id u) && negb (isAdmin u)
            then mkReply 403 (Failure "Not authorized to view this booking")
            else mkReply 200 (BookingJson b)).
Proof.
  unfold get_api_bookings_id.
  destruct user as [u|].
  2:{ eexists. split; [reflexivity|]. split; [discriminate|discriminate]. }
  destruct id as [n|].
  2:{ eexists. split; [reflexivity|]. split; [discriminate|discriminate]. }
  cbv beta iota delta [tryCatch bind reply ret]. rewrite getBooking_run.
  destruct (find _ _) as [b|] eqn:Hf.
  2:{ eexists. split; [reflexivity|]. split; [discriminate|].
      intros u' n' b' [= <-] [= <-] Hf'. congruence. }
  destruct (Z.eqb_spec (userId b) (u_id u)) as [Hown|Hown]; cbn [negb andb].
  2: destruct (isAdmin u) eqn:Hadm; cbn [negb].
  3:{ eexists. split; [reflexivity|]. split; [discriminate|].
      intros u' n' b' [= <-] [= <-] Hf'; rewrite Hf in Hf'; injection Hf' as <-.
      destruct (Z.eqb_spec (userId b) (u_id u)); [contradiction|]. now rewrite Hadm. }
  all: eexists; (split; [reflexivity|]); split;
    [intros b0 [= <-]; split; [reflexivity|]; exists u, n; auto
    |intros u' n' b' [= <-] [= <-] Hf'; rewrite Hf in Hf'; injection Hf' as <-].
  - destruct (Z.eqb_spec (userId b) (u_id u)); [reflexivity|contradiction].
  - rewrite Hadm. now rewrite andb_false_r.
Qed.

(** ** Who may edit equipment *)



(** ** Comparison lists *)

Lemma find_map_update_other {A} (key : A -> Z) (f : A -> A) (id id' : Z) (l : list A) :
  (forall x, key (f x) = key x) -> id' <> id ->
  find (fun x => key x =? id') (map (fun x => if key x =? id then f x else x) l)
  = find (fun x => key x =? id') l.
Proof.
  intros Hk Hne. induction l as [|x l IH]; simpl; [reflexivity|].
  destruct (Z.eqb_spec (key x) id) as [Hx|Hx].
  - rewrite Hk. destruct (Z.eqb_spec (key x) id'); [congruence|exact IH].
  - destruct (key x =? id'); [reflexivity|exact IH].
Qed.

Lemma includes_In (ids : list Z) (id : Z) : includes ids id = true <-> In id ids.
Proof.
  unfold includes. rewrite existsb_exists. split.
  - intros (x & Hx & He). apply Z.eqb_eq in He. now subst.
  - intros H. exists id. split; [exact H|apply Z.eqb_refl].
Qed.

Lemma comparedIds_setEquipmentIds (user user' : Z) (ids : list Z) (t : Comparisons) :
  comparedIds user' (setEquipmentIds user ids t)
  = if user' =? user
    then match comparisonOf user t with Some _ => ids | None => [] end
    else comparedIds user' t.
Proof.
  unfold comparedIds, comparisonOf, setEquipmentIds. cbn [comparisonRows].
  destruct (Z.eqb_spec user' user) as [->|Hne].
  - rewrite (find_map_update c_userId
               (fun c => mkComparison (c_id c) (c_userId c) ids (c_createdAt c)) user)
      by reflexivity.
    destruct (find _ _); reflexivity.
  - rewrite (find_map_update_other c_userId
               (fun c => mkComparison (c_id c) (c_userId c) ids (c_createdAt c))
               user user') by (reflexivity || assumption).
    reflexivity.
Qed.

Lemma comparedIds_addToComparison (user equipment now : Z) (t : Comparisons) :
  comparedIds user (addToComparison user equipment now t)
  = (if includes (comparedIds user t) equipment then comparedIds user t
     else comparedIds user t ++ [equipment]).
Proof.
  unfold addToComparison.
  destruct (comparisonOf user t) as [c|] eqn:Hc.
  - assert (Hids : comparedIds user t = equipmentIds c)
      by (unfold comparedIds; now rewrite Hc).
    rewrite Hids. destruct (includes (equipmentIds c) equipment); cbn [negb].
    + exact Hids.
    + rewrite comparedIds_setEquipmentIds, Z.eqb_refl, Hc. reflexivity.
  - assert (Hids : comparedIds user t = []) by (unfold comparedIds; now rewrite Hc).
    rewrite Hids. cbn [includes existsb app].
    unfold comparedIds, comparisonOf in *. cbn [comparisonRows].
    rewrite find_append, Hc. cbn. now rewrite Z.eqb_refl.
Qed.

Lemma addToComparison_in (user equipment now : Z) (t : Comparisons) :
  In equipment (comparedIds user (addToComparison user equipment now t)).
Proof.
  rewrite comparedIds_addToComparison.
  destruct (includes (comparedIds user t) equipment) eqn:Hi.
  - now apply includes_In.
  - apply in_or_app. right. now left.
Qed.


(** X26.  [removeFromComparison] removes every occurrence of the equipment
    from the user's comparison list and nothing else.  The lists of other
    users are unchanged, a user without a list gets none, no row is ever
    deleted, and removing an equipment that was just added to a list which
    did not hold it gives the list back. *)
Theorem removeFromComparison_list (user equipment : Z) (t : Comparisons) :
  comparedIds user (removeFromComparison user equipment t)
  = filter (fun id => negb (id =? equipment)) (comparedIds user t)
  /\ ~ In equipment (comparedIds user (removeFromComparison user equipment t))
  /\ (forall other, other <> user ->
        comparedIds other (removeFromComparison user equipment t) = comparedIds other t)
  /\ (comparisonOf user t = None -> removeFromComparison user equipment t = t)
  /\ List.length (comparisonRows (removeFromComparison user equipment t))
     = List.length (comparisonRows t)
  /\ (forall now, ~ In equipment (comparedIds user t) ->
        comparedIds user
          (removeFromComparison user equipment (addToComparison user equipment now t))
        = comparedIds user t).
Proof.
  assert (Hlist : forall t0,
            comparedIds user (removeFromComparison user equipment t0)
            = filter (fun id => negb (id =? equipment)) (comparedIds user t0)).
  { intros t0. unfold removeFromComparison.
    destruct (comparisonOf user t0) as [c|] eqn:Hc.
    - rewrite comparedIds_setEquipmentIds, Z.eqb_refl, Hc.
      unfold comparedIds. now rewrite Hc.
    - unfold comparedIds. now rewrite Hc. }
  split; [apply Hlist|].
  split.
  { rewrite Hlist. intros Hin. apply filter_In in Hin. destruct Hin as [_ Hne].
    rewrite Z.eqb_refl in Hne. discriminate. }
  split.
  { intros other Hne. unfold removeFromComparison.
    destruct (comparisonOf user t) as [c|]; [|reflexivity].
    rewrite comparedIds_setEquipmentIds.
    destruct (Z.eqb_spec other user); [contradiction|reflexivity]. }
  split.
  { intros Hnone. unfold removeFromComparison. now rewrite Hnone. }
  split.
  { unfold removeFromComparison. destruct (comparisonOf user t); [|reflexivity].
    cbn [setEquipmentIds comparisonRows]. apply length_map. }
  intros now Hnin. rewrite Hlist.
  rewrite (comparedIds_addToComparison user equipment now t).
  destruct (includes (comparedIds user t) equipment) eqn:Hi.
  { apply includes_In in Hi. contradiction. }
  rewrite filter_app. cbn [filter]. rewrite Z.eqb_refl. cbn [negb]. rewrite app_nil_r.
  apply forallb_filter_id. apply forallb_forall. intros x Hx.
  apply negb_true_iff, Z.eqb_neq. congruence.
Qed.





(** ** Recommendations *)

Section RecommendationFacts.
Variable decodeFeatures : string -> list string.

Lemma In_insertByScoreDesc (x y : Scored) (l : list Scored) :
  In y (insertByScoreDesc x l) <-> y = x \/ In y l.
Proof.
  induction l as [|z l IH]; simpl.
  - intuition congruence.
  - destruct (score z <=? score x); simpl.
    + intuition congruence.
    + rewrite IH. intuition congruence.
Qed.

Lemma insertByScoreDesc_perm (x : Scored) (l : list Scored) :
  Permutation (x :: l) (insertByScoreDesc x l).
Proof.
  induction l as [|y l IH]; simpl; [reflexivity|].
  destruct (score y <=? score x); [reflexivity|].
  rewrite perm_swap. now apply perm_skip.
Qed.

Lemma sortByScoreDesc_perm (l : list Scored) : Permutation l (sortByScoreDesc l).
Proof.
  induction l as [|x l IH]; simpl; [constructor|].
  rewrite <- insertByScoreDesc_perm. now apply perm_skip.
Qed.

Lemma insertByScoreDesc_sorted (x : Scored) (l : list Scored) :
  StronglySorted betterFirst l -> StronglySorted betterFirst (insertByScoreDesc x l).
Proof.
  induction 1 as [|y l Hs IH Hall]; simpl.
  - constructor; constructor.
  - destruct (Z.leb_spec (score y) (score x)) as [Hle|Hgt].
    + constructor; [constructor; assumption|].
      constructor; [exact Hle|].
      eapply Forall_impl; [|exact Hall].
      intros z Hz. unfold betterFirst in *. lia.
    + constructor; [exact IH|].
      apply Forall_forall. intros z Hz.
      apply In_insertByScoreDesc in Hz. destruct Hz as [->|Hz].
      * unfold betterFirst. lia.
      * rewrite Forall_forall in Hall. now apply Hall.
Qed.

Lemma sortByScoreDesc_sorted (l : list Scored) :
  StronglySorted betterFirst (sortByScoreDesc l).
Proof.
  induction l as [|x l IH]; simpl; [constructor|]. now apply insertByScoreDesc_sorted.
Qed.

Lemma StronglySorted_app_order {A} (R : A -> A -> Prop) (l1 l2 : list A) :
  StronglySorted R (l1 ++ l2) -> forall a b, In a l1 -> In b l2 -> R a b.
Proof.
  induction l1 as [|x l1 IH]; simpl; [contradiction|].
  intros H a b [<-|Ha] Hb.
  - apply StronglySorted_inv in H. destruct H as [_ Hall].
    rewrite Forall_forall in Hall. apply Hall. apply in_or_app. now right.
  - apply StronglySorted_inv in H. destruct H as [Hs _]. now apply (IH Hs).
Qed.

Lemma In_firstn_list {A} (n : nat) (l : list A) (x : A) : In x (firstn n l) -> In x l.
Proof.
  intros H. rewrite <- (firstn_skipn n l). apply in_or_app. now left.
Qed.

Lemma StronglySorted_firstn {A} (R : A -> A -> Prop) (n : nat) (l : list A) :
  StronglySorted R l -> StronglySorted R (firstn n l).
Proof.
  revert l. induction n as [|n IH]; intros l H; [constructor|].
  destruct l as [|x l]; [constructor|]. cbn [firstn].
  apply StronglySorted_inv in H. destruct H as [Hs Hall].
  constructor; [now apply IH|].
  apply Forall_forall. intros y Hy. rewrite Forall_forall in Hall.
  apply Hall. eapply In_firstn_list; eassumption.
Qed.

Lemma scoreEquipment_bounds_aux (prefs : Preferences) (userBookings : list Booking)
    (equipment : Equipment) :
  sc_equipment (scoreEquipment decodeFeatures prefs userBookings equipment) = equipment /\
  0 <= score (scoreEquipment decodeFeatures prefs userBookings equipment) <= 100.
Proof.
  unfold scoreEquipment.
  destruct (includesStr (preferredCategories prefs) (category equipment)),
           (includesStr (preferredLocations prefs) (location equipment)),
           ((priceRange_min prefs <=? dailyRate equipment)
            && (dailyRate equipment <=? priceRange_max prefs))%bool,
           (Z.ltb_spec 0 (Z.of_nat (List.length
              (filter (includesStr (preferredFeatures prefs))
                      (decodeFeatures (features equipment)))))),
           (Z.ltb_spec 0 (popularity equipment)),
           (existsb (fun booking => equipmentId booking =? e_id equipment) userBookings);
    cbn [sc_equipment score]; (split; [reflexivity|lia]).
Qed.

(** X28.  The recommendation score of an equipment is between 0 and 100.
    It is at least 30 when the category is a preferred one; it is at most
    35 when neither category nor location is preferred and no feature
    matches; and it never exceeds 85 plus 5 for each feature of the
    equipment. *)
Theorem scoreEquipment_bounds (prefs : Preferences) (userBookings : list Booking)
    (equipment : Equipment) :
  let r := scoreEquipment decodeFeatures prefs userBookings equipment in
  let matching := filter (includesStr (preferredFeatures prefs))
                         (decodeFeatures (features equipment)) in
  sc_equipment r = equipment /\
  0 <= score r <= 100 /\
  (includesStr (preferredCategories prefs) (category equipment) = true -> 30 <= score r) /\
  (includesStr (preferredCategories prefs) (category equipment) = false ->
   includesStr (preferredLocations prefs) (location equipment) = false ->
   matching = [] -> score r <= 35) /\
  score r <= 85 + 5 * Z.of_nat (List.length (decodeFeatures (features equipment))).
Proof.
  cbv zeta. unfold scoreEquipment.
  set (m := filter (includesStr (preferredFeatures prefs))
                   (decodeFeatures (features equipment))).
  assert (Hm : (List.length m <= List.length (decodeFeatures (features equipment)))%nat)
    by apply filter_length_le.
  destruct (includesStr (preferredCategories prefs) (category equipment)),
           (includesStr (preferredLocations prefs) (location equipment)),
           ((priceRange_min prefs <=? dailyRate equipment)
            && (dailyRate equipment <=? priceRange_max prefs))%bool,
           (Z.ltb_spec 0 (Z.of_nat (List.length m))),
           (Z.ltb_spec 0 (popularity equipment)),
           (existsb (fun booking => equipmentId booking =? e_id equipment) userBookings);
    cbn [sc_equipment score];
    (split; [reflexivity|]); (split; [lia|]);
    (split; [intros Hcat; try discriminate Hcat; lia|]);
    (split; [intros Hc1 Hc2 Hc3; try discriminate Hc1; try discriminate Hc2;
             rewrite Hc3 in *; cbn [List.length] in *; lia|lia]).
Qed.

(** X29.  The recommendations are at most five, ordered by score, best
    first.  Each is the scored form of an equipment of the listing with a
    score above 30 and at most 100.  An equipment of the listing that
    scores above 30 is recommended, or else five are recommended and each of
    them scores at least as high. *)
Theorem topRecommendations_best (prefs : Preferences) (userBookings : list Booking)
    (allEquipment : list Equipment) :
  let top := topRecommendations decodeFeatures prefs userBookings allEquipment in
  let scored := scoreEquipment decodeFeatures prefs userBookings in
  (List.length top <= 5)%nat /\
  StronglySorted betterFirst top /\
  (forall r, In r top ->
     30 < score r <= 100 /\ In (sc_equipment r) allEquipment /\ r = scored (sc_equipment r)) /\
  (forall e, In e allEquipment -> 30 < score (scored e) ->
     In (scored e) top
     \/ (List.length top = 5%nat /\ forall r, In r top -> score (scored e) <= score r)).
Proof.
  cbv zeta. unfold topRecommendations.
  set (F := filter (fun rec => 30 <? score rec)
                   (map (scoreEquipment decodeFeatures prefs userBookings) allEquipment)).
  set (L := sortByScoreDesc F).
  assert (HL : forall r, In r L <-> In r F).
  { intros r. split; apply Permutation_in;
      [symmetry|]; apply sortByScoreDesc_perm. }
  assert (HF : forall r, In r F <->
            30 < score r /\ exists e, In e allEquipment
                                      /\ r = scoreEquipment decodeFeatures prefs userBookings e).
  { intros r. unfold F. rewrite filter_In, in_map_iff, Z.ltb_lt.
    split; [intros ((e & <- & He) & Hs); eauto|intros (Hs & e & He & ->); eauto]. }
  split; [apply firstn_le_length|].
  split; [apply StronglySorted_firstn, sortByScoreDesc_sorted|].
  split.
  - intros r Hr. apply In_firstn_list, HL, HF in Hr. destruct Hr as (Hs & e & He & ->).
    pose proof (scoreEquipment_bounds_aux prefs userBookings e) as (Heq & Hb).
    rewrite Heq. repeat split; try assumption; lia.
  - intros e He Hs.
    assert (Hin : In (scoreEquipment decodeFeatures prefs userBookings e) L).
    { apply HL, HF. eauto. }
    rewrite <- (firstn_skipn 5 L) in Hin. apply in_app_iff in Hin.
    destruct Hin as [Hin|Hin]; [now left|right].
    split.
    + apply firstn_length_le.
      destruct (le_lt_dec 5 (List.length L)) as [Hle|Hlt]; [exact Hle|].
      rewrite skipn_all2 in Hin by lia. contradiction.
    + intros r Hr.
      apply (StronglySorted_app_order betterFirst (firstn 5 L) (skipn 5 L)); try assumption.
      rewrite firstn_skipn. apply sortByScoreDesc_sorted.
Qed.

End RecommendationFacts.

(** ** Reviews in sequence *)

Lemma filter_update_one (p : Booking -> bool) (f : Booking -> Booking) (x : Booking)
    (l : list Booking) :
  NoDup (map b_id l) -> In x l -> p x = true -> p (f x) = false ->
  S (List.length (filter p (map (fun b => if b_id b =? b_id x then f b else b) l)))
  = List.length (filter p l).
Proof.
  intros Hnd Hin Hpx Hpf. induction l as [|y l IH]; [contradiction|].
  cbn [map] in Hnd. inversion Hnd as [|? ? Hnin Hnd']; subst.
  cbn [map filter]. destruct Hin as [->|Hin].
  - rewrite Z.eqb_refl, Hpf, Hpx. cbn [List.length]. f_equal. f_equal.
    f_equal. rewrite <- (map_id l) at 2. apply map_ext_in. intros b Hb.
    destruct (Z.eqb_spec (b_id b) (b_id x)) as [He|]; [|reflexivity].
    exfalso. apply Hnin. rewrite <- He. now apply in_map.
  - destruct (Z.eqb_spec (b_id y) (b_id x)) as [He|Hne].
    + exfalso. apply Hnin. rewrite He. now apply in_map.
    + destruct (p y); cbn [List.length]; [f_equal|]; now apply IH.
Qed.

(** X30.  In a world with unique booking ids, for a signed-in user: each
    review the route accepts adds one review and lowers by one the number
    of the user's bookings of that equipment that can still be reviewed;
    and when none is left the route answers 400 and writes nothing. *)
Theorem review_consumes_one_booking (u : User) (rq : ReviewRequest) (now : Z) (w : World)
    (equipment : Z) (resp : Response) (w' : World) :
  u_id u <> 0 ->
  NoDup (map b_id (bookings w)) ->
  rv_equipmentId rq = Some equipment ->
  post_api_reviews (Some u) rq now w = (Return resp, w') ->
  (statusCode resp = 200 ->
   S (List.length (filter (reviewableBy (u_id u) equipment) (bookings w')))
   = List.length (filter (reviewableBy (u_id u) equipment) (bookings w))
   /\ List.length (reviews w') = S (List.length (reviews w)))
  /\
  (filter (reviewableBy (u_id u) equipment) (bookings w) = [] ->
   statusCode resp = 400 /\ w' = w).
Proof.
  intros Hu Hnd He Hrun.
  destruct (safeParseReview rq (u_id u)) as [data|] eqn:Hparse.
  2:{ unfold post_api_reviews in Hrun. rewrite Hparse in Hrun.
      injection Hrun as <- <-. split; [discriminate|]. intros _. split; reflexivity. }
  rewrite (post_api_reviews_run u rq now w data Hu Hparse), He in Hrun.
  destruct (find _ _) as [vb|] eqn:Hfind.
  - destruct (find_newest _ _ _ (orderByCreatedAtDesc_sorted _) Hfind) as (Hin & Hp & _).
    apply In_orderByCreatedAtDesc, filter_In in Hin. destruct Hin as [Hin Huser].
    assert (Hx : In vb (filter (reviewableBy (u_id u) equipment) (bookings w))).
    { apply filter_In. split; [exact Hin|]. unfold reviewableBy. now rewrite Huser, Hp. }
    destruct (reviewStorable data).
    2:{ injection Hrun as <- <-. split; [discriminate|].
        intros Hnone. rewrite Hnone in Hx. contradiction. }
    injection Hrun as <- <-.
    split.
    + intros _. cbn [bookings reviews afterUpdateBooking afterCreateReview]. split.
      * apply filter_update_one; try assumption.
        -- unfold reviewableBy. now rewrite Huser, Hp.
        -- unfold reviewableBy, reviewable. cbn [isRated applyBookingPatch set_isRated orElse].
           cbn [negb]. now rewrite !andb_false_r.
      * rewrite length_app. cbn. lia.
    + intros Hnone. exfalso. rewrite Hnone in Hx. contradiction.
  - injection Hrun as <- <-. split; [discriminate|]. intros _. split; reflexivity.
Qed.

Lemma review_consumes_one_booking_witness :
  u_id renter <> 0 /\
  NoDup (map b_id (bookings rentedTwiceWorld)) /\
  exists r1 w1 r2 w2 r3 w3,
    post_api_reviews (Some renter) sampleReview 100 rentedTwiceWorld = (Return r1, w1) /\
    post_api_reviews (Some renter) sampleReview 101 w1 = (Return r2, w2) /\
    post_api_reviews (Some renter) sampleReview 102 w2 = (Return r3, w3) /\
    map statusCode [r1; r2; r3] = [200; 200; 400] /\
    List.length (filter (reviewableBy 20 1) (bookings w1)) = 1%nat /\
    w3 = w2.
Proof.
  assert (Hu : u_id renter <> 0) by discriminate.
  assert (Hnd : NoDup (map b_id (bookings rentedTwiceWorld))).
  { cbn. repeat constructor; cbn; intuition discriminate. }
  split; [exact Hu|]. split; [exact Hnd|].
  destruct (post_api_reviews (Some renter) sampleReview 100 rentedTwiceWorld)
    as [o1 w1] eqn:H1.
  pose proof H1 as V1. vm_compute in V1. injection V1 as <- <-.
  destruct (review_consumes_one_booking renter sampleReview 100 rentedTwiceWorld 1 _ _
              Hu Hnd eq_refl H1) as [Hcount _].
  specialize (Hcount eq_refl). destruct Hcount as [Hcount _].
  do 6 eexists. split; [reflexivity|].
  split; [vm_compute; reflexivity|]. split; [vm_compute; reflexivity|].
  split; [reflexivity|]. split; [|reflexivity].
  apply eq_add_S. etransitivity; [exact Hcount|reflexivity].
Defined.
